(** * PUNCHCARD: a shallow embedding of PUNCHCARD.c and its verified properties

    The C program reads clock-in/clock-out pairs from standard input, sums
    the time worked per day and rounds the sum to the nearest quarter-hour.
    The embedding follows PUNCHCARD.c function by function:

    - C [int] is a 32-bit two's-complement integer, carried as [Z] with the
      wrap-around of every arithmetic operation written out ([Int.wrap]);
    - standard input is a finite [string] of pending characters, followed by
      end-of-file; every reader returns the unread remainder;
    - [printf_s] calls are recorded as a list of output events ([Out]);
    - pointer parameters become values passed in and returned;
    - a local variable that is read before [scanf_s] assigned it holds an
      indeterminate value, supplied by an explicit oracle ([Junk]). *)

From Stdlib Require Import ZArith List String Ascii Bool Lia.
From Stdlib Require Import DecimalString Permutation.
Import ListNotations.

#[local] Open Scope Z_scope.

(** ** Machine integers *)

Module Int.

Definition INT_MIN : Z := -2147483648.
Definition INT_MAX : Z := 2147483647.

(** Reduction of a mathematical integer to the 32-bit signed range. *)
Definition wrap (z : Z) : Z := (z + 2147483648) mod 4294967296 - 2147483648.

Definition in_range (z : Z) : Prop := INT_MIN <= z <= INT_MAX.

Definition add (a b : Z) : Z := wrap (a + b).
Definition sub (a b : Z) : Z := wrap (a - b).
Definition mul (a b : Z) : Z := wrap (a * b).
(** C division truncates toward zero. *)
Definition div (a b : Z) : Z := wrap (Z.quot a b).

End Int.

(** ** Standard input *)

(** The value [getchar] returns at end of input. *)
Definition EOF : Z := -1.

(** A character as [getchar] returns it: an [unsigned char] converted to [int]. *)
Definition code (c : ascii) : Z := Z.of_N (N_of_ascii c).

Definition newline : ascii := "010"%char.
Definition NL : Z := code newline.

Definition getchar (s : string) : Z * string :=
  match s with
  | EmptyString => (EOF, EmptyString)
  | String c rest => (code c, rest)
  end.

(** The loop of [clearBufferJunk]:
    [while ((lastCharacter = getchar()) != target && lastCharacter != EOF
            && lastCharacter != '\n') {}].
    [target] is the value of the [char] argument after promotion to [int]
    (negative for a signed [char] above 127).  Returns the last character
    read and the unread input. *)
Fixpoint clearBufferJunk_scan (target : Z) (s : string) : Z * string :=
  match s with
  | EmptyString => (EOF, EmptyString)
  | String c rest =>
      let lastCharacter := code c in
      if negb (lastCharacter =? target) && negb (lastCharacter =? EOF)
         && negb (lastCharacter =? NL)
      then clearBufferJunk_scan target rest
      else (lastCharacter, rest)
  end.

Definition clearBufferJunk (target : Z) (s : string) : Z * string :=
  let '(lastCharacter, rest) := clearBufferJunk_scan target s in
  if lastCharacter =? EOF then (-1, rest)
  else if (lastCharacter =? target) && negb (target =? NL) then (0, rest)
  else if lastCharacter =? NL then (1, rest)
  else (2, rest).

(** ** Times, and what the program prints *)

(** The three variables one time is read into: [int hour], [int minute],
    [char meridiem]. *)
Record Time : Type := mkTime { hour : Z; minute : Z; meridiem : ascii }.

(** One constructor per [printf_s] call of the program, with its arguments. *)
Inductive Out : Type :=
| Welcome
| Prompt
| HourTooSmall (h : Z)
| HourTooBig (h : Z)
| MinuteTooSmall (m : Z)
| MinuteTooBig (m : Z)
| UnrecognizedMeridiem (c : ascii)
| BadStartTime
| BadEndTime
| Echo (startTime endTime : Time)
| ActualTime (hours minutes : Z)
| ActualTotalTime (hours minutes : Z)
| RoundedTotalTime (hours minutes : Z).

(** ** [scanf_s(" %d : %d %c", hour, minute, meridiem)]

    The conversion follows the C library: a blank in the format skips any
    white space, [%d] skips white space and reads an optional sign and at
    least one decimal digit, [:] must match the next character, [%c] reads
    one character.  A number too large for an [int] is reduced to the
    [int] range.  The first directive that fails ends the call, and the
    variables not yet assigned keep the value they had; the program never
    looks at the number of assignments [scanf_s] returns. *)

Definition isspace (c : ascii) : bool :=
  let n := code c in (n =? 32) || ((9 <=? n) && (n <=? 13)).

Definition isdigit (c : ascii) : bool :=
  let n := code c in (48 <=? n) && (n <=? 57).

Fixpoint skip_space (s : string) : string :=
  match s with
  | EmptyString => EmptyString
  | String c rest => if isspace c then skip_space rest else s
  end.

Fixpoint scan_digits (acc : Z) (s : string) : Z * string :=
  match s with
  | EmptyString => (acc, EmptyString)
  | String c rest =>
      if isdigit c then scan_digits (10 * acc + (code c - 48)) rest
      else (acc, s)
  end.

(** [%d]: [None] when no number could be read. *)
Definition scan_int (s : string) : option Z * string :=
  let s0 := skip_space s in
  let '(negative, s1) :=
    match s0 with
    | String "-"%char rest => (true, rest)
    | String "+"%char rest => (false, rest)
    | _ => (false, s0)
    end in
  match s1 with
  | EmptyString => (None, s1)
  | String c _ =>
      if isdigit c then
        let '(v, s2) := scan_digits 0 s1 in
        (Some (Int.wrap (if negative then - v else v)), s2)
      else (None, s1)
  end.

Definition scanf_time (t : Time) (s : string) : Time * string :=
  match scan_int s with
  | (None, s1) => (t, s1)
  | (Some h, s1) =>
      match skip_space s1 with
      | String ":"%char s2 =>
          match scan_int s2 with
          | (None, s3) => (mkTime h (minute t) (meridiem t), s3)
          | (Some m, s3) =>
              match skip_space s3 with
              | EmptyString => (mkTime h m (meridiem t), EmptyString)
              | String c s4 => (mkTime h m c, s4)
              end
          end
      | s2 => (mkTime h (minute t) (meridiem t), s2)
      end
  end.

(** ** [readTime] *)

(** The upper-case to lower-case step of [readTime]. *)
Definition lowerMeridiem (c : ascii) : ascii :=
  if (c =? "A")%char then "a"%char
  else if (c =? "P")%char then "p"%char
  else c.

(** [t] holds the contents of [*hour], [*minute], [*meridiem] at the call.
    Returns the return value, the contents after the call, the unread input
    and the messages printed. *)
Definition readTime (t : Time) (s : string) : Z * Time * string * list Out :=
  let '(scanned, rest) := scanf_time t s in
  let h := hour scanned in
  let m := minute scanned in
  let c := lowerMeridiem (meridiem scanned) in
  if (h >? 0) && (h <? 13) && (m >? -1) && (m <? 60)
     && ((c =? "a")%char || (c =? "p")%char)
  then (0, mkTime h m c, rest, [])
  else (-1, mkTime h m c, rest,
        (if h <=? 0 then [HourTooSmall h] else [])
        ++ (if h >=? 13 then [HourTooBig h] else [])
        ++ (if m <=? -1 then [MinuteTooSmall m] else [])
        ++ (if m >=? 60 then [MinuteTooBig m] else [])
        ++ (if negb (c =? "a")%char && negb (c =? "p")%char
            then [UnrecognizedMeridiem c] else [])).

(** ** [toMilitaryTime] and [roundTime] *)

Definition toMilitaryTime (hour : Z) (meridiem : ascii) : Z :=
  if hour =? 12 then
    if (meridiem =? "a")%char then Int.add hour 12 else hour
  else
    if (meridiem =? "p")%char then Int.add hour 12 else hour.

Definition roundTime (hourDifference minuteDifference : Z) : Z * Z :=
  let minuteDifference := Int.mul (Int.div (Int.add minuteDifference 7) 15) 15 in
  if minuteDifference =? 60 then (Int.add hourDifference 1, 0)
  else (hourDifference, minuteDifference).

(** ** [readTimesForDay] *)

(** Lines 267-286: both times to 24-hour form, then the difference as
    ([hourDifference], [minuteDifference]). *)
Definition timeDifference (startTime endTime : Time) : Z * Z :=
  let startHour := toMilitaryTime (hour startTime) (meridiem startTime) in
  let endHour := toMilitaryTime (hour endTime) (meridiem endTime) in
  let hourDifference := Int.sub endHour startHour in
  let minuteDifference := Int.sub (minute endTime) (minute startTime) in
  let '(hourDifference, minuteDifference) :=
    if minuteDifference <? 0
    then (Int.sub hourDifference 1, Int.add minuteDifference 60)
    else (hourDifference, minuteDifference) in
  let hourDifference :=
    if hourDifference <? 0 then Int.add hourDifference 24
    else hourDifference in
  (hourDifference, minuteDifference).

(** Lines 288-296: add one pair's difference to the day's totals. *)
Definition accumulate (totalHours totalMinutes hourDifference minuteDifference : Z)
  : Z * Z :=
  let totalMinutes := Int.add totalMinutes minuteDifference in
  let totalHours := Int.add totalHours hourDifference in
  if totalMinutes >=? 60
  then (Int.add totalHours 1, Int.sub totalMinutes 60)
  else (totalHours, totalMinutes).

(** The state [readTimesForDay] works on: the two totals behind its pointer
    arguments, the unread input and everything printed so far. *)
Record Session : Type := mkSession {
  totalHours : Z;
  totalMinutes : Z;
  stdin : string;
  stdout : list Out
}.

(** Outcome of one pass through the body of the [while] loop. *)
Inductive Step : Type :=
| Return (value : Z) (st : Session)
| Continue (st : Session).

Definition sameTime (a b : Time) : bool :=
  (hour a =? hour b) && (minute a =? minute b)
  && (meridiem a =? meridiem b)%char.

(** The loop body.  [junk] gives the indeterminate initial contents of the
    start and end variables declared in this pass. *)
Definition pairStep (junk : Time * Time) (st : Session) : Step :=
  let '(r1, startTime, s1, o1) := readTime (fst junk) (stdin st) in
  if r1 =? -1 then
    let '(_, s2) := clearBufferJunk NL s1 in
    Return (-1) (mkSession (totalHours st) (totalMinutes st) s2
                   (stdout st ++ o1 ++ [BadStartTime]))
  else
    let '(_, s2) := clearBufferJunk (code "-") s1 in
    let '(r2, endTime, s3, o2) := readTime (snd junk) s2 in
    if r2 =? -1 then
      let '(_, s4) := clearBufferJunk NL s3 in
      Return (-1) (mkSession (totalHours st) (totalMinutes st) s4
                     (stdout st ++ o1 ++ o2 ++ [BadEndTime]))
    else
      let echoed := stdout st ++ o1 ++ o2 ++ [Echo startTime endTime] in
      if sameTime startTime endTime then
        Return 0 (mkSession (totalHours st) (totalMinutes st) s3 echoed)
      else
        let '(hourDifference, minuteDifference) :=
          timeDifference startTime endTime in
        let '(th, tm) :=
          accumulate (totalHours st) (totalMinutes st)
                     hourDifference minuteDifference in
        let out := echoed ++ [ActualTime hourDifference minuteDifference] in
        let '(endFound, s4) := clearBufferJunk (code ",") s3 in
        if negb (endFound =? 1) && negb (endFound =? -1)
        then Continue (mkSession th tm s4 out)
        else Return 1 (mkSession th tm s4 out).

(** Indeterminate values for every pass of the loop. *)
Definition Junk : Type := nat -> Time * Time.

Definition later {A : Type} (f : nat -> A) : nat -> A := fun i => f (S i).

(** The [while] loop, by recursion on a bound on the number of passes. *)
Fixpoint dayLoop (fuel : nat) (junk : Junk) (st : Session) : option (Z * Session) :=
  match fuel with
  | O => None
  | S fuel' =>
      match pairStep (junk O) st with
      | Return value st' => Some (value, st')
      | Continue st' => dayLoop fuel' (later junk) st'
      end
  end.

(** Each pass that continues has consumed a comma, so one pass more than
    there are unread characters is always enough ([dayLoop_total]). *)
Definition readTimesForDay (junk : Junk) (st : Session) : option (Z * Session) :=
  dayLoop (S (String.length (stdin st))) junk st.

(** ** [main] *)

(** The [while (continueRunning)] loop, by recursion on a bound on the
    number of days.  Returns what was printed and left unread within that
    bound, and the exit status if [main] returned within it: a status of
    [None] for every bound means that [main] never returns.  The call of
    [readTimesForDay] always returns ([readTimesForDay_total]), so its
    [None] branch is never taken.  The float printed as rounded total is
    [minutes / 60 + hours] of the [RoundedTotalTime] event. *)
Fixpoint mainLoop (fuel : nat) (junk : nat -> Junk) (s : string) (out : list Out)
  : option Z * string * list Out :=
  match fuel with
  | O => (None, s, out)
  | S fuel' =>
      match readTimesForDay (junk O) (mkSession 0 0 s (out ++ [Prompt])) with
      | None => (None, s, out)
      | Some (continueRunning, st) =>
          if continueRunning =? -1 then
            mainLoop fuel' (later junk) (stdin st) (stdout st)
          else
            let '(h, m) := roundTime (totalHours st) (totalMinutes st) in
            let out' := stdout st
                        ++ [ActualTotalTime (totalHours st) (totalMinutes st);
                            RoundedTotalTime h m] in
            if continueRunning =? 0 then (Some 0, stdin st, out')
            else mainLoop fuel' (later junk) (stdin st) out'
      end
  end.

Definition main (fuel : nat) (junk : nat -> Junk) (s : string)
  : option Z * string * list Out :=
  mainLoop fuel junk s [Welcome].

(** ** Notions of the specification *)

(** A time that passes the checks of [readTime]. *)
Definition valid (t : Time) : Prop :=
  1 <= hour t <= 12 /\ 0 <= minute t <= 59
  /\ (meridiem t = "a"%char \/ meridiem t = "p"%char).

(** Minutes on the 24-hour clock of the program: the hour from
    [toMilitaryTime], times 60, plus the minute. *)
Definition linear (t : Time) : Z :=
  60 * toMilitaryTime (hour t) (meridiem t) + minute t.

(** Minutes since midnight in the words of the specification: base 0 for
    12 AM and 720 for 12 PM, otherwise 60 times the hour, plus 720 if PM;
    then the minute is added. *)
Definition specLinear (t : Time) : Z :=
  (if hour t =? 12
   then (if (meridiem t =? "a")%char then 0 else 720)
   else 60 * hour t + (if (meridiem t =? "p")%char then 720 else 0))
  + minute t.

(** The totals after the differences [ds] of successive pairs, each given as
    (hours, minutes), were added to totals of zero. *)
Definition accumulateAll (ds : list (Z * Z)) : Z * Z :=
  fold_left (fun totals d => accumulate (fst totals) (snd totals) (fst d) (snd d))
            ds (0, 0).

(** The length in minutes of all of [ds] together. *)
Definition minutesOf (ds : list (Z * Z)) : Z :=
  fold_right (fun d acc => 60 * fst d + snd d + acc) 0 ds.

(** [passes junk st junk' st']: from the state [st] at the head of the loop
    of [readTimesForDay], zero or more passes, each of which processed a pair
    and found a comma after it, lead to the state [st'] at the head of the
    loop. *)
Inductive passes : Junk -> Session -> Junk -> Session -> Prop :=
| passes_here (junk : Junk) (st : Session) : passes junk st junk st
| passes_next (junk junk' : Junk) (st st1 st' : Session) :
    pairStep (junk O) st = Continue st1 ->
    passes (later junk) st1 junk' st' ->
    passes junk st junk' st'.

(** What [main] has printed when a call of [readTimesForDay] that returned
    [v] in state [st] has been dealt with: nothing more after -1, the day's
    actual and rounded totals otherwise. *)
Definition dayOutput (v : Z) (st : Session) : list Out :=
  if v =? -1 then stdout st
  else stdout st
       ++ [ActualTotalTime (totalHours st) (totalMinutes st);
           RoundedTotalTime
             (fst (roundTime (totalHours st) (totalMinutes st)))
             (snd (roundTime (totalHours st) (totalMinutes st)))].

(** [daysPass junks s out k junks' s' out']: from the head of the loop of
    [main] with [s] unread and [out] printed, [k] calls of [readTimesForDay]
    that did not return 0 lead to the head of the loop with [s'] unread and
    [out'] printed. *)
Inductive daysPass :
  (nat -> Junk) -> string -> list Out -> nat ->
  (nat -> Junk) -> string -> list Out -> Prop :=
| days_here (junks : nat -> Junk) (s : string) (out : list Out) :
    daysPass junks s out O junks s out
| days_next (junks junks' : nat -> Junk) (s s' : string) (out out' : list Out)
            (k : nat) (v : Z) (st : Session) :
    readTimesForDay (junks O) (mkSession 0 0 s (out ++ [Prompt])) = Some (v, st) ->
    v <> 0 ->
    daysPass (later junks) (stdin st) (dayOutput v st) k junks' s' out' ->
    daysPass junks s out (S k) junks' s' out'.

(** [st] with [o] printed before its output. *)
Definition prependOut (o : list Out) (st : Session) : Session :=
  mkSession (totalHours st) (totalMinutes st) (stdin st) (o ++ stdout st).

(** The lines of a finalized day: its actual and its rounded total. *)
Definition isDayTotal (o : Out) : bool :=
  match o with
  | ActualTotalTime _ _ | RoundedTotalTime _ _ => true
  | _ => false
  end.

Definition finalized (out : list Out) : list Out := filter isDayTotal out.

(** A time as [readTime] leaves it when [scanf_s] assigned nothing. *)
Definition unassigned (t : Time) : Time :=
  mkTime (hour t) (minute t) (lowerMeridiem (meridiem t)).

(** Indeterminate values that make a sentinel pair: both valid, and equal. *)
Definition junkStops (j : Time * Time) : Prop :=
  valid (unassigned (fst j)) /\ valid (unassigned (snd j))
  /\ unassigned (fst j) = unassigned (snd j).

(** Every variable starts as 0. *)
Definition zeroTime : Time := mkTime 0 0 "000"%char.
Definition zeroJunk : nat -> Junk := fun _ _ => (zeroTime, zeroTime).

(** A line of text as typed: the text and its newline. *)
Definition line (text : string) : string :=
  (text ++ String newline EmptyString)%string.

(** Input left once the rest of the current line, newline included, is
    dropped. *)
Fixpoint afterNewline (s : string) : string :=
  match s with
  | EmptyString => EmptyString
  | String c rest => if (c =? newline)%char then rest else afterNewline rest
  end.

(** ** The echo of a time, and a day as typed *)

(** [%02d] of [printf_s]: the decimal digits of the number, sign included,
    with a 0 in front when that is less than two characters. *)
Definition format02d (n : Z) : string :=
  let digits := NilZero.string_of_int (Z.to_int n) in
  if (String.length digits <? 2)%nat then String "0"%char digits else digits.

(** A number as it is usually written: its decimal digits, as [%d] of
    [printf] gives them. *)
Definition decimal (n : Z) : string := NilZero.string_of_int (Z.to_int n).

(** Zeros only. *)
Fixpoint allZeros (z : string) : bool :=
  match z with
  | EmptyString => true
  | String c rest => (c =? "0")%char && allZeros rest
  end.

(** A time as the [START:] and [END:] lines show it: [%02d:%02d%cm]. *)
Definition formatTime (t : Time) : string :=
  (format02d (hour t)
   ++ String ":"%char (format02d (minute t)
                       ++ String (meridiem t) (String "m"%char EmptyString)))%string.

(** A pair as the program asks for it: start, hyphen, end. *)
Definition formatPair (p : Time * Time) : string :=
  (formatTime (fst p) ++ String "-"%char (formatTime (snd p)))%string.

(** The pairs of a day separated by a comma and a blank, as in the example
    of the header of the program. *)
Fixpoint formatPairs (ps : list (Time * Time)) : string :=
  match ps with
  | [] => EmptyString
  | [p] => formatPair p
  | p :: rest =>
      (formatPair p ++ String ","%char (String " "%char (formatPairs rest)))%string
  end.

(** The length in minutes of the difference the program computes. *)
Definition elapsedMinutes (startTime endTime : Time) : Z :=
  60 * fst (timeDifference startTime endTime)
  + snd (timeDifference startTime endTime).

(** The differences of the pairs of a day, in order. *)
Definition differences (ps : list (Time * Time)) : list (Z * Z) :=
  map (fun p => timeDifference (fst p) (snd p)) ps.

(** What [readTimesForDay] prints for the pairs of a day. *)
Definition echoes (ps : list (Time * Time)) : list Out :=
  flat_map (fun p =>
              [Echo (fst p) (snd p);
               ActualTime (fst (timeDifference (fst p) (snd p)))
                          (snd (timeDifference (fst p) (snd p)))]) ps.

(** White space only. *)
Fixpoint allSpace (w : string) : bool :=
  match w with
  | EmptyString => true
  | String c rest => isspace c && allSpace rest
  end.

(** No character of [s] has the code [x]. *)
Fixpoint lacks (x : Z) (s : string) : bool :=
  match s with
  | EmptyString => true
  | String c rest => negb (code c =? x) && lacks x rest
  end.

(** A pair the program adds to the totals: two valid times that are not
    the same. *)
Definition addable (p : Time * Time) : Prop :=
  valid (fst p) /\ valid (snd p) /\ sameTime (fst p) (snd p) = false.

(** One pass added the pair [p] to the totals of [st] and printed its echo
    and its time. *)
Definition pairAdded (p : Time * Time) (st st' : Session) : Prop :=
  addable p
  /\ (totalHours st', totalMinutes st')
     = accumulate (totalHours st) (totalMinutes st)
                  (fst (timeDifference (fst p) (snd p)))
                  (snd (timeDifference (fst p) (snd p)))
  /\ stdout st' = stdout st ++ echoes [p].

(** [rest] is what is left of [s] after some of it was read. *)
Definition leftOf (rest s : string) : Prop :=
  exists consumed : string, s = (consumed ++ rest)%string.

(** [rest] begins where [s] is at its end or right after one of its
    newlines. *)
Definition atLineEnd (rest s : string) : Prop :=
  rest = EmptyString
  \/ exists consumed : string, s = (consumed ++ String newline rest)%string.

(** What the program may print, event by event: echoed times are valid, a
    pair's time is positive and within a day, totals have minutes below 60,
    rounded totals are on a quarter. *)
Definition wellFormed (o : Out) : Prop :=
  match o with
  | Echo a b => valid a /\ valid b
  | ActualTime h m => 0 <= h <= 23 /\ 0 <= m <= 59 /\ 0 < 60 * h + m
  | ActualTotalTime h m => 0 <= h /\ 0 <= m <= 59
  | RoundedTotalTime h m => 0 <= h /\ (m = 0 \/ m = 15 \/ m = 30 \/ m = 45)
  | _ => True
  end.

(** ** The earlier version of the program (one pair per line)

    [readTime], [toMilitaryTime], [roundTime] and the computation of the
    difference are the same text in both versions. *)

(** A message of the later version. *)
Definition Message : Type := Out.

Module Legacy.

(** [while ((temporary = getchar()) != '-' && temporary != EOF) {}] *)
Fixpoint skipBufferJunk (s : string) : string :=
  match s with
  | EmptyString => EmptyString
  | String c rest =>
      if negb (code c =? code "-"%char) && negb (code c =? EOF)
      then skipBufferJunk rest
      else rest
  end.

(** [while ((temporary = getchar()) != '\n' && temporary != EOF) {}] *)
Fixpoint cleanBuffer (s : string) : string :=
  match s with
  | EmptyString => EmptyString
  | String c rest =>
      if negb (code c =? NL) && negb (code c =? EOF)
      then cleanBuffer rest
      else rest
  end.

(** The messages of the earlier version: those it shares with the later
    one, and its own welcome, prompt and rounded time. *)
Inductive Out : Type :=
| Welcome
| Prompt
| Shared (o : Message)
| RoundedTime (hours minutes : Z).

(** Outcome of one pass through the [while (1)] loop of [main]. *)
Inductive Step : Type :=
| Break (s : string) (out : list Out)
| Again (s : string) (out : list Out).

Definition pass (junk : Time * Time) (s : string) (out : list Out) : Step :=
  let out := out ++ [Prompt] in
  let '(r1, startTime, s1, o1) := readTime (fst junk) s in
  if r1 =? -1 then
    Again (cleanBuffer s1) (out ++ map Shared o1 ++ [Shared BadStartTime])
  else
    let s2 := skipBufferJunk s1 in
    let '(r2, endTime, s3, o2) := readTime (snd junk) s2 in
    if r2 =? -1 then
      Again (cleanBuffer s3)
            (out ++ map Shared o1 ++ map Shared o2 ++ [Shared BadEndTime])
    else
      let echoed := out ++ map Shared o1 ++ map Shared o2
                    ++ [Shared (Echo startTime endTime)] in
      if sameTime startTime endTime then Break s3 echoed
      else
        let '(hourDifference, minuteDifference) :=
          timeDifference startTime endTime in
        let '(roundedHours, roundedMinutes) :=
          roundTime hourDifference minuteDifference in
        Again (cleanBuffer s3)
              (echoed ++ [Shared (ActualTime hourDifference minuteDifference);
                          RoundedTime roundedHours roundedMinutes]).

(** The loop, by recursion on a bound on the number of passes; the status
    is [None] while [main] has not returned. *)
Fixpoint mainLoop (fuel : nat) (junk : Junk) (s : string) (out : list Out)
  : option Z * string * list Out :=
  match fuel with
  | O => (None, s, out)
  | S fuel' =>
      match pass (junk O) s out with
      | Break s' out' => (Some 0, s', out')
      | Again s' out' => mainLoop fuel' (later junk) s' out'
      end
  end.

Definition main (fuel : nat) (junk : Junk) (s : string)
  : option Z * string * list Out :=
  mainLoop fuel junk s [Welcome].

End Legacy.

(** * Properties *)

(** ** Machine integers *)

Lemma wrap_small (z : Z) : Int.in_range z -> Int.wrap z = z.
Proof.
  unfold Int.in_range, Int.INT_MIN, Int.INT_MAX, Int.wrap. intros H.
  rewrite Z.mod_small; lia.
Qed.

Lemma wrap_range (z : Z) : Int.in_range (Int.wrap z).
Proof.
  unfold Int.in_range, Int.INT_MIN, Int.INT_MAX, Int.wrap.
  pose proof (Z.mod_pos_bound (z + 2147483648) 4294967296). lia.
Qed.

Lemma add_small (a b : Z) : Int.in_range (a + b) -> Int.add a b = a + b.
Proof. apply wrap_small. Qed.

Lemma sub_small (a b : Z) : Int.in_range (a - b) -> Int.sub a b = a - b.
Proof. apply wrap_small. Qed.

Lemma mul_small (a b : Z) : Int.in_range (a * b) -> Int.mul a b = a * b.
Proof. apply wrap_small. Qed.

Lemma div_small (a b : Z) : Int.in_range (Z.quot a b) -> Int.div a b = Z.quot a b.
Proof. apply wrap_small. Qed.

(** Rewrites the machine operations of the goal into exact arithmetic,
    leaving the range conditions to [lia]. *)
Ltac int_range := unfold Int.in_range, Int.INT_MIN, Int.INT_MAX; lia.

Ltac exact_arith :=
  repeat match goal with
    | |- context [Int.add ?a ?b] => rewrite (add_small a b) by int_range
    | |- context [Int.sub ?a ?b] => rewrite (sub_small a b) by int_range
    | |- context [Int.mul ?a ?b] => rewrite (mul_small a b) by int_range
    end.

(** ** [clearBufferJunk] *)

Lemma code_range (c : ascii) : 0 <= code c <= 255.
Proof.
  unfold code. pose proof (N_ascii_bounded c). lia.
Qed.

Lemma code_inj (c d : ascii) : code c = code d -> c = d.
Proof.
  unfold code. intros H. apply N2Z.inj in H.
  rewrite <- (ascii_N_embedding c), <- (ascii_N_embedding d), H. reflexivity.
Qed.

(** One turn of the loop of [clearBufferJunk], with its call of [getchar]. *)
Lemma clearBufferJunk_scan_getchar (target : Z) (s : string) :
  clearBufferJunk_scan target s
  = let '(lastCharacter, rest) := getchar s in
    if negb (lastCharacter =? target) && negb (lastCharacter =? EOF)
       && negb (lastCharacter =? NL)
    then clearBufferJunk_scan target rest
    else (lastCharacter, rest).
Proof.
  destruct s as [|c rest]; [|reflexivity].
  simpl. rewrite andb_false_r. reflexivity.
Qed.

Lemma clearBufferJunk_scan_stop (target : Z) (s : string) :
  let lc := fst (clearBufferJunk_scan target s) in
  lc = target \/ lc = EOF \/ lc = NL.
Proof.
  induction s as [|c rest IH]; simpl.
  - right; left; reflexivity.
  - destruct (Z.eqb_spec (code c) target) as [Et|Et]; simpl.
    + left. exact Et.
    + destruct (Z.eqb_spec (code c) EOF) as [Ee|Ee]; simpl.
      * right; left. exact Ee.
      * destruct (Z.eqb_spec (code c) NL) as [En|En]; simpl.
        -- right; right. exact En.
        -- exact IH.
Qed.

Lemma clearBufferJunk_scan_length (target : Z) (s : string) :
  (String.length (snd (clearBufferJunk_scan target s)) <= String.length s)%nat.
Proof.
  induction s as [|c rest IH]; simpl.
  - lia.
  - destruct (negb (code c =? target) && negb (code c =? EOF)
              && negb (code c =? NL)); simpl; lia.
Qed.

Lemma clearBufferJunk_scan_consumes (target : Z) (s : string) :
  fst (clearBufferJunk_scan target s) <> EOF ->
  (String.length (snd (clearBufferJunk_scan target s)) < String.length s)%nat.
Proof.
  induction s as [|c rest IH]; simpl.
  - intros H. exfalso. apply H. reflexivity.
  - destruct (negb (code c =? target) && negb (code c =? EOF)
              && negb (code c =? NL)); simpl.
    + intros H. specialize (IH H). lia.
    + intros _. lia.
Qed.

Lemma clearBufferJunk_rest (target : Z) (s : string) :
  snd (clearBufferJunk target s) = snd (clearBufferJunk_scan target s).
Proof.
  unfold clearBufferJunk.
  destruct (clearBufferJunk_scan target s) as [lc rest]; simpl.
  destruct (lc =? EOF); [reflexivity|].
  destruct ((lc =? target) && negb (target =? NL)); [reflexivity|].
  destruct (lc =? NL); reflexivity.
Qed.

Lemma clearBufferJunk_length (target : Z) (s : string) :
  (String.length (snd (clearBufferJunk target s)) <= String.length s)%nat.
Proof.
  rewrite clearBufferJunk_rest. apply clearBufferJunk_scan_length.
Qed.

Lemma clearBufferJunk_consumes (target : Z) (s : string) :
  fst (clearBufferJunk target s) <> -1 ->
  (String.length (snd (clearBufferJunk target s)) < String.length s)%nat.
Proof.
  intros H. rewrite clearBufferJunk_rest.
  apply clearBufferJunk_scan_consumes. intros He. apply H.
  unfold clearBufferJunk.
  destruct (clearBufferJunk_scan target s) as [lc rest]; simpl in *.
  rewrite He. reflexivity.
Qed.

(** With the newline as target the scan drops the rest of the line. *)
Lemma clearBufferJunk_newline (s : string) :
  snd (clearBufferJunk NL s) = afterNewline s.
Proof.
  rewrite clearBufferJunk_rest.
  induction s as [|c rest IH]; simpl.
  - reflexivity.
  - destruct (Ascii.eqb_spec c newline) as [E|E].
    + subst c. reflexivity.
    + destruct (Z.eqb_spec (code c) NL) as [En|En].
      * exfalso. apply E. apply code_inj. exact En.
      * pose proof (code_range c) as Hc.
        destruct (Z.eqb_spec (code c) EOF) as [Ee|Ee].
        -- unfold EOF in Ee. lia.
        -- simpl. exact IH.
Qed.

(** C10.  For every target character and every input, [clearBufferJunk]
    returns -1 exactly when the scan stopped at end of input, 1 exactly when
    it stopped at a newline, and 0 exactly when it stopped at a target that
    is not the newline; it returns nothing else, so the fallback branch
    returning 2 is never taken, and with the newline as target the result is
    never 0. *)
Theorem clearBufferJunk_codes (target : Z) (s : string) :
  let lastCharacter := fst (clearBufferJunk_scan target s) in
  let r := fst (clearBufferJunk target s) in
  (r = -1 \/ r = 0 \/ r = 1) /\ r <> 2
  /\ (r = -1 <-> lastCharacter = EOF)
  /\ (r = 0 <-> lastCharacter = target /\ lastCharacter <> EOF /\ target <> NL)
  /\ (r = 1 <-> lastCharacter = NL)
  /\ fst (clearBufferJunk NL s) <> 0.
Proof.
  assert (Hnl : fst (clearBufferJunk NL s) <> 0).
  { unfold clearBufferJunk.
    destruct (clearBufferJunk_scan NL s) as [lc rest]; simpl.
    destruct (lc =? EOF); destruct (lc =? NL); simpl; lia. }
  unfold clearBufferJunk.
  pose proof (clearBufferJunk_scan_stop target s) as Hstop.
  destruct (clearBufferJunk_scan target s) as [lc rest]. simpl in Hstop.
  assert (HNL : NL = 10) by reflexivity.
  unfold EOF in *. simpl fst.
  destruct (Z.eqb_spec lc (-1)) as [Ee|Ee]; simpl.
  - repeat split; try lia; exact Hnl.
  - destruct (Z.eqb_spec lc target) as [Et|Et];
      destruct (Z.eqb_spec target NL) as [Etn|Etn]; simpl;
      destruct (Z.eqb_spec lc NL) as [En|En]; simpl;
      repeat split; try lia; exact Hnl.
Qed.

(** ** [scanf_s] never gives input back *)

Lemma skip_space_length (s : string) :
  (String.length (skip_space s) <= String.length s)%nat.
Proof.
  induction s as [|c rest IH]; simpl.
  - lia.
  - destruct (isspace c); simpl; lia.
Qed.

Lemma scan_digits_length (s : string) :
  forall acc, (String.length (snd (scan_digits acc s)) <= String.length s)%nat.
Proof.
  induction s as [|c rest IH]; intros acc; cbn [scan_digits].
  - simpl. lia.
  - destruct (isdigit c).
    + apply Nat.le_trans with (1 := IH (10 * acc + (code c - 48))).
      apply Nat.le_succ_diag_r.
    + simpl. lia.
Qed.

Lemma scan_int_length (s : string) :
  (String.length (snd (scan_int s)) <= String.length s)%nat.
Proof.
  unfold scan_int.
  pose proof (skip_space_length s) as Hs.
  assert (Hsign : forall s0 : string,
    (String.length (snd (match s0 with
                         | String "-"%char rest => (true, rest)
                         | String "+"%char rest => (false, rest)
                         | _ => (false, s0)
                         end)) <= String.length s0)%nat).
  { intros s0. destruct s0 as [|c rest]; simpl; [lia|].
    destruct c as [[] [] [] [] [] [] [] []]; simpl; lia. }
  specialize (Hsign (skip_space s)).
  destruct (match skip_space s with
            | String "-"%char rest => (true, rest)
            | String "+"%char rest => (false, rest)
            | _ => (false, skip_space s)
            end) as [negative s1].
  simpl in Hsign.
  destruct s1 as [|c rest].
  - simpl. lia.
  - destruct (isdigit c) eqn:Ed.
    + pose proof (scan_digits_length (String c rest) 0) as Hd.
      destruct (scan_digits 0 (String c rest)) as [v s2].
      simpl in *. lia.
    + simpl in *. lia.
Qed.

Lemma scanf_time_length (t : Time) (s : string) :
  (String.length (snd (scanf_time t s)) <= String.length s)%nat.
Proof.
  unfold scanf_time.
  pose proof (scan_int_length s) as H1.
  destruct (scan_int s) as [[h|] s1]; simpl in H1; [|simpl; lia].
  pose proof (skip_space_length s1) as H2.
  destruct (skip_space s1) as [|c s2] eqn:E2; [simpl; lia|].
  assert (Hcolon : (String.length s2 < String.length s)%nat) by (simpl in H2; lia).
  assert (Hgoal :
    (String.length (snd (match scan_int s2 with
                         | (Some m, s3) =>
                             match skip_space s3 with
                             | EmptyString => (mkTime h m (meridiem t), EmptyString)
                             | String c0 s4 => (mkTime h m c0, s4)
                             end
                         | (None, s3) => (mkTime h (minute t) (meridiem t), s3)
                         end)) <= String.length s)%nat).
  { pose proof (scan_int_length s2) as H3.
    destruct (scan_int s2) as [[m|] s3]; simpl in H3; [|simpl; lia].
    pose proof (skip_space_length s3) as H4.
    destruct (skip_space s3) as [|c0 s4]; simpl in *; lia. }
  destruct c as [[] [] [] [] [] [] [] []];
    first [exact Hgoal | simpl in *; lia].
Qed.

(** ** [readTime] *)

Lemma readTime_length (t : Time) (s : string) :
  (String.length (snd (fst (readTime t s))) <= String.length s)%nat.
Proof.
  unfold readTime.
  pose proof (scanf_time_length t s) as H.
  destruct (scanf_time t s) as [scanned rest]. simpl in H.
  destruct ((hour scanned >? 0) && (hour scanned <? 13)
            && (minute scanned >? -1) && (minute scanned <? 60)
            && ((lowerMeridiem (meridiem scanned) =? "a")%char
                || (lowerMeridiem (meridiem scanned) =? "p")%char));
    simpl; exact H.
Qed.

(** The test of [readTime] is the validity of the time left in the
    variables. *)
Lemma readTime_check (h m : Z) (c : ascii) :
  (h >? 0) && (h <? 13) && (m >? -1) && (m <? 60)
  && ((c =? "a")%char || (c =? "p")%char) = true
  <-> valid (mkTime h m c).
Proof.
  unfold valid; simpl.
  rewrite !andb_true_iff, orb_true_iff, !Z.gtb_ltb, !Z.ltb_lt.
  rewrite !Ascii.eqb_eq. intuition lia.
Qed.

(** What [readTime] returns, from the values it leaves in the variables. *)
Lemma readTime_cases (t : Time) (s : string) :
  let '(r, t', rest, msgs) := readTime t s in
  let h := hour t' in
  let m := minute t' in
  let c := meridiem t' in
  rest = snd (scanf_time t s)
  /\ t' = mkTime (hour (fst (scanf_time t s))) (minute (fst (scanf_time t s)))
                 (lowerMeridiem (meridiem (fst (scanf_time t s))))
  /\ ((r = 0 /\ valid t' /\ msgs = [])
      \/ (r = -1 /\ ~ valid t'
          /\ msgs = (if h <=? 0 then [HourTooSmall h] else [])
                    ++ (if h >=? 13 then [HourTooBig h] else [])
                    ++ (if m <=? -1 then [MinuteTooSmall m] else [])
                    ++ (if m >=? 60 then [MinuteTooBig m] else [])
                    ++ (if negb (c =? "a")%char && negb (c =? "p")%char
                        then [UnrecognizedMeridiem c] else []))).
Proof.
  unfold readTime.
  destruct (scanf_time t s) as [scanned rest]. simpl fst. simpl snd.
  destruct ((hour scanned >? 0) && (hour scanned <? 13)
            && (minute scanned >? -1) && (minute scanned <? 60)
            && ((lowerMeridiem (meridiem scanned) =? "a")%char
                || (lowerMeridiem (meridiem scanned) =? "p")%char)) eqn:E;
    cbv zeta; cbn [hour minute meridiem];
    (split; [reflexivity|split; [reflexivity|]]).
  - left. apply readTime_check in E. auto.
  - right. split; [reflexivity|split; [|reflexivity]].
    intros Hv. apply readTime_check in Hv. congruence.
Qed.

Lemma lowerMeridiem_ok (c : ascii) :
  (lowerMeridiem c = "a"%char \/ lowerMeridiem c = "p"%char)
  <-> (c = "a"%char \/ c = "p"%char \/ c = "A"%char \/ c = "P"%char).
Proof.
  unfold lowerMeridiem.
  destruct (Ascii.eqb_spec c "A"%char) as [HA|HA];
    [subst c; split; intros _; auto|].
  destruct (Ascii.eqb_spec c "P"%char) as [HP|HP];
    [subst c; split; intros _; auto|].
  split; [intros [H|H]; auto|intros [H|[H|[H|H]]]; auto; contradiction].
Qed.

(** The list of diagnostics printed for the values [h], [m], [c]. *)
Lemma diagnostics_In (h m : Z) (c : ascii) (o : Out) :
  In o ((if h <=? 0 then [HourTooSmall h] else [])
        ++ (if h >=? 13 then [HourTooBig h] else [])
        ++ (if m <=? -1 then [MinuteTooSmall m] else [])
        ++ (if m >=? 60 then [MinuteTooBig m] else [])
        ++ (if negb (c =? "a")%char && negb (c =? "p")%char
            then [UnrecognizedMeridiem c] else []))
  <-> (o = HourTooSmall h /\ h <= 0) \/ (o = HourTooBig h /\ h >= 13)
      \/ (o = MinuteTooSmall m /\ m <= -1) \/ (o = MinuteTooBig m /\ m >= 60)
      \/ (o = UnrecognizedMeridiem c /\ c <> "a"%char /\ c <> "p"%char).
Proof.
  rewrite !in_app_iff, !Z.geb_leb.
  destruct (Z.leb_spec h 0); destruct (Z.leb_spec 13 h);
    destruct (Z.leb_spec m (-1)); destruct (Z.leb_spec 60 m);
    destruct (Ascii.eqb_spec c "a"%char); destruct (Ascii.eqb_spec c "p"%char);
    simpl; try lia;
    (split;
     [ intros Hin; repeat (destruct Hin as [Hin|Hin]); try contradiction;
       subst o; intuition lia
     | intros Hor;
       repeat (destruct Hor as [Hor|Hor]);
       destruct Hor as [Ho Hc]; subst o; try lia; try tauto ]).
Qed.

Lemma diagnostics_NoDup (h m : Z) (c : ascii) :
  NoDup ((if h <=? 0 then [HourTooSmall h] else [])
         ++ (if h >=? 13 then [HourTooBig h] else [])
         ++ (if m <=? -1 then [MinuteTooSmall m] else [])
         ++ (if m >=? 60 then [MinuteTooBig m] else [])
         ++ (if negb (c =? "a")%char && negb (c =? "p")%char
             then [UnrecognizedMeridiem c] else [])).
Proof.
  destruct (h <=? 0); destruct (h >=? 13); destruct (m <=? -1);
    destruct (m >=? 60);
    destruct (negb (c =? "a")%char && negb (c =? "p")%char); simpl;
    repeat (constructor; [simpl; intuition discriminate|]); constructor.
Qed.

Lemma invalid_iff (t : Time) :
  ~ valid t <->
  (hour t <= 0 \/ hour t >= 13 \/ minute t <= -1 \/ minute t >= 60
   \/ (meridiem t <> "a"%char /\ meridiem t <> "p"%char)).
Proof.
  unfold valid.
  assert (D1 : hour t <= 0 \/ hour t >= 13 \/ 1 <= hour t <= 12) by lia.
  assert (D2 : minute t <= -1 \/ minute t >= 60 \/ 0 <= minute t <= 59) by lia.
  split.
  - intros H.
    destruct D1 as [D1|[D1|D1]]; [auto|auto|].
    destruct D2 as [D2|[D2|D2]]; [auto|auto 6|].
    destruct (Ascii.eqb_spec (meridiem t) "a"%char) as [Ha|Ha];
      [exfalso; apply H; auto|].
    destruct (Ascii.eqb_spec (meridiem t) "p"%char) as [Hp|Hp];
      [exfalso; apply H; auto|].
    auto 10.
  - intros H [Hh [Hm Hc]].
    destruct H as [H|[H|[H|[H|[H1 H2]]]]]; try lia.
    destruct Hc; contradiction.
Qed.

(** C6.  [readTime] returns 0 or -1.  It returns -1 exactly when the hour
    left in the variable is outside 1..12, or the minute is outside 0..59, or
    the meridiem, after 'A' and 'P' were turned into 'a' and 'p', is neither
    'a' nor 'p'.  On failure the messages printed are exactly one per
    violated check, all of them, each once: hour too small for hour <= 0,
    hour too big for hour >= 13, minute too small for minute <= -1, minute
    too big for minute >= 60, unrecognized meridiem for a letter other than
    'a' and 'p'.  On success nothing is printed. *)
Theorem readTime_reports (t : Time) (s : string) :
  let '(r, t', _, msgs) := readTime t s in
  let scanned := fst (scanf_time t s) in
  let h := hour t' in
  let m := minute t' in
  let c := meridiem t' in
  h = hour scanned /\ m = minute scanned
  /\ c = lowerMeridiem (meridiem scanned)
  /\ ((c = "a"%char \/ c = "p"%char)
      <-> (meridiem scanned = "a"%char \/ meridiem scanned = "p"%char
           \/ meridiem scanned = "A"%char \/ meridiem scanned = "P"%char))
  /\ (r = 0 \/ r = -1)
  /\ (r = -1 <-> (h <= 0 \/ h >= 13 \/ m <= -1 \/ m >= 60
                  \/ (c <> "a"%char /\ c <> "p"%char)))
  /\ (r = -1 <-> ~ (1 <= h <= 12 /\ 0 <= m <= 59
                    /\ (c = "a"%char \/ c = "p"%char)))
  /\ (r = 0 <-> msgs = [])
  /\ (forall o : Out,
        In o msgs <->
        r = -1 /\ ((o = HourTooSmall h /\ h <= 0)
                   \/ (o = HourTooBig h /\ h >= 13)
                   \/ (o = MinuteTooSmall m /\ m <= -1)
                   \/ (o = MinuteTooBig m /\ m >= 60)
                   \/ (o = UnrecognizedMeridiem c
                       /\ c <> "a"%char /\ c <> "p"%char)))
  /\ NoDup msgs.
Proof.
  pose proof (readTime_cases t s) as H.
  destruct (readTime t s) as [[[r t'] rest] msgs].
  cbv zeta in *.
  destruct H as [_ [Ht H]].
  set (scanned := fst (scanf_time t s)) in *.
  assert (Hviol : ~ valid t' <->
                  (hour t' <= 0 \/ hour t' >= 13 \/ minute t' <= -1
                   \/ minute t' >= 60
                   \/ (meridiem t' <> "a"%char /\ meridiem t' <> "p"%char))).
  { apply invalid_iff. }
  split; [rewrite Ht; reflexivity|].
  split; [rewrite Ht; reflexivity|].
  split; [rewrite Ht; reflexivity|].
  split; [rewrite Ht; cbn [meridiem]; apply lowerMeridiem_ok|].
  destruct H as [[Hr [Hv Hm]]|[Hr [Hv Hm]]]; subst r msgs.
  - split; [left; reflexivity|].
    split; [split; [discriminate|intros Hx; apply Hviol in Hx; contradiction]|].
    split; [split; [discriminate|intros Hx; contradiction]|].
    split; [split; reflexivity|].
    split; [|constructor].
    intros o. split; [intros []|intros [Hx _]; discriminate].
  - split; [right; reflexivity|].
    split; [split; [intros _; apply Hviol; exact Hv|reflexivity]|].
    split; [split; [intros _; exact Hv|reflexivity]|].
    split.
    + split; [discriminate|].
      intros Hnil. exfalso.
      apply Hviol in Hv.
      assert (Hex : exists o, In o
        ((if hour t' <=? 0 then [HourTooSmall (hour t')] else [])
         ++ (if hour t' >=? 13 then [HourTooBig (hour t')] else [])
         ++ (if minute t' <=? -1 then [MinuteTooSmall (minute t')] else [])
         ++ (if minute t' >=? 60 then [MinuteTooBig (minute t')] else [])
         ++ (if negb (meridiem t' =? "a")%char && negb (meridiem t' =? "p")%char
             then [UnrecognizedMeridiem (meridiem t')] else []))).
      { destruct Hv as [Hx|[Hx|[Hx|[Hx|Hx]]]];
          eexists; apply diagnostics_In; eauto 10. }
      destruct Hex as [o Ho]. rewrite Hnil in Ho. exact Ho.
    + split; [|apply diagnostics_NoDup].
      intros o. rewrite diagnostics_In. tauto.
Qed.

(** ** [toMilitaryTime] *)

#[local] Arguments Z.mul : simpl never.
#[local] Arguments Z.add : simpl never.
#[local] Arguments Z.sub : simpl never.

Lemma toMilitaryTime_valid (t : Time) :
  valid t ->
  toMilitaryTime (hour t) (meridiem t)
  = if hour t =? 12
    then (if (meridiem t =? "a")%char then 24 else 12)
    else hour t + (if (meridiem t =? "p")%char then 12 else 0).
Proof.
  intros [Hh [Hm Hc]]. unfold toMilitaryTime.
  destruct (Z.eqb_spec (hour t) 12) as [E|E].
  - rewrite E. destruct (meridiem t =? "a")%char; reflexivity.
  - destruct (meridiem t =? "p")%char; [|lia].
    exact_arith. reflexivity.
Qed.

(** The two letters a valid time can carry. *)
Lemma valid_meridiem (t : Time) :
  valid t ->
  ((meridiem t =? "a")%char = true /\ (meridiem t =? "p")%char = false)
  \/ ((meridiem t =? "a")%char = false /\ (meridiem t =? "p")%char = true).
Proof.
  intros [_ [_ [H|H]]]; rewrite H; [left|right]; split; reflexivity.
Qed.

(** The linear value of a valid time, by cases. *)
Lemma linear_cases (t : Time) :
  valid t ->
  1 <= toMilitaryTime (hour t) (meridiem t) <= 24
  /\ linear t
     = (if hour t =? 12
        then (if (meridiem t =? "a")%char then 1440 else 720)
        else 60 * hour t + (if (meridiem t =? "p")%char then 720 else 0))
       + minute t.
Proof.
  intros Hv. unfold linear.
  rewrite (toMilitaryTime_valid t Hv).
  destruct Hv as [Hh _].
  destruct (Z.eqb_spec (hour t) 12) as [E12|E12];
    destruct (meridiem t =? "a")%char; destruct (meridiem t =? "p")%char;
    lia.
Qed.

(** The linear value of the program and the minutes since midnight of the
    specification differ by a multiple of 1440. *)
Lemma linear_specLinear (t : Time) :
  valid t ->
  0 <= specLinear t <= 1439
  /\ (linear t = specLinear t \/ linear t = specLinear t + 1440).
Proof.
  intros Hv. destruct (linear_cases t Hv) as [_ L]. rewrite L.
  unfold specLinear.
  pose proof (valid_meridiem t Hv) as Hc.
  destruct Hv as [Hh [Hm _]].
  destruct Hc as [[Ha Hp]|[Ha Hp]]; rewrite Ha, Hp;
    destruct (Z.eqb_spec (hour t) 12) as [E|E]; lia.
Qed.

(** C3, as the code has it.  For every valid time the 24-hour hour is in
    1..24 and the linear value in 60..1499: 12:MM AM is hour 24, that is
    1440 + MM, 12:MM PM is 720 + MM, any other hour is hour*60 + MM, plus 720
    if PM.  The value agrees modulo 1440 with the minutes since midnight of
    the specification, which are in 0..1439. *)
Theorem toMilitaryTime_linear (t : Time) :
  valid t ->
  1 <= toMilitaryTime (hour t) (meridiem t) <= 24
  /\ 60 <= linear t <= 1499
  /\ linear t
     = (if hour t =? 12
        then (if (meridiem t =? "a")%char then 1440 else 720)
        else 60 * hour t + (if (meridiem t =? "p")%char then 720 else 0))
       + minute t
  /\ linear t mod 1440 = specLinear t
  /\ 0 <= specLinear t <= 1439.
Proof.
  intros Hv. unfold linear, specLinear.
  rewrite (toMilitaryTime_valid t Hv).
  pose proof (valid_meridiem t Hv) as Hc.
  destruct Hv as [Hh [Hm _]].
  destruct Hc as [[Ha Hp]|[Ha Hp]]; rewrite Ha, Hp;
    destruct (Z.eqb_spec (hour t) 12) as [E|E];
    repeat split; try lia;
    match goal with
    | |- ?x mod 1440 = ?y =>
        symmetry; apply (Z.mod_unique x 1440 (if x <? 1440 then 0 else 1) y);
        destruct (Z.ltb_spec x 1440); lia
    end.
Qed.

Lemma toMilitaryTime_linear_witness :
  valid (mkTime 12 30 "a"%char)
  /\ toMilitaryTime 12 "a"%char = 24
  /\ linear (mkTime 12 30 "a"%char) = 1470
  /\ specLinear (mkTime 12 30 "a"%char) = 30.
Proof.
  assert (Hv : valid (mkTime 12 30 "a"%char)).
  { unfold valid; simpl. repeat split; try lia. left; reflexivity. }
  destruct (toMilitaryTime_linear (mkTime 12 30 "a"%char) Hv)
    as [_ [_ [Hl [Hmod _]]]].
  split; [exact Hv|].
  split; [reflexivity|].
  split; [exact Hl|].
  rewrite <- Hmod, Hl. reflexivity.
Defined.

(** C3, as stated, fails at midnight: 12:00 AM is valid, and its conversion
    is hour 24, linear value 1440, which is neither within 0..1439 nor the
    0 stated for midnight. *)
Lemma toMilitaryTime_midnight :
  valid (mkTime 12 0 "a"%char)
  /\ toMilitaryTime 12 "a"%char = 24
  /\ linear (mkTime 12 0 "a"%char) = 1440
  /\ ~ (0 <= linear (mkTime 12 0 "a"%char) <= 1439)
  /\ linear (mkTime 12 0 "a"%char) <> 0.
Proof.
  split.
  - unfold valid; simpl. repeat split; try lia. left; reflexivity.
  - split; [reflexivity|]. split; [reflexivity|].
    split; [|discriminate].
    intros [_ H]. apply H. reflexivity.
Qed.

(** C9.  Two valid times with the same linear value are the same time, so
    two valid times that differ in hour, minute or meridiem have different
    linear values; the same holds for the minutes since midnight of the
    specification. *)
Theorem linear_injective (t1 t2 : Time) :
  valid t1 -> valid t2 ->
  (linear t1 = linear t2 -> t1 = t2)
  /\ (t1 <> t2 -> linear t1 <> linear t2)
  /\ (specLinear t1 = specLinear t2 -> t1 = t2).
Proof.
  intros H1 H2.
  pose proof (linear_cases t1 H1) as [_ L1].
  pose proof (linear_cases t2 H2) as [_ L2].
  assert (Hinj : linear t1 = linear t2 -> t1 = t2).
  { rewrite L1, L2. clear L1 L2.
    destruct t1 as [h1 m1 c1]; destruct t2 as [h2 m2 c2].
    destruct H1 as [Hh1 [Hm1 Hc1]]; destruct H2 as [Hh2 [Hm2 Hc2]].
    simpl in *.
    destruct Hc1; destruct Hc2; subst c1 c2; simpl;
      destruct (Z.eqb_spec h1 12); destruct (Z.eqb_spec h2 12);
      intros E; try lia;
      assert (h1 = h2) by lia; assert (m1 = m2) by lia; subst; reflexivity. }
  split; [exact Hinj|].
  split; [intros Hne Heq; apply Hne; apply Hinj; exact Heq|].
  clear L1 L2 Hinj. unfold specLinear.
  destruct t1 as [h1 m1 c1]; destruct t2 as [h2 m2 c2].
  destruct H1 as [Hh1 [Hm1 Hc1]]; destruct H2 as [Hh2 [Hm2 Hc2]].
  simpl in *.
  destruct Hc1; destruct Hc2; subst c1 c2; simpl;
    destruct (Z.eqb_spec h1 12); destruct (Z.eqb_spec h2 12);
    intros E; try lia;
    assert (h1 = h2) by lia; assert (m1 = m2) by lia; subst; reflexivity.
Qed.

(** Midnight and noon. *)
Lemma linear_injective_witness :
  linear (mkTime 12 0 "a"%char) <> linear (mkTime 12 0 "p"%char).
Proof.
  apply (linear_injective (mkTime 12 0 "a"%char) (mkTime 12 0 "p"%char)).
  - unfold valid; simpl. repeat split; try lia. left; reflexivity.
  - unfold valid; simpl. repeat split; try lia. right; reflexivity.
  - discriminate.
Defined.

(** ** The difference between two times *)

(** The 24-hour hours of two valid times are at most 23 apart. *)
Lemma timeDifference_exact (s e : Time) :
  valid s -> valid e ->
  let sh := toMilitaryTime (hour s) (meridiem s) in
  let eh := toMilitaryTime (hour e) (meridiem e) in
  let md := minute e - minute s in
  let hd := if md <? 0 then eh - sh - 1 else eh - sh in
  timeDifference s e
  = (if hd <? 0 then hd + 24 else hd, if md <? 0 then md + 60 else md).
Proof.
  intros Hs He.
  pose proof (linear_cases s Hs) as [Bs _].
  pose proof (linear_cases e He) as [Be _].
  destruct Hs as [_ [Hms _]]; destruct He as [_ [Hme _]].
  unfold timeDifference. cbv zeta.
  set (sh := toMilitaryTime (hour s) (meridiem s)) in *.
  set (eh := toMilitaryTime (hour e) (meridiem e)) in *.
  exact_arith.
  destruct (Z.ltb_spec (minute e - minute s) 0) as [Hm|Hm].
  - exact_arith.
    destruct (Z.ltb_spec (eh - sh - 1) 0); exact_arith; reflexivity.
  - destruct (Z.ltb_spec (eh - sh) 0); exact_arith; reflexivity.
Qed.

Lemma timeDifference_range (s e : Time) :
  valid s -> valid e ->
  0 <= fst (timeDifference s e) <= 23 /\ 0 <= snd (timeDifference s e) <= 59.
Proof.
  intros Hs He. rewrite (timeDifference_exact s e Hs He). cbv zeta.
  pose proof (linear_cases s Hs) as [Bs _].
  pose proof (linear_cases e He) as [Be _].
  destruct Hs as [_ [Hms _]]; destruct He as [_ [Hme _]].
  cbn [fst snd].
  destruct (Z.ltb_spec (minute e - minute s) 0);
    match goal with |- context [?x <? 0] => destruct (Z.ltb_spec x 0) end;
    lia.
Qed.

(** C1.  For every pair of valid start and end times the computed
    difference has hours in 0..23 and minutes in 0..59, and its length in
    minutes is (end - start) modulo 1440: end - start when that is not
    negative, end - start + 1440 otherwise, hours being the quotient and
    minutes the remainder by 60.  This holds for the linear values of the
    program as for those of the specification.  From 11:59 PM to 12:01 AM
    the difference is 0 hours and 2 minutes. *)
Theorem timeDifference_elapsed (s e : Time) :
  valid s -> valid e ->
  let hourDifference := fst (timeDifference s e) in
  let minuteDifference := snd (timeDifference s e) in
  let elapsed := 60 * hourDifference + minuteDifference in
  0 <= hourDifference <= 23 /\ 0 <= minuteDifference <= 59
  /\ elapsed = (specLinear e - specLinear s) mod 1440
  /\ elapsed = (linear e - linear s) mod 1440
  /\ elapsed = (if specLinear e - specLinear s <? 0
                then specLinear e - specLinear s + 1440
                else specLinear e - specLinear s)
  /\ elapsed = (if linear e - linear s <? 0
                then linear e - linear s + 1440
                else linear e - linear s)
  /\ hourDifference = elapsed / 60 /\ minuteDifference = elapsed mod 60
  /\ timeDifference (mkTime 11 59 "p"%char) (mkTime 12 1 "a"%char) = (0, 2).
Proof.
  intros Hs He. cbv zeta.
  rewrite (timeDifference_exact s e Hs He). cbv zeta. cbn [fst snd].
  pose proof (linear_cases s Hs) as [Bs Ls].
  pose proof (linear_cases e He) as [Be Le].
  pose proof (linear_specLinear s Hs) as [Rs Ms].
  pose proof (linear_specLinear e He) as [Re Me].
  assert (Ds : linear s = 60 * toMilitaryTime (hour s) (meridiem s) + minute s)
    by reflexivity.
  assert (De : linear e = 60 * toMilitaryTime (hour e) (meridiem e) + minute e)
    by reflexivity.
  destruct Hs as [_ [Hms _]]; destruct He as [_ [Hme _]].
  set (sh := toMilitaryTime (hour s) (meridiem s)) in *.
  set (eh := toMilitaryTime (hour e) (meridiem e)) in *.
  set (md := minute e - minute s).
  set (hd := if md <? 0 then eh - sh - 1 else eh - sh).
  set (H := if hd <? 0 then hd + 24 else hd).
  set (M := if md <? 0 then md + 60 else md).
  assert (HM : 0 <= M <= 59).
  { unfold M, md. destruct (Z.ltb_spec (minute e - minute s) 0); lia. }
  assert (HH : 0 <= H <= 23).
  { unfold H, hd, md.
    destruct (Z.ltb_spec (minute e - minute s) 0);
      match goal with |- context [?x <? 0] => destruct (Z.ltb_spec x 0) end;
      lia. }
  assert (Hlin : 60 * H + M
                 = if linear e - linear s <? 0
                   then linear e - linear s + 1440 else linear e - linear s).
  { unfold H, M, hd, md. rewrite Ds, De.
    destruct (Z.ltb_spec (minute e - minute s) 0);
      match goal with |- context [?x <? 0] => destruct (Z.ltb_spec x 0) end;
      match goal with |- context [?x <? 0] => destruct (Z.ltb_spec x 0) end;
      lia. }
  assert (Hmod : 60 * H + M = (linear e - linear s) mod 1440).
  { rewrite Hlin.
    destruct (Z.ltb_spec (linear e - linear s) 0) as [Hn|Hn].
    - apply (Z.mod_unique _ 1440 (-1)); lia.
    - apply (Z.mod_unique _ 1440 0); lia. }
  assert (Hspec : (specLinear e - specLinear s) mod 1440
                  = (linear e - linear s) mod 1440).
  { destruct Ms as [Ms|Ms]; destruct Me as [Me|Me]; rewrite Ms, Me.
    - reflexivity.
    - replace (specLinear e + 1440 - specLinear s)
        with (specLinear e - specLinear s + 1 * 1440) by lia.
      rewrite Z.mod_add by lia. reflexivity.
    - replace (specLinear e - (specLinear s + 1440))
        with (specLinear e - specLinear s + (-1) * 1440) by lia.
      rewrite Z.mod_add by lia. reflexivity.
    - replace (specLinear e + 1440 - (specLinear s + 1440))
        with (specLinear e - specLinear s) by lia.
      reflexivity. }
  assert (Hspec2 : 60 * H + M
                   = if specLinear e - specLinear s <? 0
                     then specLinear e - specLinear s + 1440
                     else specLinear e - specLinear s).
  { rewrite Hmod, <- Hspec.
    destruct (Z.ltb_spec (specLinear e - specLinear s) 0) as [Hn|Hn].
    - symmetry. apply (Z.mod_unique _ 1440 (-1)); lia.
    - symmetry. apply (Z.mod_unique _ 1440 0); lia. }
  split; [exact HH|]. split; [exact HM|].
  split; [rewrite Hspec; exact Hmod|].
  split; [exact Hmod|].
  split; [exact Hspec2|].
  split; [exact Hlin|].
  split; [apply (Z.div_unique _ 60 H M); lia|].
  split; [apply (Z.mod_unique _ 60 H M); lia|].
  reflexivity.
Qed.

Lemma timeDifference_elapsed_witness :
  fst (timeDifference (mkTime 8 0 "p"%char) (mkTime 7 59 "p"%char)) = 23
  /\ snd (timeDifference (mkTime 8 0 "p"%char) (mkTime 7 59 "p"%char)) = 59
  /\ 0 <= 23 <= 23.
Proof.
  assert (Hs : valid (mkTime 8 0 "p"%char)).
  { unfold valid; simpl. repeat split; try lia. right; reflexivity. }
  assert (He : valid (mkTime 7 59 "p"%char)).
  { unfold valid; simpl. repeat split; try lia. right; reflexivity. }
  destruct (timeDifference_elapsed _ _ Hs He) as [Hh _].
  split; [reflexivity|]. split; [reflexivity|].
  exact Hh.
Defined.

(** ** [roundTime] *)

(** Rounding in machine arithmetic, for any hour. *)
Lemma roundTime_machine (h m : Z) :
  0 <= m <= 59 ->
  roundTime h m
  = if (m + 7) / 15 * 15 =? 60 then (Int.add h 1, 0)
    else (h, (m + 7) / 15 * 15).
Proof.
  intros Hm. unfold roundTime. cbv zeta.
  exact_arith.
  assert (Hq : Int.div (m + 7) 15 = (m + 7) / 15).
  { rewrite div_small; rewrite Z.quot_div_nonneg by lia; [reflexivity|].
    assert (0 <= (m + 7) / 15 <= 4)
      by (Z.div_mod_to_equations; lia).
    int_range. }
  rewrite Hq.
  assert (0 <= (m + 7) / 15 <= 4)
    by (Z.div_mod_to_equations; lia).
  exact_arith. reflexivity.
Qed.

(** C2.  For minutes in 0..59 (and hours an [int] below [INT_MAX], so that
    the increment is defined) the minutes become floor((minutes + 7) / 15)
    * 15: 0 for 0..7, 15 for 8..22, 30 for 23..37, 45 for 38..52, 60 for
    53..59.  Exactly when that value is 60 the minutes are reset to 0 and
    the hours incremented by 1; otherwise the hours are unchanged. *)
Theorem roundTime_quarter (h m : Z) :
  0 <= m <= 59 -> Int.INT_MIN <= h < Int.INT_MAX ->
  let rounded := (m + 7) / 15 * 15 in
  ((0 <= m <= 7 /\ rounded = 0) \/ (8 <= m <= 22 /\ rounded = 15)
   \/ (23 <= m <= 37 /\ rounded = 30) \/ (38 <= m <= 52 /\ rounded = 45)
   \/ (53 <= m <= 59 /\ rounded = 60))
  /\ roundTime h m = (if rounded =? 60 then (h + 1, 0) else (h, rounded)).
Proof.
  intros Hm Hh. cbv zeta.
  rewrite (roundTime_machine h m Hm).
  assert (Hq : (0 <= m <= 7 /\ (m + 7) / 15 = 0)
               \/ (8 <= m <= 22 /\ (m + 7) / 15 = 1)
               \/ (23 <= m <= 37 /\ (m + 7) / 15 = 2)
               \/ (38 <= m <= 52 /\ (m + 7) / 15 = 3)
               \/ (53 <= m <= 59 /\ (m + 7) / 15 = 4)).
  { assert (C : 0 <= m <= 7 \/ 8 <= m <= 22 \/ 23 <= m <= 37
                \/ 38 <= m <= 52 \/ 53 <= m <= 59) by lia.
    destruct C as [C|[C|[C|[C|C]]]];
      [left|right; left|right; right; left|right; right; right; left
      |right; right; right; right];
      (split; [exact C|]); symmetry;
      match goal with
      | |- ?q = _ => apply (Z.div_unique (m + 7) 15 q (m + 7 - 15 * q)); lia
      end. }
  unfold Int.INT_MIN, Int.INT_MAX in Hh.
  destruct Hq as [[C E]|[[C E]|[[C E]|[[C E]|[C E]]]]]; rewrite E; simpl;
    exact_arith; split; auto 10.
Qed.

Lemma roundTime_quarter_witness :
  roundTime 23 59 = (24, 0) /\ roundTime 8 2 = (8, 0).
Proof.
  split.
  - apply (roundTime_quarter 23 59); unfold Int.INT_MIN, Int.INT_MAX; lia.
  - apply (roundTime_quarter 8 2); unfold Int.INT_MIN, Int.INT_MAX; lia.
Defined.

(** ** Accumulation *)

Lemma accumulate_step (th tm hd md : Z) :
  0 <= th -> 0 <= tm <= 59 -> 0 <= hd -> 0 <= md <= 59 ->
  60 * (th + hd) + tm + md <= 60 * Int.INT_MAX ->
  let th' := fst (accumulate th tm hd md) in
  let tm' := snd (accumulate th tm hd md) in
  0 <= th' /\ 0 <= tm' <= 59 /\ 60 * th' + tm' = 60 * th + tm + (60 * hd + md).
Proof.
  intros Hth Htm Hhd Hmd Hfit. unfold Int.INT_MAX in Hfit.
  unfold accumulate. cbv zeta.
  exact_arith. rewrite Z.geb_leb.
  destruct (Z.leb_spec 60 (tm + md)); exact_arith; simpl; lia.
Qed.

Lemma accumulate_fold (ds : list (Z * Z)) :
  forall th tm : Z,
    0 <= th -> 0 <= tm <= 59 ->
    Forall (fun d => 0 <= fst d /\ 0 <= snd d <= 59) ds ->
    60 * th + tm + minutesOf ds <= 60 * Int.INT_MAX ->
    let totals :=
      fold_left (fun totals d =>
                   accumulate (fst totals) (snd totals) (fst d) (snd d))
                ds (th, tm) in
    0 <= fst totals /\ 0 <= snd totals <= 59
    /\ 60 * fst totals + snd totals = 60 * th + tm + minutesOf ds.
Proof.
  induction ds as [|[hd md] ds IH]; intros th tm Hth Htm Hds Hfit; simpl.
  - lia.
  - inversion Hds as [|d ds' [Hhd Hmd] Hrest]; subst. simpl in Hhd, Hmd.
    simpl in Hfit.
    assert (Hpos : 0 <= minutesOf ds).
    { clear - Hrest. induction Hrest as [|d ds [H1 H2] _ IH]; simpl; lia. }
    destruct (accumulate_step th tm hd md Hth Htm Hhd Hmd) as [H1 [H2 H3]];
      [lia|].
    destruct (accumulate th tm hd md) as [th' tm']. simpl in *.
    destruct (IH th' tm' H1 H2 Hrest) as [G1 [G2 G3]]; [lia|].
    cbv zeta in *. lia.
Qed.

Lemma minutesOf_firstn (n : nat) (ds : list (Z * Z)) :
  Forall (fun d => 0 <= fst d /\ 0 <= snd d <= 59) ds ->
  0 <= minutesOf (firstn n ds) <= minutesOf ds.
Proof.
  intros H. revert n.
  induction H as [|d ds [H1 H2] _ IH]; intros [|n]; simpl; try lia.
  - assert (0 <= minutesOf ds) by (specialize (IH O); simpl in IH; lia). lia.
  - specialize (IH n). lia.
Qed.

(** C7.  Starting from totals of zero, after each pair whose difference has
    minutes in 0..59 and hours not negative the totals have minutes in 0..59
    and hours not negative, and 60 * hours + minutes is the sum of the
    differences added so far (as long as the hours fit an [int]); the
    differences 1h40m and 0h45m give 2 hours and 25 minutes. *)
Theorem accumulate_normalized (ds : list (Z * Z)) (n : nat) :
  Forall (fun d => 0 <= fst d /\ 0 <= snd d <= 59) ds ->
  minutesOf ds <= 60 * Int.INT_MAX ->
  let totalHours := fst (accumulateAll (firstn n ds)) in
  let totalMinutes := snd (accumulateAll (firstn n ds)) in
  0 <= totalMinutes <= 59 /\ 0 <= totalHours
  /\ 60 * totalHours + totalMinutes = minutesOf (firstn n ds)
  /\ accumulateAll [(1, 40); (0, 45)] = (2, 25).
Proof.
  intros Hds Hfit. cbv zeta. unfold accumulateAll.
  pose proof (minutesOf_firstn n ds Hds) as Hn.
  assert (Hpre : Forall (fun d => 0 <= fst d /\ 0 <= snd d <= 59) (firstn n ds)).
  { rewrite <- (firstn_skipn n ds) in Hds.
    apply Forall_app in Hds. exact (proj1 Hds). }
  destruct (accumulate_fold (firstn n ds) 0 0) as [H1 [H2 H3]];
    try lia; try exact Hpre.
  cbv zeta in *.
  repeat split; try lia. 
Qed.

Lemma accumulate_normalized_witness :
  accumulateAll (firstn 2 [(1, 40); (0, 45); (23, 59)]) = (2, 25)
  /\ 60 * 2 + 25 = minutesOf (firstn 2 [(1, 40); (0, 45); (23, 59)]).
Proof.
  assert (Hds : Forall (fun d : Z * Z => 0 <= fst d /\ 0 <= snd d <= 59)
                       [(1, 40); (0, 45); (23, 59)]).
  { repeat constructor; simpl; lia. }
  assert (Hfit : minutesOf [(1, 40); (0, 45); (23, 59)] <= 60 * Int.INT_MAX).
  { unfold Int.INT_MAX. vm_compute. discriminate. }
  destruct (accumulate_normalized _ 2%nat Hds Hfit) as [_ [_ [H _]]].
  split; [reflexivity|exact H].
Defined.

(** ** One pass of the loop of [readTimesForDay] *)

Lemma sameTime_eq (a b : Time) : sameTime a b = true <-> a = b.
Proof.
  unfold sameTime. rewrite !andb_true_iff, !Z.eqb_eq, Ascii.eqb_eq.
  destruct a as [h m c]; destruct b as [h' m' c']; simpl.
  split.
  - intros [[H1 H2] H3]. subst. reflexivity.
  - intros H. inversion H. auto.
Qed.

(** The pass in terms of what the two calls of [readTime] return. *)
Lemma pairStep_eq (junk : Time * Time) (st : Session)
      (r1 r2 : Z) (t1 t2 : Time) (s1 s3 : string) (o1 o2 : list Out) :
  readTime (fst junk) (stdin st) = (r1, t1, s1, o1) ->
  readTime (snd junk) (snd (clearBufferJunk (code "-") s1)) = (r2, t2, s3, o2) ->
  pairStep junk st
  = if r1 =? -1 then
      Return (-1) (mkSession (totalHours st) (totalMinutes st) (afterNewline s1)
                     (stdout st ++ o1 ++ [BadStartTime]))
    else if r2 =? -1 then
      Return (-1) (mkSession (totalHours st) (totalMinutes st) (afterNewline s3)
                     (stdout st ++ o1 ++ o2 ++ [BadEndTime]))
    else if sameTime t1 t2 then
      Return 0 (mkSession (totalHours st) (totalMinutes st) s3
                  (stdout st ++ o1 ++ o2 ++ [Echo t1 t2]))
    else
      let d := timeDifference t1 t2 in
      let totals := accumulate (totalHours st) (totalMinutes st) (fst d) (snd d) in
      let out := (stdout st ++ o1 ++ o2 ++ [Echo t1 t2])
                 ++ [ActualTime (fst d) (snd d)] in
      let c := clearBufferJunk (code ",") s3 in
      if negb (fst c =? 1) && negb (fst c =? -1)
      then Continue (mkSession (fst totals) (snd totals) (snd c) out)
      else Return 1 (mkSession (fst totals) (snd totals) (snd c) out).
Proof.
  intros H1 H2. unfold pairStep. rewrite H1.
  destruct (r1 =? -1).
  - rewrite <- clearBufferJunk_newline.
    destruct (clearBufferJunk NL s1) as [x s2]. reflexivity.
  - destruct (clearBufferJunk (code "-") s1) as [x s2]. simpl snd in H2.
    rewrite H2.
    destruct (r2 =? -1).
    + rewrite <- clearBufferJunk_newline.
      destruct (clearBufferJunk NL s3) as [y s4]. reflexivity.
    + destruct (sameTime t1 t2); [reflexivity|].
      cbv zeta.
      destruct (timeDifference t1 t2) as [hd md].
      cbn [fst snd].
      destruct (accumulate (totalHours st) (totalMinutes st) hd md) as [th tm].
      destruct (clearBufferJunk (code ",") s3) as [ef s4].
      reflexivity.
Qed.

(** The two calls of a pass, named. *)
Lemma pairStep_calls (junk : Time * Time) (st : Session) :
  exists r1 r2 t1 t2 s1 s3 o1 o2,
    readTime (fst junk) (stdin st) = (r1, t1, s1, o1)
    /\ readTime (snd junk) (snd (clearBufferJunk (code "-") s1))
       = (r2, t2, s3, o2)
    /\ (String.length s3 <= String.length (stdin st))%nat.
Proof.
  pose proof (readTime_length (fst junk) (stdin st)) as L1.
  destruct (readTime (fst junk) (stdin st)) as [[[r1 t1] s1] o1] eqn:E1.
  pose proof (readTime_length (snd junk) (snd (clearBufferJunk (code "-") s1)))
    as L2.
  destruct (readTime (snd junk) (snd (clearBufferJunk (code "-") s1)))
    as [[[r2 t2] s3] o2] eqn:E2.
  pose proof (clearBufferJunk_length (code "-") s1) as L3.
  simpl in L1, L2.
  exists r1, r2, t1, t2, s1, s3, o1, o2.
  split; [reflexivity|split; [exact E2|lia]].
Qed.

(** A pass that goes round again has consumed a comma. *)
Lemma pairStep_Continue_length (junk : Time * Time) (st st' : Session) :
  pairStep junk st = Continue st' ->
  (String.length (stdin st') < String.length (stdin st))%nat.
Proof.
  destruct (pairStep_calls junk st)
    as [r1 [r2 [t1 [t2 [s1 [s3 [o1 [o2 [E1 [E2 L]]]]]]]]]].
  rewrite (pairStep_eq junk st _ _ _ _ _ _ _ _ E1 E2).
  destruct (r1 =? -1); [discriminate|].
  destruct (r2 =? -1); [discriminate|].
  destruct (sameTime t1 t2); [discriminate|].
  cbv zeta.
  destruct (Z.eqb_spec (fst (clearBufferJunk (code ",") s3)) (-1)) as [Ee|Ee];
    [rewrite andb_false_r; discriminate|].
  pose proof (clearBufferJunk_consumes (code ",") s3 Ee) as Hc.
  destruct (negb (fst (clearBufferJunk (code ",") s3) =? 1) && negb false);
    [|discriminate].
  intros H. inversion H. simpl. lia.
Qed.

(** ** The loop of [readTimesForDay] always returns *)

Lemma dayLoop_total (fuel : nat) :
  forall (junk : Junk) (st : Session),
    (String.length (stdin st) < fuel)%nat ->
    exists v st', dayLoop fuel junk st = Some (v, st').
Proof.
  induction fuel as [|fuel IH]; intros junk st Hlen; [lia|].
  simpl. destruct (pairStep (junk O) st) as [v st'|st'] eqn:E.
  - exists v, st'. reflexivity.
  - apply pairStep_Continue_length in E. apply IH. lia.
Qed.

Lemma dayLoop_stable (n : nat) :
  forall (m : nat) (junk : Junk) (st : Session),
    (String.length (stdin st) < n)%nat -> (String.length (stdin st) < m)%nat ->
    dayLoop n junk st = dayLoop m junk st.
Proof.
  induction n as [|n IH]; intros m junk st Hn Hm; [lia|].
  destruct m as [|m]; [lia|].
  simpl. destruct (pairStep (junk O) st) as [v st'|st'] eqn:E; [reflexivity|].
  apply pairStep_Continue_length in E. apply IH; lia.
Qed.

Lemma readTimesForDay_total (junk : Junk) (st : Session) :
  exists v st', readTimesForDay junk st = Some (v, st').
Proof.
  unfold readTimesForDay. apply dayLoop_total. lia.
Qed.

Lemma readTimesForDay_Return (junk : Junk) (st st' : Session) (v : Z) :
  pairStep (junk O) st = Return v st' ->
  readTimesForDay junk st = Some (v, st').
Proof.
  intros E. unfold readTimesForDay. simpl. rewrite E. reflexivity.
Qed.

Lemma readTimesForDay_Continue (junk : Junk) (st st' : Session) :
  pairStep (junk O) st = Continue st' ->
  readTimesForDay junk st = readTimesForDay (later junk) st'.
Proof.
  intros E. unfold readTimesForDay.
  assert (H : forall n, dayLoop (S n) junk st = dayLoop n (later junk) st')
    by (intros n; simpl; rewrite E; reflexivity).
  rewrite H.
  apply pairStep_Continue_length in E.
  apply dayLoop_stable; lia.
Qed.

Lemma passes_readTimesForDay (junk junk' : Junk) (st st' : Session) :
  passes junk st junk' st' ->
  readTimesForDay junk st = readTimesForDay junk' st'.
Proof.
  induction 1 as [junk st|junk junk' st st1 st' E _ IH]; [reflexivity|].
  rewrite (readTimesForDay_Continue junk st st1 E). exact IH.
Qed.

(** ** The loop of [main] *)

Lemma mainLoop_S (fuel : nat) (junks : nat -> Junk) (s : string)
      (out : list Out) (v : Z) (st : Session) :
  readTimesForDay (junks O) (mkSession 0 0 s (out ++ [Prompt])) = Some (v, st) ->
  mainLoop (S fuel) junks s out
  = if v =? 0 then (Some 0, stdin st, dayOutput v st)
    else mainLoop fuel (later junks) (stdin st) (dayOutput v st).
Proof.
  intros E. cbn [mainLoop]. rewrite E. unfold dayOutput.
  destruct (Z.eqb_spec v (-1)) as [Hv|Hv].
  - subst v. reflexivity.
  - destruct (roundTime (totalHours st) (totalMinutes st)) as [h m].
    reflexivity.
Qed.

Lemma daysPass_mainLoop (junks junks' : nat -> Junk) (s s' : string)
      (out out' : list Out) (k : nat) :
  daysPass junks s out k junks' s' out' ->
  forall fuel : nat,
    mainLoop (k + fuel) junks s out = mainLoop fuel junks' s' out'.
Proof.
  induction 1 as [junks s out|junks junks' s s' out out' k v st E Hv _ IH];
    intros fuel; [reflexivity|].
  change (S k + fuel)%nat with (S (k + fuel)).
  rewrite (mainLoop_S _ _ _ _ _ _ E).
  destruct (Z.eqb_spec v 0); [contradiction|]. apply IH.
Qed.

(** C4.  Wherever the loops stand - after any number of days, and in the
    current day after any number of pairs with whatever totals - when both
    times of the next pair are read successfully and are identical in hour,
    minute and meridiem (the 12-hour form, before any conversion), the pass
    returns 0 at once: the totals are those of before the pair and nothing
    but the echo of the pair is printed.  [readTimesForDay] returns 0 with
    them, and [main] prints the day's totals and returns status 0. *)
Theorem identical_pair_stops (fuel k : nat) (junks0 junks : nat -> Junk)
        (s0 s : string) (out : list Out) (junk' : Junk) (st' : Session)
        (t1 t2 : Time) (s1 s3 : string) (o1 o2 : list Out) :
  daysPass junks0 s0 [Welcome] k junks s out ->
  passes (junks O) (mkSession 0 0 s (out ++ [Prompt])) junk' st' ->
  readTime (fst (junk' O)) (stdin st') = (0, t1, s1, o1) ->
  readTime (snd (junk' O)) (snd (clearBufferJunk (code "-") s1))
  = (0, t2, s3, o2) ->
  hour t1 = hour t2 -> minute t1 = minute t2 -> meridiem t1 = meridiem t2 ->
  let stopped := mkSession (totalHours st') (totalMinutes st') s3
                           (stdout st' ++ [Echo t1 t2]) in
  pairStep (junk' O) st' = Return 0 stopped
  /\ readTimesForDay (junks O) (mkSession 0 0 s (out ++ [Prompt]))
     = Some (0, stopped)
  /\ main (k + S fuel) junks0 s0
     = (Some 0, s3,
        stdout st'
        ++ [Echo t1 t2;
            ActualTotalTime (totalHours st') (totalMinutes st');
            RoundedTotalTime
              (fst (roundTime (totalHours st') (totalMinutes st')))
              (snd (roundTime (totalHours st') (totalMinutes st')))]).
Proof.
  intros Hdays Hpasses E1 E2 Hh Hm Hc stopped.
  assert (Hsame : sameTime t1 t2 = true).
  { apply sameTime_eq. destruct t1, t2; simpl in *; subst; reflexivity. }
  assert (Ho1 : o1 = []).
  { pose proof (readTime_cases (fst (junk' O)) (stdin st')) as H.
    rewrite E1 in H. cbv zeta in H.
    destruct H as [_ [_ [[_ [_ H]]|[H _]]]]; [exact H|discriminate]. }
  assert (Ho2 : o2 = []).
  { pose proof (readTime_cases (snd (junk' O))
                  (snd (clearBufferJunk (code "-") s1))) as H.
    rewrite E2 in H. cbv zeta in H.
    destruct H as [_ [_ [[_ [_ H]]|[H _]]]]; [exact H|discriminate]. }
  assert (Hstep : pairStep (junk' O) st' = Return 0 stopped).
  { rewrite (pairStep_eq _ _ _ _ _ _ _ _ _ _ E1 E2).
    simpl Z.eqb. cbv iota. rewrite Hsame. subst o1 o2. reflexivity. }
  assert (Hday : readTimesForDay (junks O) (mkSession 0 0 s (out ++ [Prompt]))
                 = Some (0, stopped)).
  { rewrite (passes_readTimesForDay _ _ _ _ Hpasses).
    apply readTimesForDay_Return. exact Hstep. }
  split; [exact Hstep|]. split; [exact Hday|].
  unfold main. rewrite (daysPass_mainLoop _ _ _ _ _ _ _ Hdays).
  rewrite (mainLoop_S _ _ _ _ _ _ Hday).
  unfold dayOutput, stopped. simpl.
  rewrite <- app_assoc. reflexivity.
Qed.

(** Second day, second pair: one day of 8 hours, then a pair of one hour and
    a pair from 1:00pm to 1:00PM. *)
Lemma identical_pair_stops_witness :
  main 2 zeroJunk
       (line "9:00am-5:00pm"
        ++ line "2:00pm-3:00pm, 1:00pm-1:00PM, 4:00pm-5:00pm")%string
  = (Some 0, line "M, 4:00pm-5:00pm",
     [Welcome; Prompt;
      Echo (mkTime 9 0 "a") (mkTime 5 0 "p"); ActualTime 8 0;
      ActualTotalTime 8 0; RoundedTotalTime 8 0; Prompt;
      Echo (mkTime 2 0 "p") (mkTime 3 0 "p"); ActualTime 1 0;
      Echo (mkTime 1 0 "p") (mkTime 1 0 "p");
      ActualTotalTime 1 0; RoundedTotalTime 1 0]).
Proof.
  edestruct identical_pair_stops
    with (fuel := 0%nat) (k := 1%nat) (junks0 := zeroJunk)
         (s0 := (line "9:00am-5:00pm"
                 ++ line "2:00pm-3:00pm, 1:00pm-1:00PM, 4:00pm-5:00pm")%string)
    as [_ [_ H]].
  - eapply days_next; [reflexivity|discriminate|apply days_here].
  - eapply passes_next; [reflexivity|apply passes_here].
  - reflexivity.
  - reflexivity.
  - reflexivity.
  - reflexivity.
  - reflexivity.
  - exact H.
Defined.

(** ** What a session prints *)

Lemma finalized_app (a b : list Out) :
  finalized (a ++ b) = finalized a ++ finalized b.
Proof. apply filter_app. Qed.

(** [readTime] prints no day total. *)
Lemma readTime_finalized (t t' : Time) (s rest : string) (r : Z)
      (msgs : list Out) :
  readTime t s = (r, t', rest, msgs) -> finalized msgs = [].
Proof.
  intros E. pose proof (readTime_cases t s) as H. rewrite E in H.
  cbv zeta in H.
  destruct H as [_ [_ [[_ [_ H]]|[_ [_ H]]]]]; subst msgs; [reflexivity|].
  destruct (hour t' <=? 0); destruct (hour t' >=? 13);
    destruct (minute t' <=? -1); destruct (minute t' >=? 60);
    destruct (negb (meridiem t' =? "a")%char && negb (meridiem t' =? "p")%char);
    reflexivity.
Qed.

(** Neither does a pass of the loop, however it ends. *)
Lemma pairStep_finalized (junk : Time * Time) (st : Session) :
  match pairStep junk st with
  | Return _ st' | Continue st' => finalized (stdout st') = finalized (stdout st)
  end.
Proof.
  destruct (pairStep_calls junk st)
    as [r1 [r2 [t1 [t2 [s1 [s3 [o1 [o2 [E1 [E2 _]]]]]]]]]].
  rewrite (pairStep_eq junk st _ _ _ _ _ _ _ _ E1 E2).
  apply readTime_finalized in E1. apply readTime_finalized in E2.
  destruct (r1 =? -1); [|destruct (r2 =? -1); [|destruct (sameTime t1 t2)]];
    cbv zeta;
    try match goal with
      | |- context [if ?b then Continue _ else Return _ _] => destruct b
      end;
    cbn [stdout]; rewrite !finalized_app, E1, ?E2; simpl;
    rewrite ?app_nil_r; reflexivity.
Qed.

Lemma passes_finalized (junk junk' : Junk) (st st' : Session) :
  passes junk st junk' st' -> finalized (stdout st') = finalized (stdout st).
Proof.
  induction 1 as [junk st|junk junk' st st1 st' E _ IH]; [reflexivity|].
  pose proof (pairStep_finalized (junk O) st) as H. rewrite E in H.
  congruence.
Qed.

(** ** What was printed before does not matter *)

Lemma pairStep_out (junk : Time * Time) (th tm : Z) (s : string)
      (o : list Out) :
  pairStep junk (mkSession th tm s o)
  = match pairStep junk (mkSession th tm s []) with
    | Return v st => Return v (prependOut o st)
    | Continue st => Continue (prependOut o st)
    end.
Proof.
  destruct (pairStep_calls junk (mkSession th tm s o))
    as [r1 [r2 [t1 [t2 [s1 [s3 [o1 [o2 [E1 [E2 _]]]]]]]]]].
  rewrite (pairStep_eq junk (mkSession th tm s o) _ _ _ _ _ _ _ _ E1 E2).
  rewrite (pairStep_eq junk (mkSession th tm s []) _ _ _ _ _ _ _ _ E1 E2).
  destruct (r1 =? -1); [|destruct (r2 =? -1); [|destruct (sameTime t1 t2)]];
    cbv zeta;
    try match goal with
      | |- context [if ?b then Continue _ else Return _ _] => destruct b
      end;
    unfold prependOut; cbn [totalHours totalMinutes stdin stdout];
    rewrite ?app_nil_l, <- ?app_assoc; reflexivity.
Qed.

Lemma prependOut_app (o o' : list Out) (st : Session) :
  prependOut (o ++ o') st = prependOut o (prependOut o' st).
Proof.
  unfold prependOut. simpl. rewrite app_assoc. reflexivity.
Qed.

Lemma dayLoop_out (fuel : nat) :
  forall (junk : Junk) (th tm : Z) (s : string) (o : list Out),
    dayLoop fuel junk (mkSession th tm s o)
    = option_map (fun r => (fst r, prependOut o (snd r)))
                 (dayLoop fuel junk (mkSession th tm s [])).
Proof.
  induction fuel as [|fuel IH]; intros junk th tm s o; [reflexivity|].
  cbn [dayLoop]. rewrite pairStep_out.
  destruct (pairStep (junk O) (mkSession th tm s [])) as [v st|st].
  - reflexivity.
  - destruct st as [th' tm' s' o']. unfold prependOut at 1.
    cbn [totalHours totalMinutes stdin stdout].
    rewrite (IH (later junk) th' tm' s' (o ++ o')).
    rewrite (IH (later junk) th' tm' s' o').
    destruct (dayLoop fuel (later junk) (mkSession th' tm' s' []))
      as [[v st]|]; [|reflexivity].
    simpl. rewrite prependOut_app. reflexivity.
Qed.

Lemma readTimesForDay_out (junk : Junk) (th tm : Z) (s : string)
      (o : list Out) :
  readTimesForDay junk (mkSession th tm s o)
  = option_map (fun r => (fst r, prependOut o (snd r)))
               (readTimesForDay junk (mkSession th tm s [])).
Proof.
  unfold readTimesForDay. cbn [stdin]. apply dayLoop_out.
Qed.

Lemma dayOutput_prepend (v : Z) (o : list Out) (st : Session) :
  dayOutput v (prependOut o st) = o ++ dayOutput v st.
Proof.
  unfold dayOutput, prependOut. cbn [totalHours totalMinutes stdin stdout].
  destruct (v =? -1); [reflexivity|]. rewrite app_assoc. reflexivity.
Qed.

Lemma mainLoop_out (fuel : nat) :
  forall (junks : nat -> Junk) (s : string) (o : list Out),
    mainLoop fuel junks s o
    = (fst (mainLoop fuel junks s []), o ++ snd (mainLoop fuel junks s [])).
Proof.
  induction fuel as [|fuel IH]; intros junks s o.
  - simpl. rewrite app_nil_r. reflexivity.
  - destruct (readTimesForDay_total (junks O) (mkSession 0 0 s []))
      as [v [st0 E0]].
    assert (E : forall p,
               readTimesForDay (junks O) (mkSession 0 0 s p)
               = Some (v, prependOut p st0)).
    { intros p. rewrite readTimesForDay_out, E0. reflexivity. }
    rewrite (mainLoop_S _ _ _ _ _ _ (E (o ++ [Prompt]))).
    rewrite (mainLoop_S _ _ _ _ _ _ (E ([] ++ [Prompt]))).
    rewrite !dayOutput_prepend. cbn [stdin prependOut].
    destruct (v =? 0).
    + simpl. rewrite <- app_assoc. reflexivity.
    + rewrite (IH (later junks) (stdin st0) ((o ++ [Prompt]) ++ dayOutput v st0)).
      rewrite (IH (later junks) (stdin st0) (([] ++ [Prompt]) ++ dayOutput v st0)).
      simpl. rewrite <- !app_assoc. reflexivity.
Qed.

(** ** Abort *)

(** C5.  Wherever the loops stand, when the start time or the end time of
    the next pair fails validation, the pass returns -1 after dropping the
    rest of the input line, and so does [readTimesForDay].  [main] then
    prints no total for the day and goes round its loop again, where the
    next call of [readTimesForDay] starts from totals of zero: the totals
    summed before the failure are used nowhere.  The status and the
    finalized totals of the whole run are those of a run on the input after
    the aborted line in which that line was never there. *)
Theorem invalid_time_aborts (fuel k : nat) (junks0 junks : nat -> Junk)
        (s0 s : string) (out : list Out) (junk' : Junk) (st' : Session)
        (r1 r2 : Z) (t1 t2 : Time) (s1 s3 : string) (o1 o2 : list Out) :
  daysPass junks0 s0 [Welcome] k junks s out ->
  passes (junks O) (mkSession 0 0 s (out ++ [Prompt])) junk' st' ->
  readTime (fst (junk' O)) (stdin st') = (r1, t1, s1, o1) ->
  readTime (snd (junk' O)) (snd (clearBufferJunk (code "-") s1))
  = (r2, t2, s3, o2) ->
  r1 = -1 \/ r2 = -1 ->
  let rest := afterNewline (if r1 =? -1 then s1 else s3) in
  let printed :=
    stdout st'
    ++ (if r1 =? -1 then o1 ++ [BadStartTime] else o2 ++ [BadEndTime]) in
  let aborted :=
    mkSession (totalHours st') (totalMinutes st') rest printed in
  pairStep (junk' O) st' = Return (-1) aborted
  /\ readTimesForDay (junks O) (mkSession 0 0 s (out ++ [Prompt]))
     = Some (-1, aborted)
  /\ finalized printed = finalized out
  /\ main (k + S fuel) junks0 s0 = mainLoop fuel (later junks) rest printed
  /\ mainLoop (S fuel) (later junks) rest printed
     = match readTimesForDay (later junks O)
               (mkSession 0 0 rest (printed ++ [Prompt])) with
       | Some (v, st) =>
           if v =? 0 then (Some 0, stdin st, dayOutput v st)
           else mainLoop fuel (later (later junks)) (stdin st) (dayOutput v st)
       | None => (None, rest, printed)
       end
  /\ fst (main (k + S fuel) junks0 s0)
     = fst (mainLoop fuel (later junks) rest out)
  /\ finalized (snd (main (k + S fuel) junks0 s0))
     = finalized (snd (mainLoop fuel (later junks) rest out)).
Proof.
  intros Hdays Hpasses E1 E2 Hfail rest printed aborted.
  assert (Ho1 : r1 = -1 \/ (r1 = 0 /\ o1 = [])).
  { pose proof (readTime_cases (fst (junk' O)) (stdin st')) as H.
    rewrite E1 in H. cbv zeta in H.
    destruct H as [_ [_ [[H [_ H']]|[H _]]]]; auto. }
  assert (Hstep : pairStep (junk' O) st' = Return (-1) aborted).
  { rewrite (pairStep_eq _ _ _ _ _ _ _ _ _ _ E1 E2).
    unfold aborted, printed, rest.
    destruct Ho1 as [H1|[H1 Ho1]]; subst r1.
    - reflexivity.
    - destruct Hfail as [Hf|Hf]; [discriminate|]. subst r2 o1. reflexivity. }
  assert (Hday : readTimesForDay (junks O) (mkSession 0 0 s (out ++ [Prompt]))
                 = Some (-1, aborted)).
  { rewrite (passes_readTimesForDay _ _ _ _ Hpasses).
    apply readTimesForDay_Return. exact Hstep. }
  assert (Hfin : finalized printed = finalized out).
  { unfold printed. rewrite finalized_app.
    rewrite (passes_finalized _ _ _ _ Hpasses). cbn [stdout].
    rewrite finalized_app. simpl (finalized [Prompt]). rewrite app_nil_r.
    apply readTime_finalized in E1. apply readTime_finalized in E2.
    destruct (r1 =? -1); rewrite finalized_app, ?E1, ?E2; simpl;
      rewrite app_nil_r; reflexivity. }
  assert (Hmain : main (k + S fuel) junks0 s0
                  = mainLoop fuel (later junks) rest printed).
  { unfold main. rewrite (daysPass_mainLoop _ _ _ _ _ _ _ Hdays).
    rewrite (mainLoop_S _ _ _ _ _ _ Hday). reflexivity. }
  split; [exact Hstep|]. split; [exact Hday|]. split; [exact Hfin|].
  split; [exact Hmain|].
  split.
  { destruct (readTimesForDay_total (later junks O)
                (mkSession 0 0 rest (printed ++ [Prompt]))) as [v [st E]].
    rewrite (mainLoop_S _ _ _ _ _ _ E), E. reflexivity. }
  rewrite Hmain.
  rewrite (mainLoop_out fuel (later junks) rest printed).
  rewrite (mainLoop_out fuel (later junks) rest out).
  cbn [fst snd]. split; [reflexivity|].
  rewrite !finalized_app, Hfin. reflexivity.
Qed.

(** The second pair of the first line has hour 13; the 4 hours of the first
    pair appear in no total, and the next line is summed from zero. *)
Lemma invalid_time_aborts_witness :
  main 2 zeroJunk
       (line "9:00am-1:00pm, 13:00pm-2:00pm, 3:00pm-4:00pm"
        ++ line "2:00pm-4:30pm")%string
  = (None, EmptyString,
     [Welcome; Prompt;
      Echo (mkTime 9 0 "a") (mkTime 1 0 "p"); ActualTime 4 0;
      HourTooBig 13; BadStartTime; Prompt;
      Echo (mkTime 2 0 "p") (mkTime 4 30 "p"); ActualTime 2 30;
      ActualTotalTime 2 30; RoundedTotalTime 2 30]).
Proof.
  edestruct invalid_time_aborts
    with (fuel := 1%nat) (k := 0%nat) (junks0 := zeroJunk)
         (s0 := (line "9:00am-1:00pm, 13:00pm-2:00pm, 3:00pm-4:00pm"
                 ++ line "2:00pm-4:30pm")%string)
    as [_ [_ [_ [H _]]]].
  - apply days_here.
  - eapply passes_next; [reflexivity|apply passes_here].
  - reflexivity.
  - reflexivity.
  - left. reflexivity.
  - etransitivity; [exact H|reflexivity].
Defined.

(** ** End of input *)

Lemma clearBufferJunk_EOF_rest (target : Z) (s : string) :
  fst (clearBufferJunk target s) = -1 ->
  snd (clearBufferJunk target s) = EmptyString.
Proof.
  intros H.
  assert (He : fst (clearBufferJunk_scan target s) = EOF).
  { revert H. unfold clearBufferJunk.
    destruct (clearBufferJunk_scan target s) as [lc rest]. cbn [fst].
    destruct (Z.eqb_spec lc EOF) as [He|He]; [intros _; exact He|].
    destruct ((lc =? target) && negb (target =? NL)); [discriminate|].
    destruct (lc =? NL); discriminate. }
  rewrite clearBufferJunk_rest. clear H.
  induction s as [|c rest IH]; [reflexivity|].
  simpl in *. pose proof (code_range c) as Hc.
  destruct (negb (code c =? target) && negb (code c =? EOF)
            && negb (code c =? NL)).
  - apply IH. exact He.
  - simpl in He. unfold EOF in He. lia.
Qed.

(** At end of input [scanf_s] assigns nothing: [readTime] judges the values
    the variables happen to hold. *)
Lemma readTime_exhausted (t : Time) :
  exists r msgs,
    readTime t EmptyString = (r, unassigned t, EmptyString, msgs)
    /\ ((r = 0 /\ valid (unassigned t)) \/ (r = -1 /\ ~ valid (unassigned t))).
Proof.
  pose proof (readTime_cases t EmptyString) as H.
  destruct (readTime t EmptyString) as [[[r t'] rest] msgs].
  cbv zeta in H. destruct H as [Hrest [Ht H]].
  simpl in Hrest, Ht. subst rest t'.
  exists r, msgs. split; [reflexivity|].
  destruct H as [[H1 [H2 _]]|[H1 [H2 _]]]; auto.
Qed.

Lemma pairStep_exhausted (junk : Time * Time) (st : Session) :
  stdin st = EmptyString ->
  exists v st',
    pairStep junk st = Return v st' /\ stdin st' = EmptyString
    /\ (v = 0 -> junkStops junk).
Proof.
  intros Hs. destruct st as [th tm s o]. simpl in Hs. subst s.
  destruct (readTime_exhausted (fst junk)) as [r1 [o1 [E1 V1]]].
  destruct (readTime_exhausted (snd junk)) as [r2 [o2 [E2 V2]]].
  rewrite (pairStep_eq junk (mkSession th tm EmptyString o)
             _ _ _ _ _ _ _ _ E1 E2).
  destruct V1 as [[R1 V1]|[R1 V1]]; subst r1;
    [|eexists; eexists; split; [reflexivity|split; [reflexivity|discriminate]]].
  destruct V2 as [[R2 V2]|[R2 V2]]; subst r2;
    [|eexists; eexists; split; [reflexivity|split; [reflexivity|discriminate]]].
  simpl Z.eqb. cbv iota.
  destruct (sameTime (unassigned (fst junk)) (unassigned (snd junk))) eqn:Es.
  - eexists; eexists; split; [reflexivity|split; [reflexivity|]].
    intros _. apply sameTime_eq in Es.
    split; [exact V1|split; [exact V2|exact Es]].
  - eexists; eexists; split; [reflexivity|split; [reflexivity|discriminate]].
Qed.

(** Once the input is exhausted, [main] returns only if the indeterminate
    values of some day are a valid identical pair. *)
Lemma mainLoop_exhausted (fuel : nat) :
  forall (junks : nat -> Junk) (out : list Out),
    (forall day, ~ junkStops (junks day O)) ->
    fst (mainLoop fuel junks EmptyString out) = (None, EmptyString).
Proof.
  induction fuel as [|fuel IH]; intros junks out Hj; [reflexivity|].
  destruct (pairStep_exhausted (junks O O)
              (mkSession 0 0 EmptyString (out ++ [Prompt])) eq_refl)
    as [v [st [E [Hs Hv]]]].
  rewrite (mainLoop_S _ _ _ _ _ _ (readTimesForDay_Return _ _ _ _ E)).
  destruct (Z.eqb_spec v 0) as [Hz|Hz].
  - exfalso. apply (Hj O). apply Hv. exact Hz.
  - rewrite Hs. apply IH. intros day. apply (Hj (S day)).
Qed.

Lemma mainLoop_status (fuel : nat) :
  forall (junks : nat -> Junk) (s : string) (out : list Out),
    fst (fst (mainLoop fuel junks s out)) = None
    \/ fst (fst (mainLoop fuel junks s out)) = Some 0.
Proof.
  induction fuel as [|fuel IH]; intros junks s out; [left; reflexivity|].
  destruct (readTimesForDay_total (junks O) (mkSession 0 0 s (out ++ [Prompt])))
    as [v [st E]].
  rewrite (mainLoop_S _ _ _ _ _ _ E).
  destruct (v =? 0); [right; reflexivity|apply IH].
Qed.

(** [main] returns only after a call of [readTimesForDay] returned 0. *)
Lemma mainLoop_returns (fuel : nat) :
  forall (junks : nat -> Junk) (s : string) (out : list Out),
    fst (fst (mainLoop fuel junks s out)) = Some 0 ->
    exists k junks' s' out' st,
      daysPass junks s out k junks' s' out'
      /\ readTimesForDay (junks' O) (mkSession 0 0 s' (out' ++ [Prompt]))
         = Some (0, st).
Proof.
  induction fuel as [|fuel IH]; intros junks s out; [discriminate|].
  destruct (readTimesForDay_total (junks O) (mkSession 0 0 s (out ++ [Prompt])))
    as [v [st E]].
  rewrite (mainLoop_S _ _ _ _ _ _ E).
  destruct (Z.eqb_spec v 0) as [Hv|Hv].
  - subst v. intros _. exists O, junks, s, out, st.
    split; [apply days_here|exact E].
  - intros H. destruct (IH _ _ _ H) as [k [junks' [s' [out' [st' [D R]]]]]].
    exists (S k), junks', s', out', st'.
    split; [exact (days_next _ _ _ _ _ _ _ _ _ E Hv D)|exact R].
Qed.

Lemma zeroJunk_never_stops (day : nat) : ~ junkStops (zeroJunk day O).
Proof.
  intros [[H _] _]. simpl in H. lia.
Qed.

(** C8, as the code has it.  End of input is no reason to return.  A read
    at end of input assigns nothing, so a pass at end of input returns at
    once, leaving the input exhausted, and returns 0 only if the values the
    variables happen to hold are a valid identical pair; end of input right
    after a pair ends the day as a newline does, the pass returning 1 with
    the pair added to the totals.  [main] returns no status but 0, and only
    after a call of [readTimesForDay] returned 0; once the input is
    exhausted it returns within no number of days unless the indeterminate
    values of some day are a valid identical pair. *)
Theorem end_of_input_prompts_again (fuel : nat) (junks : nat -> Junk)
        (out : list Out) :
  (forall day, ~ junkStops (junks day O)) ->
  fst (mainLoop fuel junks EmptyString out) = (None, EmptyString)
  /\ (forall (junk : Time * Time) (st : Session),
        stdin st = EmptyString ->
        exists v st',
          pairStep junk st = Return v st' /\ stdin st' = EmptyString
          /\ (v = 0 -> junkStops junk))
  /\ (forall (junk : Time * Time) (st : Session) (t1 t2 : Time)
             (s1 s3 : string) (o1 o2 : list Out),
        readTime (fst junk) (stdin st) = (0, t1, s1, o1) ->
        readTime (snd junk) (snd (clearBufferJunk (code "-") s1))
        = (0, t2, s3, o2) ->
        sameTime t1 t2 = false ->
        fst (clearBufferJunk (code ",") s3) = -1 ->
        let d := timeDifference t1 t2 in
        let totals :=
          accumulate (totalHours st) (totalMinutes st) (fst d) (snd d) in
        pairStep junk st
        = Return 1 (mkSession (fst totals) (snd totals) EmptyString
                      (stdout st ++ [Echo t1 t2; ActualTime (fst d) (snd d)])))
  /\ (forall (n : nat) (js : nat -> Junk) (s : string) (o : list Out),
        fst (fst (mainLoop n js s o)) = None
        \/ fst (fst (mainLoop n js s o)) = Some 0)
  /\ (forall (n : nat) (js : nat -> Junk) (s : string) (o : list Out),
        fst (fst (mainLoop n js s o)) = Some 0 ->
        exists k js' s' o' st,
          daysPass js s o k js' s' o'
          /\ readTimesForDay (js' O) (mkSession 0 0 s' (o' ++ [Prompt]))
             = Some (0, st)).
Proof.
  intros Hj.
  split; [apply mainLoop_exhausted; exact Hj|].
  split; [exact pairStep_exhausted|].
  split; [|split; [intros n js s o; apply mainLoop_status
                  |intros n; apply mainLoop_returns]].
  intros junk st t1 t2 s1 s3 o1 o2 E1 E2 Hsame Heof d totals.
  assert (Ho1 : o1 = []).
  { pose proof (readTime_cases (fst junk) (stdin st)) as H.
    rewrite E1 in H. cbv zeta in H.
    destruct H as [_ [_ [[_ [_ H]]|[H _]]]]; [exact H|discriminate]. }
  assert (Ho2 : o2 = []).
  { pose proof (readTime_cases (snd junk)
                  (snd (clearBufferJunk (code "-") s1))) as H.
    rewrite E2 in H. cbv zeta in H.
    destruct H as [_ [_ [[_ [_ H]]|[H _]]]]; [exact H|discriminate]. }
  rewrite (pairStep_eq _ _ _ _ _ _ _ _ _ _ E1 E2).
  simpl Z.eqb. cbv iota. rewrite Hsame. cbv zeta.
  rewrite Heof, (clearBufferJunk_EOF_rest _ _ Heof). subst o1 o2.
  simpl. rewrite <- app_assoc. reflexivity.
Qed.

Lemma end_of_input_prompts_again_witness :
  fst (main 3 zeroJunk EmptyString) = (None, EmptyString).
Proof.
  apply (end_of_input_prompts_again 3 zeroJunk [Welcome]).
  intros day [[H _] _]. simpl in H. lia.
Defined.

(** C8, as stated, fails.  With every variable starting as 0, whether the
    input ends at a line boundary (nothing typed, or a whole line typed),
    right after a pair, or in the middle of an entry, [main] returns within
    no number of days. *)
Lemma end_of_input_never_exits :
  ~ (exists fuel, fst (fst (main fuel zeroJunk EmptyString)) <> None)
  /\ ~ (exists fuel,
          fst (fst (main fuel zeroJunk (line "9:00am-5:00pm"))) <> None)
  /\ ~ (exists fuel,
          fst (fst (main fuel zeroJunk "9:00am-5:00pm")) <> None)
  /\ ~ (exists fuel, fst (fst (main fuel zeroJunk "9:00am-5:0")) <> None).
Proof.
  assert (Hrest : forall fuel out,
            fst (fst (mainLoop fuel (later zeroJunk) EmptyString out)) = None).
  { intros fuel out.
    rewrite (mainLoop_exhausted fuel (later zeroJunk) out); [reflexivity|].
    intros day. apply (zeroJunk_never_stops (S day)). }
  repeat split; intros [fuel H]; apply H; clear H; unfold main.
  - rewrite (mainLoop_exhausted fuel zeroJunk [Welcome] zeroJunk_never_stops).
    reflexivity.
  - destruct fuel as [|fuel]; [reflexivity|].
    erewrite mainLoop_S by reflexivity. apply Hrest.
  - destruct fuel as [|fuel]; [reflexivity|].
    erewrite mainLoop_S by reflexivity. apply Hrest.
  - destruct fuel as [|fuel]; [reflexivity|].
    erewrite mainLoop_S by reflexivity. apply Hrest.
Qed.

(** ** The totals of a session *)

(** A pass that processes a pair adds the difference of two valid times. *)
Lemma pairStep_Continue_totals (junk : Time * Time) (st st' : Session) :
  pairStep junk st = Continue st' ->
  exists t1 t2,
    valid t1 /\ valid t2
    /\ (totalHours st', totalMinutes st')
       = accumulate (totalHours st) (totalMinutes st)
                    (fst (timeDifference t1 t2)) (snd (timeDifference t1 t2)).
Proof.
  destruct (pairStep_calls junk st)
    as [r1 [r2 [t1 [t2 [s1 [s3 [o1 [o2 [E1 [E2 _]]]]]]]]]].
  rewrite (pairStep_eq junk st _ _ _ _ _ _ _ _ E1 E2).
  pose proof (readTime_cases (fst junk) (stdin st)) as H1. rewrite E1 in H1.
  pose proof (readTime_cases (snd junk) (snd (clearBufferJunk (code "-") s1)))
    as H2. rewrite E2 in H2.
  cbv zeta in H1, H2.
  destruct H1 as [_ [_ [[R1 [V1 _]]|[R1 _]]]]; subst r1; [|discriminate].
  destruct H2 as [_ [_ [[R2 [V2 _]]|[R2 _]]]]; subst r2; [|discriminate].
  simpl Z.eqb. cbv iota.
  destruct (sameTime t1 t2); [discriminate|]. cbv zeta.
  destruct (negb (fst (clearBufferJunk (code ",") s3) =? 1)
            && negb (fst (clearBufferJunk (code ",") s3) =? -1));
    [|discriminate].
  intros H. inversion H. simpl.
  exists t1, t2. split; [exact V1|split; [exact V2|]].
  destruct (accumulate (totalHours st) (totalMinutes st)
              (fst (timeDifference t1 t2)) (snd (timeDifference t1 t2)));
    reflexivity.
Qed.

(** At the head of any pass the totals are those of [accumulateAll]-style
    summing over the differences of the pairs processed so far, each with
    hours in 0..23 and minutes in 0..59, and each pair took input. *)
Lemma passes_totals (junk junk' : Junk) (st st' : Session) :
  passes junk st junk' st' ->
  exists ds : list (Z * Z),
    (List.length ds + String.length (stdin st') <= String.length (stdin st))%nat
    /\ Forall (fun d => 0 <= fst d <= 23 /\ 0 <= snd d <= 59) ds
    /\ (totalHours st', totalMinutes st')
       = fold_left (fun totals d =>
                      accumulate (fst totals) (snd totals) (fst d) (snd d))
                   ds (totalHours st, totalMinutes st).
Proof.
  induction 1 as [junk st|junk junk' st st1 st' E _ IH].
  - exists []. simpl. repeat split; [lia|constructor].
  - destruct IH as [ds [Hlen [Hds Htot]]].
    pose proof (pairStep_Continue_length _ _ _ E) as Hl.
    destruct (pairStep_Continue_totals _ _ _ E) as [t1 [t2 [V1 [V2 Hacc]]]].
    exists (timeDifference t1 t2 :: ds).
    split; [simpl; lia|].
    split.
    + constructor; [|exact Hds].
      apply timeDifference_range; assumption.
    + simpl. rewrite <- Hacc. exact Htot.
Qed.

Lemma minutesOf_bound (ds : list (Z * Z)) :
  Forall (fun d => 0 <= fst d <= 23 /\ 0 <= snd d <= 59) ds ->
  0 <= minutesOf ds <= 1439 * Z.of_nat (List.length ds).
Proof.
  induction 1 as [|d ds [H1 H2] _ IH]; simpl minutesOf.
  - simpl. lia.
  - change (List.length (d :: ds)) with (S (List.length ds)). lia.
Qed.

(** The invariant of the day's totals, on the loop itself: in a session
    started from totals of zero on less than 89 million characters of
    input, at the head of every pass the minutes are in 0..59, the hours are
    not negative, and together they are the sum of the differences of the
    pairs processed so far. *)
Lemma session_totals_normalized (junk junk' : Junk) (s : string)
      (out : list Out) (st' : Session) :
  passes junk (mkSession 0 0 s out) junk' st' ->
  Z.of_nat (String.length s) <= 89000000 ->
  exists ds : list (Z * Z),
    Forall (fun d => 0 <= fst d <= 23 /\ 0 <= snd d <= 59) ds
    /\ (totalHours st', totalMinutes st') = accumulateAll ds
    /\ 0 <= totalMinutes st' <= 59 /\ 0 <= totalHours st'
    /\ 60 * totalHours st' + totalMinutes st' = minutesOf ds.
Proof.
  intros Hp Hlen.
  destruct (passes_totals _ _ _ _ Hp) as [ds [Hl [Hds Htot]]].
  cbn [stdin totalHours totalMinutes] in Hl, Htot.
  exists ds. split; [exact Hds|]. split; [exact Htot|].
  pose proof (minutesOf_bound ds Hds) as Hb.
  assert (Hds' : Forall (fun d => 0 <= fst d /\ 0 <= snd d <= 59) ds).
  { revert Hds. apply Forall_impl. intros d [H1 H2]. lia. }
  assert (Hfit : 60 * 0 + 0 + minutesOf ds <= 60 * Int.INT_MAX).
  { unfold Int.INT_MAX. lia. }
  assert (H0 : 0 <= 0 <= 59) by lia.
  pose proof (accumulate_fold ds 0 0 (Z.le_refl 0) H0 Hds' Hfit) as H.
  cbv zeta in H. rewrite <- Htot in H. cbn [fst snd] in H. lia.
Qed.

(** ** The scenarios of the specification *)

Example scenario_simple :
  main 1 zeroJunk (line "9:00am-5:00pm")
  = (None, EmptyString,
     [Welcome; Prompt;
      Echo (mkTime 9 0 "a") (mkTime 5 0 "p"); ActualTime 8 0;
      ActualTotalTime 8 0; RoundedTotalTime 8 0]).
Proof. reflexivity. Qed.

Example scenario_rounds_down :
  main 1 zeroJunk (line "9:10am-5:12pm")
  = (None, EmptyString,
     [Welcome; Prompt;
      Echo (mkTime 9 10 "a") (mkTime 5 12 "p"); ActualTime 8 2;
      ActualTotalTime 8 2; RoundedTotalTime 8 0]).
Proof. reflexivity. Qed.

Example scenario_wraps :
  main 1 zeroJunk (line "8:00pm-7:59pm")
  = (None, EmptyString,
     [Welcome; Prompt;
      Echo (mkTime 8 0 "p") (mkTime 7 59 "p"); ActualTime 23 59;
      ActualTotalTime 23 59; RoundedTotalTime 24 0]).
Proof. reflexivity. Qed.

Example scenario_two_pairs :
  main 1 zeroJunk (line "9:00am-1:00pm, 2:00pm-4:30pm")
  = (None, EmptyString,
     [Welcome; Prompt;
      Echo (mkTime 9 0 "a") (mkTime 1 0 "p"); ActualTime 4 0;
      Echo (mkTime 2 0 "p") (mkTime 4 30 "p"); ActualTime 2 30;
      ActualTotalTime 6 30; RoundedTotalTime 6 30]).
Proof. reflexivity. Qed.

Example scenario_hour_13 :
  readTime zeroTime "13:00pm-2:00pm"
  = (-1, mkTime 13 0 "p", "m-2:00pm"%string, [HourTooBig 13]).
Proof. reflexivity. Qed.

Example scenario_all_wrong :
  readTime zeroTime " 0 : 75 Xm"
  = (-1, mkTime 0 75 "X", "m"%string,
     [HourTooSmall 0; MinuteTooBig 75; UnrecognizedMeridiem "X"]).
Proof. reflexivity. Qed.

(** * Further properties of the code *)

(** ** Elapsed time as arithmetic modulo a day *)

Lemma specLinear_inj (t1 t2 : Time) :
  valid t1 -> valid t2 -> specLinear t1 = specLinear t2 -> t1 = t2.
Proof.
  intros H1 H2. unfold specLinear.
  destruct t1 as [h1 m1 c1]; destruct t2 as [h2 m2 c2].
  destruct H1 as [Hh1 [Hm1 Hc1]]; destruct H2 as [Hh2 [Hm2 Hc2]].
  simpl in *.
  destruct Hc1; destruct Hc2; subst c1 c2; simpl;
    destruct (Z.eqb_spec h1 12); destruct (Z.eqb_spec h2 12);
    intros E; try lia;
    assert (h1 = h2) by lia; assert (m1 = m2) by lia; subst; reflexivity.
Qed.

(** The program's difference, in minutes, is the difference of the minutes
    since midnight, brought into 0..1439. *)
Lemma elapsedMinutes_spec (s e : Time) :
  valid s -> valid e ->
  0 <= elapsedMinutes s e <= 1439
  /\ (elapsedMinutes s e = specLinear e - specLinear s
      \/ elapsedMinutes s e = specLinear e - specLinear s + 1440).
Proof.
  intros Hs He. unfold elapsedMinutes.
  rewrite (timeDifference_exact s e Hs He). cbv zeta. cbn [fst snd].
  pose proof (linear_cases s Hs) as [Bs _].
  pose proof (linear_cases e He) as [Be _].
  pose proof (linear_specLinear s Hs) as [Rs Ms].
  pose proof (linear_specLinear e He) as [Re Me].
  unfold linear in Ms, Me.
  destruct Hs as [_ [Hms _]]; destruct He as [_ [Hme _]].
  set (sh := toMilitaryTime (hour s) (meridiem s)) in *.
  set (eh := toMilitaryTime (hour e) (meridiem e)) in *.
  destruct (Z.ltb_spec (minute e - minute s) 0);
    match goal with |- context [?x <? 0] => destruct (Z.ltb_spec x 0) end;
    lia.
Qed.

(** X1.  For valid times the difference the program computes is 0 hours
    and 0 minutes exactly when start and end are the same time: the test for
    the identical pair stops exactly the pairs of no length, and every pair
    that is added to the totals has a positive length. *)
Theorem timeDifference_zero_iff (s e : Time) :
  valid s -> valid e ->
  (timeDifference s e = (0, 0) <-> s = e)
  /\ (sameTime s e = false <-> 0 < elapsedMinutes s e).
Proof.
  intros Hs He.
  pose proof (elapsedMinutes_spec s e Hs He) as [Hr Hd].
  pose proof (timeDifference_range s e Hs He) as [Hh Hm].
  pose proof (linear_specLinear s Hs) as [Rs _].
  pose proof (linear_specLinear e He) as [Re _].
  assert (Hzero : elapsedMinutes s e = 0 <-> s = e).
  { split.
    - intros Hz. apply specLinear_inj; try assumption. lia.
    - intros Heq. subst e. lia. }
  unfold elapsedMinutes in *.
  split.
  - rewrite <- Hzero.
    destruct (timeDifference s e) as [hd md]. cbn [fst snd] in *.
    split; [intros E; inversion E; lia|intros E].
    assert (hd = 0) by lia. assert (md = 0) by lia. subst. reflexivity.
  - destruct (sameTime s e) eqn:Es.
    + apply sameTime_eq in Es. apply Hzero in Es.
      split; [discriminate|lia].
    + split; [intros _|reflexivity].
      assert (Hne : s <> e).
      { intros Heq. apply sameTime_eq in Heq. congruence. }
      rewrite <- Hzero in Hne. lia.
Qed.

Lemma timeDifference_zero_iff_witness :
  0 < elapsedMinutes (mkTime 11 59 "p"%char) (mkTime 12 1 "a"%char).
Proof.
  apply (timeDifference_zero_iff (mkTime 11 59 "p"%char) (mkTime 12 1 "a"%char)).
  - unfold valid; simpl. repeat split; try lia. right; reflexivity.
  - unfold valid; simpl. repeat split; try lia. left; reflexivity.
  - reflexivity.
Defined.

(** X2.  For valid times the differences compose modulo a day: from a to b
    and from b to c is, modulo 1440 minutes, from a to c; and for two
    different times the way there and the way back make exactly one day. *)
Theorem elapsedMinutes_compose (a b c : Time) :
  valid a -> valid b -> valid c ->
  (elapsedMinutes a b + elapsedMinutes b c) mod 1440 = elapsedMinutes a c
  /\ (a <> b -> elapsedMinutes a b + elapsedMinutes b a = 1440)
  /\ elapsedMinutes a a = 0.
Proof.
  intros Ha Hb Hc.
  pose proof (elapsedMinutes_spec a b Ha Hb) as [Rab Dab].
  pose proof (elapsedMinutes_spec b c Hb Hc) as [Rbc Dbc].
  pose proof (elapsedMinutes_spec a c Ha Hc) as [Rac Dac].
  pose proof (elapsedMinutes_spec b a Hb Ha) as [Rba Dba].
  pose proof (elapsedMinutes_spec a a Ha Ha) as [Raa Daa].
  split; [|split].
  - symmetry.
    apply (Z.mod_unique _ 1440
             ((elapsedMinutes a b + elapsedMinutes b c - elapsedMinutes a c)
              / 1440)); [lia|].
    assert (Hk : exists k, elapsedMinutes a b + elapsedMinutes b c
                           - elapsedMinutes a c = 1440 * k).
    { destruct Dab as [Dab|Dab]; destruct Dbc as [Dbc|Dbc];
        destruct Dac as [Dac|Dac];
        [exists 0|exists (-1)|exists 1|exists 0
        |exists 1|exists 0|exists 2|exists 1]; lia. }
    destruct Hk as [k Hk]. rewrite Hk.
    rewrite (Z.mul_comm 1440 k), Z.div_mul by lia. lia.
  - intros Hne.
    assert (Hs : specLinear a <> specLinear b).
    { intros E. apply Hne. apply specLinear_inj; assumption. }
    lia.
  - lia.
Qed.

Lemma elapsedMinutes_compose_witness :
  elapsedMinutes (mkTime 8 0 "p"%char) (mkTime 7 59 "p"%char)
  + elapsedMinutes (mkTime 7 59 "p"%char) (mkTime 8 0 "p"%char) = 1440.
Proof.
  assert (Ha : valid (mkTime 8 0 "p"%char)).
  { unfold valid; simpl. repeat split; try lia. right; reflexivity. }
  assert (Hb : valid (mkTime 7 59 "p"%char)).
  { unfold valid; simpl. repeat split; try lia. right; reflexivity. }
  apply (elapsedMinutes_compose _ _ (mkTime 12 0 "a"%char) Ha Hb).
  - unfold valid; simpl. repeat split; try lia. left; reflexivity.
  - discriminate.
Defined.

(** ** The day's total as quotient and remainder *)

Lemma minutesOf_Permutation (ds ds' : list (Z * Z)) :
  Permutation ds ds' -> minutesOf ds = minutesOf ds'.
Proof.
  induction 1 as [|d l l' _ IH|d d' l|l l' l'' _ IH1 _ IH2]; simpl; lia.
Qed.

Lemma accumulateAll_value (ds : list (Z * Z)) :
  Forall (fun d => 0 <= fst d /\ 0 <= snd d <= 59) ds ->
  minutesOf ds <= 60 * Int.INT_MAX ->
  accumulateAll ds = (minutesOf ds / 60, minutesOf ds mod 60).
Proof.
  intros Hds Hfit. unfold accumulateAll.
  assert (H0 : 0 <= 0 <= 59) by lia.
  assert (Hfit' : 60 * 0 + 0 + minutesOf ds <= 60 * Int.INT_MAX) by lia.
  pose proof (accumulate_fold ds 0 0 (Z.le_refl 0) H0 Hds Hfit') as H.
  cbv zeta in H.
  destruct (fold_left
              (fun totals d =>
                 accumulate (fst totals) (snd totals) (fst d) (snd d))
              ds (0, 0)) as [th tm].
  cbn [fst snd] in H. destruct H as [H1 [H2 H3]].
  f_equal.
  - apply (Z.div_unique _ 60 th tm); lia.
  - apply (Z.mod_unique _ 60 th tm); lia.
Qed.

(** X3.  Summing pair by pair with a carry gives the quotient and the
    remainder by 60 of all the minutes together, so the totals of a day do
    not depend on the order in which its pairs are entered (differences with
    hours not negative and minutes in 0..59, the sum within an [int]). *)
Theorem accumulateAll_order (ds ds' : list (Z * Z)) :
  Forall (fun d => 0 <= fst d /\ 0 <= snd d <= 59) ds ->
  minutesOf ds <= 60 * Int.INT_MAX ->
  Permutation ds ds' ->
  accumulateAll ds = (minutesOf ds / 60, minutesOf ds mod 60)
  /\ accumulateAll ds' = accumulateAll ds.
Proof.
  intros Hds Hfit Hperm.
  assert (Hds' : Forall (fun d => 0 <= fst d /\ 0 <= snd d <= 59) ds').
  { apply (Permutation_Forall Hperm). exact Hds. }
  pose proof (minutesOf_Permutation ds ds' Hperm) as Hm.
  rewrite (accumulateAll_value ds Hds Hfit).
  rewrite (accumulateAll_value ds' Hds') by lia.
  rewrite Hm. split; reflexivity.
Qed.

Lemma accumulateAll_order_witness :
  accumulateAll [(0, 45); (1, 40)] = accumulateAll [(1, 40); (0, 45)].
Proof.
  apply (accumulateAll_order [(1, 40); (0, 45)] [(0, 45); (1, 40)]).
  - repeat constructor; simpl; lia.
  - unfold Int.INT_MAX. vm_compute. discriminate.
  - apply perm_swap.
Defined.

(** ** Rounding to the quarter-hour *)

Lemma roundTime_value (h m : Z) :
  0 <= m <= 59 -> Int.INT_MIN <= h < Int.INT_MAX ->
  roundTime h m
  = if m <? 8 then (h, 0)
    else if m <? 23 then (h, 15)
    else if m <? 38 then (h, 30)
    else if m <? 53 then (h, 45)
    else (h + 1, 0).
Proof.
  intros Hm Hh. rewrite (roundTime_machine h m Hm).
  unfold Int.INT_MIN, Int.INT_MAX in Hh.
  assert (Hq : (m + 7) / 15 * 15
               = if m <? 8 then 0 else if m <? 23 then 15
                 else if m <? 38 then 30 else if m <? 53 then 45 else 60).
  { destruct (Z.ltb_spec m 8); [|destruct (Z.ltb_spec m 23);
      [|destruct (Z.ltb_spec m 38); [|destruct (Z.ltb_spec m 53)]]];
      Z.div_mod_to_equations; lia. }
  rewrite Hq.
  destruct (m <? 8); [reflexivity|]. destruct (m <? 23); [reflexivity|].
  destruct (m <? 38); [reflexivity|]. destruct (m <? 53); [reflexivity|].
  simpl. exact_arith. reflexivity.
Qed.

(** X4.  For minutes in 0..59 the rounded time has its minutes on a
    quarter (0, 15, 30 or 45), lies within 7 minutes of the time given, and
    is the only time on a quarter that does. *)
Theorem roundTime_nearest (h m : Z) :
  0 <= m <= 59 -> Int.INT_MIN <= h < Int.INT_MAX ->
  let rounded := roundTime h m in
  (snd rounded = 0 \/ snd rounded = 15 \/ snd rounded = 30 \/ snd rounded = 45)
  /\ -7 <= (60 * fst rounded + snd rounded) - (60 * h + m) <= 7
  /\ (forall h' m' : Z,
        (m' = 0 \/ m' = 15 \/ m' = 30 \/ m' = 45) ->
        -7 <= (60 * h' + m') - (60 * h + m) <= 7 ->
        (h', m') = rounded).
Proof.
  intros Hm Hh. cbv zeta. rewrite (roundTime_value h m Hm Hh).
  destruct (Z.ltb_spec m 8); [|destruct (Z.ltb_spec m 23);
    [|destruct (Z.ltb_spec m 38); [|destruct (Z.ltb_spec m 53)]]];
    cbn [fst snd];
    (split; [lia|split; [lia|]]);
    intros h' m' Hq Hnear;
    match goal with
    | |- _ = (?a, ?b) =>
        assert (h' = a) by lia; assert (m' = b) by lia; subst; reflexivity
    end.
Qed.

Lemma roundTime_nearest_witness :
  -7 <= (60 * fst (roundTime 8 53) + snd (roundTime 8 53)) - (60 * 8 + 53) <= 7.
Proof.
  apply (roundTime_nearest 8 53); unfold Int.INT_MIN, Int.INT_MAX; lia.
Defined.

(** X5.  Rounding keeps the order of times and leaves a rounded time as it
    is: an earlier time never rounds to a later one than a later time does,
    and rounding twice is rounding once. *)
Theorem roundTime_monotone (h1 m1 h2 m2 : Z) :
  0 <= m1 <= 59 -> 0 <= m2 <= 59 ->
  Int.INT_MIN <= h1 < Int.INT_MAX -> Int.INT_MIN <= h2 < Int.INT_MAX ->
  60 * h1 + m1 <= 60 * h2 + m2 ->
  60 * fst (roundTime h1 m1) + snd (roundTime h1 m1)
  <= 60 * fst (roundTime h2 m2) + snd (roundTime h2 m2)
  /\ roundTime (fst (roundTime h1 m1)) (snd (roundTime h1 m1))
     = roundTime h1 m1.
Proof.
  intros Hm1 Hm2 Hh1 Hh2 Hle.
  rewrite (roundTime_value h1 m1 Hm1 Hh1), (roundTime_value h2 m2 Hm2 Hh2).
  unfold Int.INT_MIN, Int.INT_MAX in *.
  split.
  - destruct (Z.ltb_spec m1 8); [|destruct (Z.ltb_spec m1 23);
      [|destruct (Z.ltb_spec m1 38); [|destruct (Z.ltb_spec m1 53)]]];
      (destruct (Z.ltb_spec m2 8); [|destruct (Z.ltb_spec m2 23);
        [|destruct (Z.ltb_spec m2 38); [|destruct (Z.ltb_spec m2 53)]]]);
      cbn [fst snd]; lia.
  - destruct (Z.ltb_spec m1 8); [|destruct (Z.ltb_spec m1 23);
      [|destruct (Z.ltb_spec m1 38); [|destruct (Z.ltb_spec m1 53)]]];
      cbn [fst snd];
      rewrite roundTime_machine by lia; reflexivity.
Qed.

Lemma roundTime_monotone_witness :
  60 * fst (roundTime 7 59) + snd (roundTime 7 59)
  <= 60 * fst (roundTime 8 7) + snd (roundTime 8 7).
Proof.
  apply (roundTime_monotone 7 59 8 7); unfold Int.INT_MIN, Int.INT_MAX; lia.
Defined.

(** ** Where [clearBufferJunk] stops *)

Lemma clearBufferJunk_scan_first (target : Z) (pre rest : string)
      (c : ascii) :
  lacks target pre = true -> lacks NL pre = true ->
  code c = target \/ code c = NL ->
  clearBufferJunk_scan target (pre ++ String c rest) = (code c, rest)
  /\ clearBufferJunk_scan target pre = (EOF, EmptyString).
Proof.
  intros Ht Hn Hc.
  induction pre as [|x pre IH]; simpl in *.
  - split; [|reflexivity].
    destruct Hc as [Hc|Hc]; rewrite Hc.
    + rewrite Z.eqb_refl. reflexivity.
    + change (NL =? NL) with true. rewrite !andb_false_r. reflexivity.
  - apply andb_true_iff in Ht. destruct Ht as [Ht1 Ht2].
    apply andb_true_iff in Hn. destruct Hn as [Hn1 Hn2].
    pose proof (code_range x) as Hx.
    assert (He : (code x =? EOF) = false)
      by (apply Z.eqb_neq; unfold EOF; lia).
    rewrite Ht1, Hn1, He. simpl. apply IH; assumption.
Qed.

(** X6.  [clearBufferJunk] stops at the first character that is the target
    or a newline and leaves everything after it unread, returning 0 for a
    target that is not the newline and 1 otherwise; input with neither in it
    is consumed whole, with -1. *)
Theorem clearBufferJunk_first_stop (target : Z) (pre rest : string)
        (c : ascii) :
  lacks target pre = true -> lacks NL pre = true ->
  code c = target \/ code c = NL ->
  clearBufferJunk target (pre ++ String c rest)
  = (if (code c =? target) && negb (target =? NL) then 0 else 1, rest)
  /\ clearBufferJunk target pre = (-1, EmptyString).
Proof.
  intros Ht Hn Hc.
  destruct (clearBufferJunk_scan_first target pre rest c Ht Hn Hc) as [H1 H2].
  unfold clearBufferJunk. rewrite H1, H2.
  split; [|reflexivity].
  pose proof (code_range c) as Hr.
  assert (He : (code c =? EOF) = false) by (apply Z.eqb_neq; unfold EOF; lia).
  rewrite He.
  destruct ((code c =? target) && negb (target =? NL)) eqn:E; [reflexivity|].
  destruct (Z.eqb_spec (code c) NL) as [En|En]; [reflexivity|].
  exfalso. destruct Hc as [Hc|Hc]; [|contradiction].
  rewrite Hc, Z.eqb_refl in E. simpl in E.
  apply negb_false_iff in E. apply Z.eqb_eq in E. congruence.
Qed.

Lemma clearBufferJunk_first_stop_witness :
  clearBufferJunk (code ","%char) "m, 2:00pm-4:30pm" = (0, " 2:00pm-4:30pm"%string)
  /\ clearBufferJunk (code ","%char) "m" = (-1, EmptyString).
Proof.
  apply (clearBufferJunk_first_stop (code ","%char) "m" " 2:00pm-4:30pm" ","%char).
  - reflexivity.
  - reflexivity.
  - left. reflexivity.
Defined.

(** ** The two scans of the earlier version *)

Lemma cleanBuffer_afterNewline (s : string) :
  Legacy.cleanBuffer s = afterNewline s.
Proof.
  induction s as [|c rest IH]; simpl; [reflexivity|].
  pose proof (code_range c) as Hc.
  assert (He : (code c =? EOF) = false) by (apply Z.eqb_neq; unfold EOF; lia).
  rewrite He.
  destruct (Ascii.eqb_spec c newline) as [E|E].
  - subst c. reflexivity.
  - destruct (Z.eqb_spec (code c) NL) as [En|En].
    + exfalso. apply E. apply code_inj. exact En.
    + simpl. exact IH.
Qed.

(** X7.  The one scan of the later version does the work of the two of
    the earlier: with the newline as target it leaves what [cleanBuffer]
    left; with the hyphen as target it leaves what [skipBufferJunk] left
    whenever a hyphen comes before the end of the line, but stops at the end
    of a line without one, where [skipBufferJunk] ran on into the lines
    after it. *)
Theorem clearBufferJunk_replaces (pre rest : string) :
  lacks (code "-"%char) pre = true -> lacks NL pre = true ->
  snd (clearBufferJunk NL (pre ++ rest)) = Legacy.cleanBuffer (pre ++ rest)
  /\ snd (clearBufferJunk (code "-"%char) (pre ++ String "-"%char rest))
     = Legacy.skipBufferJunk (pre ++ String "-"%char rest)
  /\ snd (clearBufferJunk (code "-"%char) (pre ++ String newline rest)) = rest
  /\ Legacy.skipBufferJunk (pre ++ String newline rest)
     = Legacy.skipBufferJunk rest.
Proof.
  intros Hh Hn.
  split; [rewrite clearBufferJunk_newline, cleanBuffer_afterNewline;
          reflexivity|].
  assert (Hs1 : Legacy.skipBufferJunk (pre ++ String "-"%char rest) = rest).
  { clear Hn. induction pre as [|x pre IH]; simpl in *; [reflexivity|].
    apply andb_true_iff in Hh. destruct Hh as [Hh1 Hh2].
    pose proof (code_range x) as Hx.
    assert (He : (code x =? EOF) = false)
      by (apply Z.eqb_neq; unfold EOF; lia).
    rewrite He. change (code "-"%char) with 45 in *. rewrite Hh1. simpl.
    apply IH. exact Hh2. }
  assert (Hs2 : Legacy.skipBufferJunk (pre ++ String newline rest)
                = Legacy.skipBufferJunk rest).
  { clear Hn Hs1. induction pre as [|x pre IH]; simpl in *; [reflexivity|].
    apply andb_true_iff in Hh. destruct Hh as [Hh1 Hh2].
    pose proof (code_range x) as Hx.
    assert (He : (code x =? EOF) = false)
      by (apply Z.eqb_neq; unfold EOF; lia).
    rewrite He. change (code "-"%char) with 45 in *. rewrite Hh1. simpl.
    apply IH. exact Hh2. }
  destruct (clearBufferJunk_scan_first (code "-"%char) pre rest "-"%char Hh Hn)
    as [H1 _]; [left; reflexivity|].
  destruct (clearBufferJunk_scan_first (code "-"%char) pre rest newline Hh Hn)
    as [H2 _]; [right; reflexivity|].
  rewrite !clearBufferJunk_rest, H1, H2, Hs1.
  repeat split; try reflexivity. exact Hs2.
Qed.

Lemma clearBufferJunk_replaces_witness :
  snd (clearBufferJunk (code "-"%char) (line "9:10am" ++ "-8:00pm"))
  = "-8:00pm"%string
  /\ Legacy.skipBufferJunk (line "9:10am" ++ "-8:00pm") = "8:00pm"%string.
Proof.
  destruct (clearBufferJunk_replaces "9:10am" "-8:00pm" eq_refl eq_refl)
    as [_ [_ [H1 H2]]].
  split; [exact H1|]. etransitivity; [exact H2|reflexivity].
Defined.

(** ** Input is only ever consumed from the front *)

Lemma append_assoc (a b c : string) :
  ((a ++ b) ++ c = a ++ (b ++ c))%string.
Proof.
  induction a as [|x a IH]; simpl; [reflexivity|]. rewrite IH. reflexivity.
Qed.

Lemma append_length (a b : string) :
  String.length (a ++ b) = (String.length a + String.length b)%nat.
Proof.
  induction a as [|x a IH]; simpl; [reflexivity|]. rewrite IH. reflexivity.
Qed.

Lemma leftOf_refl (s : string) : leftOf s s.
Proof. exists EmptyString. reflexivity. Qed.

Lemma leftOf_trans (a b c : string) : leftOf a b -> leftOf b c -> leftOf a c.
Proof.
  intros [x Hx] [y Hy]. exists (y ++ x)%string.
  rewrite Hy, Hx, append_assoc. reflexivity.
Qed.

Lemma leftOf_cons (c : ascii) (rest s : string) :
  leftOf rest s -> leftOf rest (String c s).
Proof.
  intros [x Hx]. exists (String c x). rewrite Hx. reflexivity.
Qed.

Lemma leftOf_length (rest s : string) :
  leftOf rest s -> (String.length rest <= String.length s)%nat.
Proof.
  intros [x Hx]. rewrite Hx, append_length. lia.
Qed.

Lemma atLineEnd_leftOf (rest s s0 : string) :
  atLineEnd rest s -> leftOf s s0 -> atLineEnd rest s0.
Proof.
  intros [H|[x Hx]] [y Hy]; [left; exact H|right].
  exists (y ++ x)%string. rewrite Hy, Hx, append_assoc. reflexivity.
Qed.

Lemma skip_space_leftOf (s : string) : leftOf (skip_space s) s.
Proof.
  induction s as [|c rest IH]; simpl; [apply leftOf_refl|].
  destruct (isspace c); [apply leftOf_cons; exact IH|apply leftOf_refl].
Qed.

Lemma scan_digits_leftOf (s : string) :
  forall acc, leftOf (snd (scan_digits acc s)) s.
Proof.
  induction s as [|c rest IH]; intros acc; cbn [scan_digits].
  - apply leftOf_refl.
  - destruct (isdigit c); [apply leftOf_cons; apply IH|apply leftOf_refl].
Qed.

Lemma scan_int_leftOf (s : string) : leftOf (snd (scan_int s)) s.
Proof.
  unfold scan_int.
  apply leftOf_trans with (2 := skip_space_leftOf s).
  assert (Hsign : forall s0 : string,
            leftOf (snd (match s0 with
                         | String "-"%char rest => (true, rest)
                         | String "+"%char rest => (false, rest)
                         | _ => (false, s0)
                         end)) s0).
  { intros s0. destruct s0 as [|c rest]; [apply leftOf_refl|].
    destruct c as [[] [] [] [] [] [] [] []]; cbn [snd];
      first [apply leftOf_refl | apply leftOf_cons; apply leftOf_refl]. }
  specialize (Hsign (skip_space s)).
  destruct (match skip_space s with
            | String "-"%char rest => (true, rest)
            | String "+"%char rest => (false, rest)
            | _ => (false, skip_space s)
            end) as [negative s1].
  cbn [snd] in Hsign.
  apply leftOf_trans with (2 := Hsign).
  destruct s1 as [|c r]; [apply leftOf_refl|].
  destruct (isdigit c); [|apply leftOf_refl].
  pose proof (scan_digits_leftOf (String c r) 0) as H.
  destruct (scan_digits 0 (String c r)) as [v s2]. exact H.
Qed.

Lemma scanf_time_leftOf (t : Time) (s : string) :
  leftOf (snd (scanf_time t s)) s.
Proof.
  unfold scanf_time.
  pose proof (scan_int_leftOf s) as H1.
  destruct (scan_int s) as [[h|] s1]; cbn [snd] in H1; [|exact H1].
  pose proof (skip_space_leftOf s1) as H2.
  assert (H12 : leftOf (skip_space s1) s) by (eapply leftOf_trans; eassumption).
  destruct (skip_space s1) as [|c s2] eqn:E2; [exact H12|].
  assert (Hgoal :
    leftOf (snd (match scan_int s2 with
                 | (Some m, s3) =>
                     match skip_space s3 with
                     | EmptyString => (mkTime h m (meridiem t), EmptyString)
                     | String c0 s4 => (mkTime h m c0, s4)
                     end
                 | (None, s3) => (mkTime h (minute t) (meridiem t), s3)
                 end)) s).
  { assert (Hs2 : leftOf s2 s).
    { eapply leftOf_trans; [|exact H12].
      exists (String c EmptyString). reflexivity. }
    pose proof (scan_int_leftOf s2) as H3.
    destruct (scan_int s2) as [[m|] s3]; cbn [snd] in H3;
      [|eapply leftOf_trans; eassumption].
    pose proof (skip_space_leftOf s3) as H4.
    assert (H34 : leftOf (skip_space s3) s).
    { eapply leftOf_trans; [exact H4|]. eapply leftOf_trans; eassumption. }
    destruct (skip_space s3) as [|c0 s4]; [exact H34|].
    cbn [snd]. eapply leftOf_trans; [|exact H34].
    exists (String c0 EmptyString). reflexivity. }
  destruct c as [[] [] [] [] [] [] [] []]; first [exact Hgoal | exact H12].
Qed.

Lemma readTime_leftOf (t : Time) (s : string) :
  leftOf (snd (fst (readTime t s))) s.
Proof.
  pose proof (readTime_cases t s) as H.
  destruct (readTime t s) as [[[r t'] rest] msgs]. cbv zeta in H.
  destruct H as [H _]. cbn [fst snd]. rewrite H. apply scanf_time_leftOf.
Qed.

Lemma clearBufferJunk_leftOf (target : Z) (s : string) :
  leftOf (snd (clearBufferJunk target s)) s.
Proof.
  rewrite clearBufferJunk_rest.
  induction s as [|c rest IH]; simpl; [apply leftOf_refl|].
  destruct (negb (code c =? target) && negb (code c =? EOF)
            && negb (code c =? NL)).
  - apply leftOf_cons. exact IH.
  - exists (String c EmptyString). reflexivity.
Qed.

Lemma afterNewline_atLineEnd (s : string) : atLineEnd (afterNewline s) s.
Proof.
  induction s as [|c rest IH]; simpl; [left; reflexivity|].
  destruct (Ascii.eqb_spec c newline) as [E|E].
  - subst c. right. exists EmptyString. reflexivity.
  - destruct IH as [IH|[x Hx]]; [left; exact IH|right].
    exists (String c x). rewrite Hx at 1. reflexivity.
Qed.

(** After a result of 1 or -1 the scan stands at the end of a line or of
    the input. *)
Lemma clearBufferJunk_atLineEnd (target : Z) (s : string) :
  fst (clearBufferJunk target s) = 1 \/ fst (clearBufferJunk target s) = -1 ->
  atLineEnd (snd (clearBufferJunk target s)) s.
Proof.
  intros [H|H]; [|left; apply clearBufferJunk_EOF_rest; exact H].
  assert (Hl : fst (clearBufferJunk_scan target s) = NL).
  { revert H. unfold clearBufferJunk.
    destruct (clearBufferJunk_scan target s) as [lc rest]. cbn [fst].
    destruct (lc =? EOF); [discriminate|].
    destruct ((lc =? target) && negb (target =? NL)); [discriminate|].
    destruct (Z.eqb_spec lc NL) as [E|E]; [intros _; exact E|discriminate]. }
  rewrite clearBufferJunk_rest. clear H.
  induction s as [|c rest IH]; simpl in *; [discriminate|].
  destruct (negb (code c =? target) && negb (code c =? EOF)
            && negb (code c =? NL)).
  - destruct (IH Hl) as [IH'|[x Hx]]; [left; exact IH'|right].
    exists (String c x). rewrite Hx at 1. reflexivity.
  - simpl in Hl. apply code_inj in Hl. subst c.
    right. exists EmptyString. reflexivity.
Qed.

(** One pass: its return value, and where it leaves the input. *)
Lemma pairStep_frame (junk : Time * Time) (st : Session) :
  match pairStep junk st with
  | Return v st' =>
      (v = -1 \/ v = 0 \/ v = 1)
      /\ leftOf (stdin st') (stdin st)
      /\ (v <> 0 -> atLineEnd (stdin st') (stdin st))
  | Continue st' => leftOf (stdin st') (stdin st)
  end.
Proof.
  destruct (pairStep_calls junk st)
    as [r1 [r2 [t1 [t2 [s1 [s3 [o1 [o2 [E1 [E2 _]]]]]]]]]].
  rewrite (pairStep_eq junk st _ _ _ _ _ _ _ _ E1 E2).
  pose proof (readTime_leftOf (fst junk) (stdin st)) as L1.
  rewrite E1 in L1. cbn [fst snd] in L1.
  pose proof (readTime_leftOf (snd junk) (snd (clearBufferJunk (code "-") s1)))
    as L2.
  rewrite E2 in L2. cbn [fst snd] in L2.
  pose proof (clearBufferJunk_leftOf (code "-") s1) as L3.
  assert (L13 : leftOf s3 (stdin st)).
  { eapply leftOf_trans; [exact L2|]. eapply leftOf_trans; eassumption. }
  assert (Hafter : forall x, leftOf x (stdin st) ->
                             leftOf (afterNewline x) (stdin st)
                             /\ atLineEnd (afterNewline x) (stdin st)).
  { intros x Hx. split.
    - eapply leftOf_trans; [|exact Hx].
      rewrite <- clearBufferJunk_newline. apply clearBufferJunk_leftOf.
    - eapply atLineEnd_leftOf; [apply afterNewline_atLineEnd|exact Hx]. }
  destruct (r1 =? -1).
  { cbn [stdin]. destruct (Hafter s1 L1) as [Ha Hb]. auto 6. }
  destruct (r2 =? -1).
  { cbn [stdin]. destruct (Hafter s3 L13) as [Ha Hb]. auto 6. }
  destruct (sameTime t1 t2).
  { cbn [stdin]. split; [auto|]. split; [exact L13|]. intros H. lia. }
  cbv zeta.
  pose proof (clearBufferJunk_leftOf (code ",") s3) as L4.
  assert (L14 : leftOf (snd (clearBufferJunk (code ",") s3)) (stdin st))
    by (eapply leftOf_trans; eassumption).
  destruct (Z.eqb_spec (fst (clearBufferJunk (code ",") s3)) 1) as [H1|H1];
    [|destruct (Z.eqb_spec (fst (clearBufferJunk (code ",") s3)) (-1))
        as [H2|H2]];
    cbn [negb andb stdin]; try exact L14;
    (split; [auto|split; [exact L14|intros _]]);
    (eapply atLineEnd_leftOf; [apply clearBufferJunk_atLineEnd|exact L13]);
    auto.
Qed.

Lemma pairStep_stdout (junk : Time * Time) (st : Session) :
  match pairStep junk st with
  | Return _ st' | Continue st' =>
      exists printed, stdout st' = stdout st ++ printed
  end.
Proof.
  destruct st as [th tm s o]. rewrite pairStep_out.
  destruct (pairStep junk (mkSession th tm s [])) as [v st'|st'];
    exists (stdout st'); reflexivity.
Qed.

Lemma dayLoop_frame (fuel : nat) :
  forall (junk : Junk) (st st' : Session) (v : Z),
    dayLoop fuel junk st = Some (v, st') ->
    (v = -1 \/ v = 0 \/ v = 1)
    /\ leftOf (stdin st') (stdin st)
    /\ (v <> 0 -> atLineEnd (stdin st') (stdin st))
    /\ (exists printed, stdout st' = stdout st ++ printed).
Proof.
  induction fuel as [|fuel IH]; intros junk st st' v; [discriminate|].
  cbn [dayLoop].
  pose proof (pairStep_frame (junk O) st) as Hf.
  pose proof (pairStep_stdout (junk O) st) as Ho.
  destruct (pairStep (junk O) st) as [v1 st1|st1].
  - intros E. inversion E; subst. tauto.
  - intros E. destruct (IH _ _ _ _ E) as [Hv [Hl [Ha [p Hp]]]].
    destruct Ho as [p1 Hp1].
    split; [exact Hv|]. split; [eapply leftOf_trans; eassumption|].
    split; [intros Hne; eapply atLineEnd_leftOf; [apply Ha; exact Hne|exact Hf]|].
    exists (p1 ++ p). rewrite Hp, Hp1, app_assoc. reflexivity.
Qed.

(** X8.  [readTimesForDay] returns on every input, with -1, 0 or 1.  It
    reads its input from the front only and adds to what was printed; when
    it returns 1 or -1 it has stopped at the end of the input or right
    after a newline, so the next day begins with a new line. *)
Theorem readTimesForDay_returns (junk : Junk) (st : Session) :
  exists (v : Z) (st' : Session),
    readTimesForDay junk st = Some (v, st')
    /\ (v = -1 \/ v = 0 \/ v = 1)
    /\ leftOf (stdin st') (stdin st)
    /\ (v <> 0 -> atLineEnd (stdin st') (stdin st))
    /\ (exists printed, stdout st' = stdout st ++ printed).
Proof.
  destruct (readTimesForDay_total junk st) as [v [st' E]].
  exists v, st'. split; [exact E|].
  apply (dayLoop_frame _ _ _ _ _ E).
Qed.

(** ** Every day takes input *)

Lemma clearBufferJunk_progress (target : Z) (x s : string) :
  leftOf x s -> s <> EmptyString ->
  (String.length (snd (clearBufferJunk target x)) < String.length s)%nat.
Proof.
  intros Hx Hs. apply leftOf_length in Hx.
  rewrite clearBufferJunk_rest.
  destruct x as [|c rest].
  - simpl. destruct s as [|c s]; [contradiction|simpl; lia].
  - pose proof (clearBufferJunk_scan_length target rest) as Hl.
    simpl in *.
    destruct (negb (code c =? target) && negb (code c =? EOF)
              && negb (code c =? NL)); simpl; lia.
Qed.

Lemma pairStep_progress (junk : Time * Time) (st : Session) :
  stdin st <> EmptyString ->
  match pairStep junk st with
  | Return _ st' | Continue st' =>
      (String.length (stdin st') < String.length (stdin st))%nat
  end.
Proof.
  intros Hs.
  destruct (pairStep_calls junk st)
    as [r1 [r2 [t1 [t2 [s1 [s3 [o1 [o2 [E1 [E2 _]]]]]]]]]].
  rewrite (pairStep_eq junk st _ _ _ _ _ _ _ _ E1 E2).
  pose proof (readTime_leftOf (fst junk) (stdin st)) as L1.
  rewrite E1 in L1. cbn [fst snd] in L1.
  pose proof (readTime_leftOf (snd junk) (snd (clearBufferJunk (code "-") s1)))
    as L2.
  rewrite E2 in L2. cbn [fst snd] in L2. apply leftOf_length in L2.
  pose proof (clearBufferJunk_progress (code "-") s1 (stdin st) L1 Hs) as P2.
  pose proof (clearBufferJunk_progress NL s1 (stdin st) L1 Hs) as P1.
  rewrite clearBufferJunk_newline in P1.
  pose proof (clearBufferJunk_length NL s3) as P3.
  rewrite clearBufferJunk_newline in P3.
  pose proof (clearBufferJunk_length (code ",") s3) as P4.
  destruct (r1 =? -1); [cbn [stdin]; exact P1|].
  destruct (r2 =? -1); [cbn [stdin]; lia|].
  destruct (sameTime t1 t2); [cbn [stdin]; lia|].
  cbv zeta.
  destruct (negb (fst (clearBufferJunk (code ",") s3) =? 1)
            && negb (fst (clearBufferJunk (code ",") s3) =? -1));
    cbn [stdin]; lia.
Qed.

Lemma readTimesForDay_progress (junk : Junk) (st st' : Session) (v : Z) :
  stdin st <> EmptyString ->
  readTimesForDay junk st = Some (v, st') ->
  (String.length (stdin st') < String.length (stdin st))%nat.
Proof.
  intros Hs. unfold readTimesForDay. cbn [dayLoop].
  pose proof (pairStep_progress (junk O) st Hs) as Hp.
  destruct (pairStep (junk O) st) as [v1 st1|st1].
  - intros E. inversion E; subst. exact Hp.
  - intros E. apply dayLoop_frame in E.
    destruct E as [_ [Hl _]]. apply leftOf_length in Hl. lia.
Qed.

Lemma mainLoop_frame (fuel : nat) :
  forall (junks : nat -> Junk) (s : string) (out : list Out),
    (String.length s <= fuel)%nat ->
    (fst (fst (mainLoop fuel junks s out)) = Some 0
     \/ snd (fst (mainLoop fuel junks s out)) = EmptyString)
    /\ leftOf (snd (fst (mainLoop fuel junks s out))) s.
Proof.
  assert (Hleft : forall fuel junks s out,
            leftOf (snd (fst (mainLoop fuel junks s out))) s).
  { clear fuel. induction fuel as [|fuel IH]; intros junks s out;
      [apply leftOf_refl|].
    destruct (readTimesForDay_total (junks O)
                (mkSession 0 0 s (out ++ [Prompt]))) as [v [st E]].
    rewrite (mainLoop_S _ _ _ _ _ _ E).
    apply dayLoop_frame in E. destruct E as [_ [Hl _]]. cbn [stdin] in Hl.
    destruct (v =? 0); [exact Hl|].
    eapply leftOf_trans; [apply IH|exact Hl]. }
  induction fuel as [|fuel IH]; intros junks s out Hlen;
    (split; [|apply Hleft]).
  - right. destruct s; [reflexivity|simpl in Hlen; lia].
  - destruct (readTimesForDay_total (junks O)
                (mkSession 0 0 s (out ++ [Prompt]))) as [v [st E]].
    rewrite (mainLoop_S _ _ _ _ _ _ E).
    destruct (Z.eqb_spec v 0) as [Hv|Hv]; [left; reflexivity|].
    apply IH.
    destruct s as [|c s].
    + apply dayLoop_frame in E. destruct E as [_ [Hl _]].
      apply leftOf_length in Hl. simpl in Hl. lia.
    + apply readTimesForDay_progress in E; [|discriminate].
      simpl in *. lia.
Qed.

(** X9.  No text makes the program read it over and over: every day that
    begins with input left takes at least one character of it, so within as
    many days as the input has characters [main] has either returned or
    read all of its input; and it never gives input back. *)
Theorem main_uses_up_input (fuel : nat) (junks : nat -> Junk) (s : string) :
  (String.length s <= fuel)%nat ->
  (fst (fst (main fuel junks s)) = Some 0
   \/ snd (fst (main fuel junks s)) = EmptyString)
  /\ leftOf (snd (fst (main fuel junks s))) s
  /\ (forall (junk : Junk) (st st' : Session) (v : Z),
        stdin st <> EmptyString ->
        readTimesForDay junk st = Some (v, st') ->
        (String.length (stdin st') < String.length (stdin st))%nat).
Proof.
  intros Hlen. unfold main.
  destruct (mainLoop_frame fuel junks s [Welcome] Hlen) as [H1 H2].
  split; [exact H1|]. split; [exact H2|].
  intros junk st st' v. apply readTimesForDay_progress.
Qed.

Lemma main_uses_up_input_witness :
  snd (fst (main 9 zeroJunk "x-y, ?:!"%string)) = EmptyString.
Proof.
  destruct (main_uses_up_input 9 zeroJunk "x-y, ?:!"%string) as [[H|H] _].
  - simpl. lia.
  - discriminate H.
  - exact H.
Defined.

(** ** What a session adds up, and what the program prints *)

Lemma addable_difference (p : Time * Time) :
  addable p ->
  let d := timeDifference (fst p) (snd p) in
  0 <= fst d <= 23 /\ 0 <= snd d <= 59 /\ 0 < 60 * fst d + snd d.
Proof.
  intros [V1 [V2 Hs]]. cbv zeta.
  pose proof (timeDifference_range _ _ V1 V2) as [Hh Hm].
  split; [exact Hh|]. split; [exact Hm|].
  pose proof (elapsedMinutes_spec _ _ V1 V2) as [Hr Hd].
  pose proof (linear_specLinear _ V1) as [R1 _].
  pose proof (linear_specLinear _ V2) as [R2 _].
  unfold elapsedMinutes in *.
  assert (Hne : specLinear (fst p) <> specLinear (snd p)).
  { intros E. apply specLinear_inj in E; try assumption.
    apply sameTime_eq in E. congruence. }
  lia.
Qed.

Lemma differences_range (ps : list (Time * Time)) :
  Forall addable ps ->
  Forall (fun d => 0 <= fst d <= 23 /\ 0 <= snd d <= 59
                   /\ 0 < 60 * fst d + snd d) (differences ps).
Proof.
  induction 1 as [|p ps Hp _ IH]; simpl; constructor; [|exact IH].
  apply (addable_difference p Hp).
Qed.

Lemma echoes_wellFormed (ps : list (Time * Time)) :
  Forall addable ps -> Forall wellFormed (echoes ps).
Proof.
  induction 1 as [|p ps Hp _ IH]; simpl; [constructor|].
  pose proof (addable_difference p Hp) as Hd. cbv zeta in Hd.
  destruct Hp as [V1 [V2 _]].
  constructor; [simpl; auto|]. constructor; [simpl; exact Hd|exact IH].
Qed.

Lemma readTime_wellFormed (t t' : Time) (s rest : string) (r : Z)
      (msgs : list Out) :
  readTime t s = (r, t', rest, msgs) -> Forall wellFormed msgs.
Proof.
  intros E. pose proof (readTime_cases t s) as H. rewrite E in H.
  cbv zeta in H.
  destruct H as [_ [_ [[_ [_ H]]|[_ [_ H]]]]]; subst msgs; [constructor|].
  destruct (hour t' <=? 0); destruct (hour t' >=? 13);
    destruct (minute t' <=? -1); destruct (minute t' >=? 60);
    destruct (negb (meridiem t' =? "a")%char && negb (meridiem t' =? "p")%char);
    simpl; repeat constructor.
Qed.

(** One pass either adds a pair, or leaves the totals alone. *)
Lemma pairStep_shape (junk : Time * Time) (st : Session) :
  match pairStep junk st with
  | Return v st' =>
      (v = 1 /\ exists p, pairAdded p st st')
      \/ (v <> 1
          /\ totalHours st' = totalHours st
          /\ totalMinutes st' = totalMinutes st
          /\ exists printed,
               stdout st' = stdout st ++ printed /\ Forall wellFormed printed)
  | Continue st' => exists p, pairAdded p st st'
  end.
Proof.
  destruct (pairStep_calls junk st)
    as [r1 [r2 [t1 [t2 [s1 [s3 [o1 [o2 [E1 [E2 _]]]]]]]]]].
  rewrite (pairStep_eq junk st _ _ _ _ _ _ _ _ E1 E2).
  pose proof (readTime_wellFormed _ _ _ _ _ _ E1) as W1.
  pose proof (readTime_wellFormed _ _ _ _ _ _ E2) as W2.
  pose proof (readTime_cases (fst junk) (stdin st)) as H1. rewrite E1 in H1.
  pose proof (readTime_cases (snd junk) (snd (clearBufferJunk (code "-") s1)))
    as H2. rewrite E2 in H2.
  cbv zeta in H1, H2.
  destruct H1 as [_ [_ [[R1 [V1 O1]]|[R1 _]]]]; subst r1.
  2:{ right. cbn [totalHours totalMinutes stdout].
      split; [lia|]. split; [reflexivity|]. split; [reflexivity|].
      eexists. split; [reflexivity|].
      apply Forall_app. split; [exact W1|repeat constructor]. }
  destruct H2 as [_ [_ [[R2 [V2 O2]]|[R2 _]]]]; subst r2.
  2:{ right. cbn [totalHours totalMinutes stdout]. simpl Z.eqb. cbv iota.
      split; [lia|]. split; [reflexivity|]. split; [reflexivity|].
      eexists. split; [reflexivity|].
      apply Forall_app. split; [exact W1|].
      apply Forall_app. split; [exact W2|repeat constructor]. }
  simpl Z.eqb. cbv iota. subst o1 o2.
  destruct (sameTime t1 t2) eqn:Es.
  { right. cbn [totalHours totalMinutes stdout].
    split; [lia|]. split; [reflexivity|]. split; [reflexivity|].
    eexists. split; [reflexivity|].
    simpl. constructor; [simpl; auto|constructor]. }
  cbv zeta.
  assert (Hadd : forall s4,
            pairAdded (t1, t2) st
              (mkSession
                 (fst (accumulate (totalHours st) (totalMinutes st)
                         (fst (timeDifference t1 t2))
                         (snd (timeDifference t1 t2))))
                 (snd (accumulate (totalHours st) (totalMinutes st)
                         (fst (timeDifference t1 t2))
                         (snd (timeDifference t1 t2))))
                 s4
                 ((stdout st ++ [] ++ [] ++ [Echo t1 t2])
                  ++ [ActualTime (fst (timeDifference t1 t2))
                                 (snd (timeDifference t1 t2))]))).
  { intros s4. unfold pairAdded, addable. cbn [fst snd totalHours totalMinutes stdout].
    split; [auto|]. split.
    - destruct (accumulate (totalHours st) (totalMinutes st)
                  (fst (timeDifference t1 t2)) (snd (timeDifference t1 t2)));
        reflexivity.
    - simpl. rewrite <- app_assoc. reflexivity. }
  destruct (negb (fst (clearBufferJunk (code ",") s3) =? 1)
            && negb (fst (clearBufferJunk (code ",") s3) =? -1)).
  - exists (t1, t2). apply Hadd.
  - left. split; [reflexivity|]. exists (t1, t2). apply Hadd.
Qed.

(** A whole call: the pairs it added, in order. *)
Lemma dayLoop_pairs (fuel : nat) :
  forall (junk : Junk) (st st' : Session) (v : Z),
    dayLoop fuel junk st = Some (v, st') ->
    exists (ps : list (Time * Time)) (tail : list Out),
      Forall addable ps
      /\ (List.length ps <= S (String.length (stdin st)))%nat
      /\ (totalHours st', totalMinutes st')
         = fold_left (fun totals d =>
                        accumulate (fst totals) (snd totals) (fst d) (snd d))
                     (differences ps) (totalHours st, totalMinutes st)
      /\ (v = 1 -> ps <> [])
      /\ stdout st' = stdout st ++ echoes ps ++ tail
      /\ Forall wellFormed tail.
Proof.
  induction fuel as [|fuel IH]; intros junk st st' v; [discriminate|].
  cbn [dayLoop].
  pose proof (pairStep_shape (junk O) st) as Hs.
  destruct (pairStep (junk O) st) as [v1 st1|st1] eqn:Ep.
  - intros E. inversion E; subst v1 st1. clear E.
    destruct Hs as [[Hv [p [Ha [Ht Ho]]]]|[Hv [Hh [Hm [pr [Ho Hw]]]]]].
    + exists [p], []. split; [constructor; [exact Ha|constructor]|].
      split; [simpl; lia|]. split; [simpl; exact Ht|].
      split; [discriminate|]. split; [|constructor].
      rewrite Ho, app_nil_r. reflexivity.
    + exists [], pr. split; [constructor|]. split; [simpl; lia|].
      split; [simpl; congruence|]. split; [intros; contradiction|].
      split; [exact Ho|exact Hw].
  - intros E. destruct Hs as [p [Ha [Ht Ho]]].
    apply pairStep_Continue_length in Ep.
    destruct (IH _ _ _ _ E) as [ps [tail [Hps [Hlen [Htot [Hv [Hout Hw]]]]]]].
    exists (p :: ps), tail.
    split; [constructor; assumption|]. split; [simpl; lia|].
    split; [simpl; rewrite <- Ht; exact Htot|].
    split; [discriminate|]. split; [|exact Hw].
    rewrite Hout, Ho. simpl. rewrite <- !app_assoc. reflexivity.
Qed.

Lemma differences_bound (ps : list (Time * Time)) :
  Forall addable ps ->
  Forall (fun d => 0 <= fst d /\ 0 <= snd d <= 59) (differences ps)
  /\ 0 <= minutesOf (differences ps) <= 1439 * Z.of_nat (List.length ps)
  /\ (ps <> [] -> 0 < minutesOf (differences ps)).
Proof.
  intros H. pose proof (differences_range ps H) as Hr.
  split; [revert Hr; apply Forall_impl; intros d Hd; lia|].
  assert (Hb : Forall (fun d => 0 <= fst d <= 23 /\ 0 <= snd d <= 59)
                      (differences ps))
    by (revert Hr; apply Forall_impl; intros d Hd; lia).
  pose proof (minutesOf_bound _ Hb) as Hm.
  unfold differences in Hm. rewrite length_map in Hm.
  split; [exact Hm|].
  destruct ps as [|p ps]; [intros Hne; contradiction|intros _].
  simpl in *. inversion Hr as [|d ds Hd Hds]; subst.
  inversion Hb as [|d' ds' _ Hds']; subst.
  pose proof (minutesOf_bound _ Hds'). lia.
Qed.

(** X10.  A call of [readTimesForDay] that starts from totals of zero
    (on less than 89 million characters, so that no [int] overflows) has
    added some pairs of valid, different times, in order, and nothing else:
    its totals are the minutes of their differences divided by 60, with
    remainder; it has printed the echo and the time of each; and when it
    returns 1 there was at least one pair, so the total is positive. *)
Theorem readTimesForDay_sums (junk : Junk) (s : string) (out : list Out)
        (st' : Session) (v : Z) :
  Z.of_nat (String.length s) <= 89000000 ->
  readTimesForDay junk (mkSession 0 0 s out) = Some (v, st') ->
  exists (ps : list (Time * Time)) (tail : list Out),
    Forall addable ps
    /\ (totalHours st', totalMinutes st')
       = (minutesOf (differences ps) / 60, minutesOf (differences ps) mod 60)
    /\ 0 <= totalHours st' < Int.INT_MAX /\ 0 <= totalMinutes st' <= 59
    /\ (v = 1 -> 0 < 60 * totalHours st' + totalMinutes st')
    /\ stdout st' = out ++ echoes ps ++ tail
    /\ Forall wellFormed tail.
Proof.
  intros Hlen E. unfold readTimesForDay in E.
  destruct (dayLoop_pairs _ _ _ _ _ E)
    as [ps [tail [Hps [Hn [Htot [Hv [Hout Hw]]]]]]].
  cbn [stdin totalHours totalMinutes stdout] in *.
  destruct (differences_bound ps Hps) as [Hds [Hb Hpos]].
  assert (Hfit : minutesOf (differences ps) <= 60 * Int.INT_MAX)
    by (unfold Int.INT_MAX; lia).
  pose proof (accumulateAll_value _ Hds Hfit) as Hval.
  unfold accumulateAll in Hval. rewrite Hval in Htot.
  exists ps, tail. split; [exact Hps|]. split; [exact Htot|].
  inversion Htot as [[Hh Hm]].
  assert (Hq : 0 <= minutesOf (differences ps) / 60 < Int.INT_MAX
               /\ 0 <= minutesOf (differences ps) mod 60 <= 59
               /\ 60 * (minutesOf (differences ps) / 60)
                  + minutesOf (differences ps) mod 60
                  = minutesOf (differences ps)).
  { unfold Int.INT_MAX. Z.div_mod_to_equations. lia. }
  split; [lia|]. split; [lia|].
  split; [intros H1; specialize (Hpos (Hv H1)); lia|].
  split; [exact Hout|exact Hw].
Qed.

Lemma readTimesForDay_sums_witness :
  exists (ps : list (Time * Time)) (tail : list Out),
    Forall addable ps
    /\ (6, 30)
       = (minutesOf (differences ps) / 60, minutesOf (differences ps) mod 60).
Proof.
  destruct (readTimesForDay_sums (zeroJunk O)
              (line "9:00am-1:00pm, 2:00pm-4:30pm") [Prompt]
              (mkSession 6 30 EmptyString
                 [Prompt;
                  Echo (mkTime 9 0 "a") (mkTime 1 0 "p"); ActualTime 4 0;
                  Echo (mkTime 2 0 "p") (mkTime 4 30 "p"); ActualTime 2 30]) 1)
    as [ps [tail [H1 [H2 _]]]].
  - vm_compute. discriminate.
  - reflexivity.
  - exists ps, tail. split; [exact H1|exact H2].
Defined.

(** The totals and the output of a call that starts from zero. *)
Lemma readTimesForDay_wellFormed (junk : Junk) (s : string) (out : list Out)
      (st' : Session) (v : Z) :
  Z.of_nat (String.length s) <= 89000000 ->
  Forall wellFormed out ->
  readTimesForDay junk (mkSession 0 0 s out) = Some (v, st') ->
  0 <= totalHours st' < Int.INT_MAX /\ 0 <= totalMinutes st' <= 59
  /\ Forall wellFormed (stdout st').
Proof.
  intros Hlen Hout E. unfold readTimesForDay in E.
  destruct (dayLoop_pairs _ _ _ _ _ E)
    as [ps [tail [Hps [Hn [Htot [_ [Ho Hw]]]]]]].
  cbn [stdin totalHours totalMinutes stdout] in *.
  destruct (differences_bound ps Hps) as [Hds [Hb _]].
  assert (Hfit : minutesOf (differences ps) <= 60 * Int.INT_MAX)
    by (unfold Int.INT_MAX; lia).
  pose proof (accumulateAll_value _ Hds Hfit) as Hval.
  unfold accumulateAll in Hval. rewrite Hval in Htot.
  inversion Htot as [[Hh Hm]].
  split; [unfold Int.INT_MAX; Z.div_mod_to_equations; lia|].
  split; [Z.div_mod_to_equations; lia|].
  rewrite Ho. apply Forall_app. split; [exact Hout|].
  apply Forall_app. split; [apply echoes_wellFormed; exact Hps|exact Hw].
Qed.

Lemma mainLoop_wellFormed (fuel : nat) :
  forall (junks : nat -> Junk) (s : string) (out : list Out),
    Z.of_nat (String.length s) <= 89000000 ->
    Forall wellFormed out ->
    Forall wellFormed (snd (mainLoop fuel junks s out)).
Proof.
  induction fuel as [|fuel IH]; intros junks s out Hlen Hout; [exact Hout|].
  destruct (readTimesForDay_total (junks O) (mkSession 0 0 s (out ++ [Prompt])))
    as [v [st E]].
  rewrite (mainLoop_S _ _ _ _ _ _ E).
  assert (Hp : Forall wellFormed (out ++ [Prompt])).
  { apply Forall_app. split; [exact Hout|repeat constructor]. }
  destruct (readTimesForDay_wellFormed _ _ _ _ _ Hlen Hp E) as [Hh [Hm Hw]].
  pose proof (dayLoop_frame _ _ _ _ _ E) as [_ [Hl _]].
  apply leftOf_length in Hl. cbn [stdin] in Hl.
  assert (Hd : Forall wellFormed (dayOutput v st)).
  { unfold dayOutput. destruct (v =? -1); [exact Hw|].
    apply Forall_app. split; [exact Hw|].
    assert (Hr : Int.INT_MIN <= totalHours st < Int.INT_MAX)
      by (unfold Int.INT_MIN; lia).
    rewrite (roundTime_value _ _ Hm Hr).
    constructor; [simpl; lia|]. constructor; [|constructor].
    destruct (totalMinutes st <? 8); [simpl; lia|].
    destruct (totalMinutes st <? 23); [simpl; lia|].
    destruct (totalMinutes st <? 38); [simpl; lia|].
    destruct (totalMinutes st <? 53); simpl; lia. }
  destruct (v =? 0); [exact Hd|].
  apply IH; [lia|exact Hd].
Qed.

(** X11.  On less than 89 million characters of input, whatever they are
    and whatever the unassigned variables hold, everything the program
    prints is well formed: it echoes valid times only, a pair's time is
    positive and below 24 hours with minutes below 60, a day's total has
    hours not negative and minutes below 60, and a rounded total has its
    minutes on 0, 15, 30 or 45. *)
Theorem main_prints_well_formed (fuel : nat) (junks : nat -> Junk)
        (s : string) :
  Z.of_nat (String.length s) <= 89000000 ->
  Forall wellFormed (snd (main fuel junks s))
  /\ (forall h m : Z,
        In (ActualTotalTime h m) (snd (main fuel junks s)) ->
        0 <= h /\ 0 <= m <= 59)
  /\ (forall h m : Z,
        In (RoundedTotalTime h m) (snd (main fuel junks s)) ->
        0 <= h /\ (m = 0 \/ m = 15 \/ m = 30 \/ m = 45)).
Proof.
  intros Hlen.
  assert (H : Forall wellFormed (snd (main fuel junks s))).
  { unfold main. apply mainLoop_wellFormed; [exact Hlen|].
    repeat constructor. }
  split; [exact H|].
  rewrite Forall_forall in H.
  split; intros h m Hin; apply (H _ Hin).
Qed.

Lemma main_prints_well_formed_witness :
  Forall wellFormed
         (snd (main 2 zeroJunk
                 (line "8:00pm-7:59pm, 25:00am-1:00pm" ++ "9:00am-9:53am"))).
Proof.
  apply (main_prints_well_formed 2 zeroJunk).
  vm_compute. discriminate.
Defined.

(** ** Reading back what the program echoes *)

Lemma skip_space_allSpace (w s : string) :
  allSpace w = true -> skip_space (w ++ s) = skip_space s.
Proof.
  induction w as [|c w IH]; simpl; [reflexivity|].
  intros H. apply andb_true_iff in H. destruct H as [Hc Hw].
  rewrite Hc. apply IH. exact Hw.
Qed.

Lemma scan_int_allSpace (w s : string) :
  allSpace w = true -> scan_int (w ++ s) = scan_int s.
Proof.
  intros H. unfold scan_int. rewrite (skip_space_allSpace w s H). reflexivity.
Qed.

Lemma isdigit_code (d : ascii) : isdigit d = true <-> 48 <= code d <= 57.
Proof.
  unfold isdigit. cbv zeta. rewrite andb_true_iff, !Z.leb_le. tauto.
Qed.

Lemma isdigit_not_space (d : ascii) : isdigit d = true -> isspace d = false.
Proof.
  intros H. apply isdigit_code in H. unfold isspace. cbv zeta.
  destruct (Z.eqb_spec (code d) 32); [lia|].
  destruct (Z.leb_spec 9 (code d)); destruct (Z.leb_spec (code d) 13);
    simpl; try reflexivity; lia.
Qed.

(** [%d] on input that begins with a digit. *)
Lemma scan_int_digit (d : ascii) (s : string) :
  isdigit d = true ->
  scan_int (String d s)
  = (Some (Int.wrap (fst (scan_digits 0 (String d s)))),
     snd (scan_digits 0 (String d s))).
Proof.
  intros Hd. unfold scan_int. cbn [skip_space].
  rewrite (isdigit_not_space d Hd).
  assert (Hsign : match String d s with
                  | String "-"%char rest => (true, rest)
                  | String "+"%char rest => (false, rest)
                  | _ => (false, String d s)
                  end = (false, String d s)).
  { apply isdigit_code in Hd.
    destruct d as [[] [] [] [] [] [] [] []]; try reflexivity;
      vm_compute in Hd; destruct Hd as [H1 H2];
      exfalso; first [apply H1; reflexivity | apply H2; reflexivity]. }
  rewrite Hsign. rewrite Hd.
  destruct (scan_digits 0 (String d s)) as [v s2]. reflexivity.
Qed.

Lemma scan_digits_two (d1 d2 c : ascii) (rest : string) :
  isdigit d1 = true -> isdigit d2 = true -> isdigit c = false ->
  scan_digits 0 (String d1 (String d2 (String c rest)))
  = (10 * (10 * 0 + (code d1 - 48)) + (code d2 - 48), String c rest).
Proof.
  intros H1 H2 Hc. cbn [scan_digits]. rewrite H1, H2, Hc. reflexivity.
Qed.

(** The two characters [%02d] prints for a number below 100. *)
Lemma format02d_digits (n : Z) :
  0 <= n <= 99 ->
  exists d1 d2 : ascii,
    format02d n = String d1 (String d2 EmptyString)
    /\ isdigit d1 = true /\ isdigit d2 = true
    /\ 10 * (10 * 0 + (code d1 - 48)) + (code d2 - 48) = n.
Proof.
  intros Hn.
  destruct n as [|p|p]; [| |lia].
  - exists "0"%char, "0"%char. repeat split; reflexivity.
  - repeat (destruct p as [p|p|]; try lia);
      eexists; eexists;
      (split; [reflexivity|split; [reflexivity|split; reflexivity]]).
Qed.

(** [%d] reads back what [%02d] printed. *)
Lemma scan_int_format02d (n : Z) (c : ascii) (rest : string) :
  0 <= n <= 99 -> isdigit c = false ->
  scan_int (format02d n ++ String c rest) = (Some n, String c rest).
Proof.
  intros Hn Hc.
  destruct (format02d_digits n Hn) as [d1 [d2 [Hf [H1 [H2 Hv]]]]].
  rewrite Hf. cbn [append].
  rewrite (scan_int_digit d1 _ H1).
  rewrite (scan_digits_two d1 d2 c rest H1 H2 Hc). cbn [fst snd].
  rewrite Hv. rewrite wrap_small by int_range. reflexivity.
Qed.

Lemma formatTime_append (t : Time) (rest : string) :
  (formatTime t ++ rest)%string
  = (format02d (hour t)
     ++ String ":"%char
          (format02d (minute t)
           ++ String (meridiem t) (String "m"%char rest)))%string.
Proof.
  unfold formatTime. rewrite append_assoc. cbn [append].
  rewrite append_assoc. reflexivity.
Qed.

(** The conversion of an echoed time. *)
Lemma scanf_time_formatTime (junk t : Time) (w rest : string) :
  valid t -> allSpace w = true ->
  scanf_time junk (w ++ formatTime t ++ rest)
  = (t, String "m"%char rest).
Proof.
  intros [Hh [Hm Hc]] Hw. rewrite formatTime_append.
  unfold scanf_time. rewrite (scan_int_allSpace w _ Hw).
  rewrite scan_int_format02d by (try lia; reflexivity).
  cbn [skip_space]. change (isspace ":"%char) with false. cbv iota.
  assert (Hd : isdigit (meridiem t) = false)
    by (destruct Hc as [E|E]; rewrite E; reflexivity).
  assert (Hs : isspace (meridiem t) = false)
    by (destruct Hc as [E|E]; rewrite E; reflexivity).
  rewrite scan_int_format02d by (try lia; exact Hd).
  cbn [skip_space]. rewrite Hs.
  destruct t as [h m c]. reflexivity.
Qed.

Lemma readTime_formatTime (junk t : Time) (w rest : string) :
  valid t -> allSpace w = true ->
  readTime junk (w ++ formatTime t ++ rest)
  = (0, t, String "m"%char rest, []).
Proof.
  intros Hv Hw. unfold readTime.
  rewrite (scanf_time_formatTime junk t w rest Hv Hw).
  assert (Hl : lowerMeridiem (meridiem t) = meridiem t).
  { destruct Hv as [_ [_ [E|E]]]; rewrite E; reflexivity. }
  rewrite Hl.
  assert (Hcheck : (hour t >? 0) && (hour t <? 13) && (minute t >? -1)
                   && (minute t <? 60)
                   && ((meridiem t =? "a")%char || (meridiem t =? "p")%char)
                   = true).
  { apply readTime_check. destruct t as [h m c]. exact Hv. }
  rewrite Hcheck. destruct t as [h m c]. reflexivity.
Qed.

(** X12.  [readTime] reads back what the program echoes: given a valid
    time in the form of the [START:] and [END:] lines ([%02d:%02d%cm]),
    after any white space, newlines included, and whatever the variables
    held before, it returns 0 with that very time, prints nothing, and
    leaves the input from the [m] of the meridiem on; upper-case [A] or [P]
    gives the same time. *)
Theorem readTime_reads_echo (junk t : Time) (w rest : string) :
  valid t -> allSpace w = true ->
  readTime junk (w ++ formatTime t ++ rest)
  = (0, t, String "m"%char rest, [])
  /\ readTime junk
       (w ++ format02d (hour t)
          ++ String ":"%char
               (format02d (minute t)
                ++ String (if (meridiem t =? "a")%char then "A"%char
                           else "P"%char)
                     (String "M"%char rest)))
     = (0, t, String "M"%char rest, []).
Proof.
  intros Hv Hw. split; [apply readTime_formatTime; assumption|].
  assert (Hcheck : (hour t >? 0) && (hour t <? 13) && (minute t >? -1)
                   && (minute t <? 60)
                   && ((meridiem t =? "a")%char || (meridiem t =? "p")%char)
                   = true).
  { apply readTime_check. destruct t as [h m c]. exact Hv. }
  destruct Hv as [Hh [Hm Hc]].
  set (U := if (meridiem t =? "a")%char then "A"%char else "P"%char).
  assert (HU : isdigit U = false /\ isspace U = false
               /\ lowerMeridiem U = meridiem t).
  { destruct Hc as [E|E]; unfold U; rewrite E; repeat split; reflexivity. }
  destruct HU as [HU1 [HU2 HU3]].
  unfold readTime, scanf_time. rewrite (scan_int_allSpace w _ Hw).
  rewrite scan_int_format02d by (try lia; reflexivity).
  cbn [skip_space]. change (isspace ":"%char) with false. cbv iota.
  rewrite scan_int_format02d by (try lia; exact HU1).
  cbn [skip_space]. rewrite HU2. cbn [hour minute meridiem].
  rewrite HU3, Hcheck. destruct t as [h m c]. reflexivity.
Qed.

Lemma readTime_reads_echo_witness :
  readTime zeroTime (line "" ++ " " ++ "09:05am-05:00pm")
  = (0, mkTime 9 5 "a", "m-05:00pm"%string, []).
Proof.
  apply (readTime_reads_echo zeroTime (mkTime 9 5 "a")
           (line "" ++ " ") "-05:00pm").
  - unfold valid; simpl. repeat split; try lia. left; reflexivity.
  - reflexivity.
Defined.

(** ** Reading a day as typed *)

Lemma line_append (text rest : string) :
  (line text ++ rest)%string = (text ++ String newline rest)%string.
Proof. unfold line. rewrite append_assoc. reflexivity. Qed.

Lemma formatPair_append (p : Time * Time) (tail : string) :
  (formatPair p ++ tail)%string
  = (formatTime (fst p) ++ String "-"%char (formatTime (snd p) ++ tail))%string.
Proof. unfold formatPair. rewrite append_assoc. reflexivity. Qed.

(** One pass over a pair in echo form, whatever follows it. *)
Lemma pairStep_formatPair (junk : Time * Time) (p : Time * Time) (th tm : Z)
      (w tail : string) (out : list Out) :
  addable p -> allSpace w = true ->
  pairStep junk (mkSession th tm (w ++ formatPair p ++ tail) out)
  = let d := timeDifference (fst p) (snd p) in
    let totals := accumulate th tm (fst d) (snd d) in
    let c := clearBufferJunk (code ","%char) (String "m"%char tail) in
    if negb (fst c =? 1) && negb (fst c =? -1)
    then Continue (mkSession (fst totals) (snd totals) (snd c)
                     (out ++ echoes [p]))
    else Return 1 (mkSession (fst totals) (snd totals) (snd c)
                     (out ++ echoes [p])).
Proof.
  intros [V1 [V2 Hs]] Hw. rewrite formatPair_append.
  pose proof (readTime_formatTime (fst junk) (fst p) w
                (String "-"%char (formatTime (snd p) ++ tail)) V1 Hw) as E1.
  pose proof (readTime_formatTime (snd junk) (snd p) EmptyString tail V2
                eq_refl) as E2.
  cbn [append] in E2.
  change (formatTime (snd p) ++ tail)%string
    with (snd (clearBufferJunk (code "-"%char)
                 (String "m"%char
                    (String "-"%char (formatTime (snd p) ++ tail)))))
    in E2 at 1.
  rewrite (pairStep_eq junk
             (mkSession th tm
                (w ++ formatTime (fst p)
                   ++ String "-"%char (formatTime (snd p) ++ tail)) out)
             0 0 (fst p) (snd p) _ _ [] [] E1 E2).
  simpl Z.eqb. cbv iota. rewrite Hs. cbv zeta. cbn [totalHours totalMinutes stdout].
  assert (Ho : (out ++ [] ++ [] ++ [Echo (fst p) (snd p)])
               ++ [ActualTime (fst (timeDifference (fst p) (snd p)))
                              (snd (timeDifference (fst p) (snd p)))]
               = out ++ echoes [p]).
  { simpl. rewrite <- app_assoc. reflexivity. }
  rewrite Ho. reflexivity.
Qed.

Lemma readTimesForDay_formatPairs (ps : list (Time * Time)) :
  forall (junk : Junk) (th tm : Z) (w rest : string) (out : list Out),
    ps <> [] -> Forall addable ps -> allSpace w = true ->
    readTimesForDay junk
      (mkSession th tm (w ++ formatPairs ps ++ String newline rest) out)
    = Some (1,
            mkSession
              (fst (fold_left (fun totals d =>
                                 accumulate (fst totals) (snd totals)
                                            (fst d) (snd d))
                              (differences ps) (th, tm)))
              (snd (fold_left (fun totals d =>
                                 accumulate (fst totals) (snd totals)
                                            (fst d) (snd d))
                              (differences ps) (th, tm)))
              rest (out ++ echoes ps)).
Proof.
  induction ps as [|p ps IH]; intros junk th tm w rest out Hne Hps Hw;
    [contradiction|].
  inversion Hps as [|p' ps' Hp Hrest]; subst.
  destruct ps as [|q ps].
  - apply readTimesForDay_Return.
    cbn [formatPairs].
    rewrite (pairStep_formatPair (junk O) p th tm w (String newline rest) out
               Hp Hw).
    cbv zeta.
    change (clearBufferJunk (code ","%char) (String "m"%char (String newline rest)))
      with (1, rest).
    cbn [fst snd negb andb Z.eqb differences map fold_left].
    simpl. rewrite ?app_nil_r. reflexivity.
  - assert (Hstep :
      pairStep (junk O)
        (mkSession th tm
           (w ++ formatPairs (p :: q :: ps) ++ String newline rest) out)
      = Continue
          (mkSession
             (fst (accumulate th tm (fst (timeDifference (fst p) (snd p)))
                     (snd (timeDifference (fst p) (snd p)))))
             (snd (accumulate th tm (fst (timeDifference (fst p) (snd p)))
                     (snd (timeDifference (fst p) (snd p)))))
             (String " "%char EmptyString
              ++ formatPairs (q :: ps) ++ String newline rest)
             (out ++ echoes [p]))).
    { change (formatPairs (p :: q :: ps))
        with (formatPair p
              ++ String ","%char (String " "%char (formatPairs (q :: ps))))%string.
      rewrite append_assoc. cbn [append].
      rewrite (pairStep_formatPair (junk O) p th tm w _ out Hp Hw).
      cbv zeta.
      change (clearBufferJunk (code ","%char)
                (String "m"%char
                   (String ","%char
                      (String " "%char
                         (formatPairs (q :: ps) ++ String newline rest)))))
        with (0, String " "%char
                   (formatPairs (q :: ps) ++ String newline rest)).
      reflexivity. }
    rewrite (readTimesForDay_Continue _ _ _ Hstep).
    rewrite (IH (later junk) _ _ (String " "%char EmptyString) rest
               (out ++ echoes [p])); [|discriminate|exact Hrest|reflexivity].
    cbn [differences map fold_left fst snd].
    destruct (accumulate th tm (fst (timeDifference (fst p) (snd p)))
                (snd (timeDifference (fst p) (snd p)))) as [th1 tm1].
    cbn [fst snd].
    replace ((out ++ echoes [p]) ++ echoes (q :: ps))
      with (out ++ echoes (p :: q :: ps))
      by (simpl; rewrite <- !app_assoc; reflexivity).
    reflexivity.
Qed.

(** X13.  A day typed the way the program shows times - one or more
    pairs of valid, different times as [HH:MMxm-HH:MMxm], separated by a
    comma and a blank, then a newline - is read whole, after any white
    space and whatever the unassigned variables hold: [readTimesForDay]
    returns 1, leaves exactly what follows the newline, has echoed every
    pair with its time, and has added the differences of all the pairs to
    the totals; [main] then prints their sum as the day's total, rounds it,
    and goes on with the next line. *)
Theorem readTimesForDay_reads_day (fuel : nat) (junks : nat -> Junk)
        (ps : list (Time * Time)) (w rest : string) (out : list Out) :
  ps <> [] -> Forall addable ps -> allSpace w = true ->
  let totals := accumulateAll (differences ps) in
  readTimesForDay (junks O)
    (mkSession 0 0 (w ++ line (formatPairs ps) ++ rest) (out ++ [Prompt]))
  = Some (1, mkSession (fst totals) (snd totals) rest
               ((out ++ [Prompt]) ++ echoes ps))
  /\ mainLoop (S fuel) junks (w ++ line (formatPairs ps) ++ rest) out
     = mainLoop fuel (later junks) rest
         (((out ++ [Prompt]) ++ echoes ps)
          ++ [ActualTotalTime (fst totals) (snd totals);
              RoundedTotalTime
                (fst (roundTime (fst totals) (snd totals)))
                (snd (roundTime (fst totals) (snd totals)))]).
Proof.
  intros Hne Hps Hw totals.
  assert (E : readTimesForDay (junks O)
                (mkSession 0 0 (w ++ line (formatPairs ps) ++ rest)
                           (out ++ [Prompt]))
              = Some (1, mkSession (fst totals) (snd totals) rest
                           ((out ++ [Prompt]) ++ echoes ps))).
  { rewrite line_append.
    apply (readTimesForDay_formatPairs ps (junks O) 0 0 w rest
             (out ++ [Prompt]) Hne Hps Hw). }
  split; [exact E|].
  rewrite (mainLoop_S _ _ _ _ _ _ E). reflexivity.
Qed.

Lemma readTimesForDay_reads_day_witness :
  fst (main 1 zeroJunk (line "09:00am-01:00pm, 02:00pm-04:30pm"))
  = (None, EmptyString).
Proof.
  unfold main.
  edestruct readTimesForDay_reads_day
    with (fuel := 0%nat) (junks := zeroJunk)
         (ps := [(mkTime 9 0 "a", mkTime 1 0 "p");
                 (mkTime 2 0 "p", mkTime 4 30 "p")])
         (w := EmptyString) (rest := EmptyString) (out := [Welcome])
    as [_ H].
  - discriminate.
  - constructor; [|constructor; [|constructor]];
      (split; [|split; [|reflexivity]]); unfold valid; simpl;
      (split; [lia|split; [lia|auto]]).
  - reflexivity.
  - etransitivity; [apply f_equal; exact H|reflexivity].
Defined.

(** ** The two versions on a line with one pair *)

Lemma accumulate_first (p : Time * Time) :
  addable p ->
  accumulate 0 0 (fst (timeDifference (fst p) (snd p)))
                 (snd (timeDifference (fst p) (snd p)))
  = timeDifference (fst p) (snd p).
Proof.
  intros Hp. pose proof (addable_difference p Hp) as H. cbv zeta in H.
  destruct (timeDifference (fst p) (snd p)) as [hd md]. cbn [fst snd] in *.
  unfold accumulate. exact_arith. rewrite Z.geb_leb.
  destruct (Z.leb_spec 60 (0 + md)); [lia|].
  f_equal; lia.
Qed.

(** One pass of the earlier version over a pair in echo form. *)
Lemma legacy_pass_formatPair (junk : Time * Time) (p : Time * Time)
      (w tail : string) (out : list Legacy.Out) :
  addable p -> allSpace w = true ->
  Legacy.pass junk (w ++ formatPair p ++ tail) out
  = Legacy.Again
      (Legacy.cleanBuffer (String "m"%char tail))
      (out ++ [Legacy.Prompt;
               Legacy.Shared (Echo (fst p) (snd p));
               Legacy.Shared
                 (ActualTime (fst (timeDifference (fst p) (snd p)))
                             (snd (timeDifference (fst p) (snd p))));
               Legacy.RoundedTime
                 (fst (roundTime (fst (timeDifference (fst p) (snd p)))
                                 (snd (timeDifference (fst p) (snd p)))))
                 (snd (roundTime (fst (timeDifference (fst p) (snd p)))
                                 (snd (timeDifference (fst p) (snd p)))))]).
Proof.
  intros [V1 [V2 Hs]] Hw. rewrite formatPair_append.
  unfold Legacy.pass. cbv zeta.
  rewrite (readTime_formatTime (fst junk) (fst p) w
             (String "-"%char (formatTime (snd p) ++ tail)) V1 Hw).
  simpl Z.eqb. cbv iota.
  change (Legacy.skipBufferJunk
            (String "m"%char (String "-"%char (formatTime (snd p) ++ tail))))
    with (EmptyString ++ formatTime (snd p) ++ tail)%string.
  rewrite (readTime_formatTime (snd junk) (snd p) EmptyString tail V2 eq_refl).
  simpl Z.eqb. cbv iota. rewrite Hs.
  destruct (timeDifference (fst p) (snd p)) as [hd md]. cbn [fst snd].
  destruct (roundTime hd md) as [rh rm]. cbn [fst snd map app].
  rewrite <- !app_assoc. reflexivity.
Qed.

(** X14.  On a line that holds one pair of valid, different times in echo
    form the two versions of the program agree: both echo the pair and
    print the same time for it, the day's total of the later version is that
    time, and its rounded total is the rounded time of the earlier one; both
    then go on with what follows the newline. *)
Theorem versions_agree_on_one_pair (fuel : nat) (junks : nat -> Junk)
        (p : Time * Time) (w rest : string) (out : list Out)
        (legacyOut : list Legacy.Out) :
  addable p -> allSpace w = true ->
  let s := (w ++ formatPair p ++ String newline rest)%string in
  let d := timeDifference (fst p) (snd p) in
  let r := roundTime (fst d) (snd d) in
  Legacy.mainLoop (S fuel) (junks O) s legacyOut
  = Legacy.mainLoop fuel (later (junks O)) rest
      (legacyOut
       ++ [Legacy.Prompt; Legacy.Shared (Echo (fst p) (snd p));
           Legacy.Shared (ActualTime (fst d) (snd d));
           Legacy.RoundedTime (fst r) (snd r)])
  /\ mainLoop (S fuel) junks s out
     = mainLoop fuel (later junks) rest
         (out
          ++ [Prompt; Echo (fst p) (snd p); ActualTime (fst d) (snd d);
              ActualTotalTime (fst d) (snd d);
              RoundedTotalTime (fst r) (snd r)]).
Proof.
  intros Hp Hw s d r. split.
  - unfold s. cbn [Legacy.mainLoop].
    rewrite (legacy_pass_formatPair (junks O O) p w (String newline rest)
               legacyOut Hp Hw).
    reflexivity.
  - assert (E : readTimesForDay (junks O) (mkSession 0 0 s (out ++ [Prompt]))
                = Some (1, mkSession (fst d) (snd d) rest
                             ((out ++ [Prompt]) ++ echoes [p]))).
    { pose proof (readTimesForDay_formatPairs [p] (junks O) 0 0 w rest
                    (out ++ [Prompt])) as H.
      cbn [formatPairs differences map fold_left fst snd] in H.
      rewrite (accumulate_first p Hp) in H.
      apply H; [discriminate|constructor; [exact Hp|constructor]|exact Hw]. }
    rewrite (mainLoop_S _ _ _ _ _ _ E).
    simpl Z.eqb. cbv iota. unfold dayOutput. simpl Z.eqb. cbv iota.
    cbn [totalHours totalMinutes stdin stdout echoes flat_map].
    fold d. fold r. f_equal.
    simpl. rewrite <- !app_assoc. reflexivity.
Qed.

Lemma versions_agree_on_one_pair_witness :
  snd (Legacy.mainLoop 1 (zeroJunk O) (line "08:00pm-07:59pm") [])
  = [Legacy.Prompt;
     Legacy.Shared (Echo (mkTime 8 0 "p") (mkTime 7 59 "p"));
     Legacy.Shared (ActualTime 23 59); Legacy.RoundedTime 24 0]
  /\ snd (mainLoop 1 zeroJunk (line "08:00pm-07:59pm") [])
     = [Prompt; Echo (mkTime 8 0 "p") (mkTime 7 59 "p"); ActualTime 23 59;
        ActualTotalTime 23 59; RoundedTotalTime 24 0].
Proof.
  edestruct versions_agree_on_one_pair
    with (fuel := 0%nat) (junks := zeroJunk)
         (p := (mkTime 8 0 "p", mkTime 7 59 "p"))
         (w := EmptyString) (rest := EmptyString)
         (out := @nil Out) (legacyOut := @nil Legacy.Out)
    as [H1 H2].
  - split; [|split; [|reflexivity]]; unfold valid; simpl;
      (split; [lia|split; [lia|auto]]).
  - reflexivity.
  - split.
    + etransitivity; [apply f_equal; exact H1|reflexivity].
    + etransitivity; [apply f_equal; exact H2|reflexivity].
Defined.

(** ** What [readTime] accepts *)

Lemma scan_digits_zeros (z s : string) :
  allZeros z = true -> scan_digits 0 (z ++ s) = scan_digits 0 s.
Proof.
  induction z as [|c z IH]; [reflexivity|].
  intros H. simpl in H. apply andb_true_iff in H. destruct H as [Hc Hz].
  apply Ascii.eqb_eq in Hc. subst c. cbn [append scan_digits].
  change (isdigit "0"%char) with true. cbv iota.
  change (10 * 0 + (code "0"%char - 48)) with 0. apply IH. exact Hz.
Qed.

(** The one or two digits of a number below 100. *)
Lemma decimal_digits (n : Z) :
  0 <= n <= 99 ->
  (exists d : ascii,
     decimal n = String d EmptyString /\ isdigit d = true
     /\ 10 * 0 + (code d - 48) = n)
  \/ (exists d1 d2 : ascii,
        decimal n = String d1 (String d2 EmptyString)
        /\ isdigit d1 = true /\ isdigit d2 = true
        /\ 10 * (10 * 0 + (code d1 - 48)) + (code d2 - 48) = n).
Proof.
  intros Hn.
  destruct n as [|p|p]; [| |lia].
  - left. exists "0"%char. repeat split; reflexivity.
  - repeat (destruct p as [p|p|]; try lia);
      first [ left; eexists;
              (split; [reflexivity|split; reflexivity])
            | right; eexists; eexists;
              (split; [reflexivity|split; [reflexivity|split; reflexivity]]) ].
Qed.

(** [%d] on a number below 100, written with any zeros in front, followed
    by something that is no digit. *)
Lemma scan_int_decimal (n : Z) (w z : string) (c : ascii) (rest : string) :
  0 <= n <= 99 -> allSpace w = true -> allZeros z = true ->
  isdigit c = false ->
  scan_int (w ++ z ++ decimal n ++ String c rest) = (Some n, String c rest).
Proof.
  intros Hn Hw Hz Hc. rewrite (scan_int_allSpace w _ Hw).
  assert (Hd : scan_digits 0 (z ++ decimal n ++ String c rest)
               = (n, String c rest)).
  { rewrite (scan_digits_zeros z _ Hz).
    destruct (decimal_digits n Hn)
      as [[d [E [H1 Hv]]]|[d1 [d2 [E [H1 [H2 Hv]]]]]];
      rewrite E; cbn [append scan_digits].
    - rewrite H1, Hc, Hv. reflexivity.
    - rewrite H1, H2, Hc, Hv. reflexivity. }
  assert (Hfirst : exists d s, (z ++ decimal n ++ String c rest)%string
                               = String d s /\ isdigit d = true).
  { destruct z as [|x z].
    - destruct (decimal_digits n Hn)
        as [[d [E [H1 _]]]|[d1 [d2 [E [H1 _]]]]]; rewrite E;
        eexists; eexists; (split; [reflexivity|exact H1]).
    - simpl in Hz. apply andb_true_iff in Hz. destruct Hz as [Hx _].
      apply Ascii.eqb_eq in Hx. subst x.
      eexists; eexists; (split; [reflexivity|reflexivity]). }
  destruct Hfirst as [d [s [Es Hdig]]].
  rewrite Es, (scan_int_digit d s Hdig), <- Es, Hd. cbn [fst snd].
  rewrite wrap_small by int_range. reflexivity.
Qed.

Lemma allSpace_first (w : string) (c : ascii) (rest : string) :
  allSpace w = true -> isspace c = false -> isdigit c = false ->
  exists x tail,
    (w ++ String c rest)%string = String x tail /\ isdigit x = false.
Proof.
  intros Hw Hs Hd. destruct w as [|x w].
  - exists c, rest. split; [reflexivity|exact Hd].
  - exists x, (w ++ String c rest)%string. split; [reflexivity|].
    simpl in Hw. apply andb_true_iff in Hw. destruct Hw as [Hx _].
    destruct (isdigit x) eqn:E; [|reflexivity].
    apply isdigit_not_space in E. congruence.
Qed.

(** X15.  What [readTime] accepts: an hour from 1 to 12 and a minute from
    0 to 59 in decimal digits, each with any number of zeros in front, a
    colon between them, and one of the letters [a], [p], [A], [P], with any
    white space, newlines included, before each of the four.  It then
    returns 0, prints nothing, gives that hour and minute and the letter in
    lower case whatever the variables held before, and leaves the input
    right after the letter. *)
Theorem readTime_accepts (junk : Time) (h m : Z) (c : ascii)
        (w1 z1 w2 w3 z2 w4 rest : string) :
  1 <= h <= 12 -> 0 <= m <= 59 ->
  c = "a"%char \/ c = "p"%char \/ c = "A"%char \/ c = "P"%char ->
  allSpace w1 = true -> allSpace w2 = true -> allSpace w3 = true ->
  allSpace w4 = true -> allZeros z1 = true -> allZeros z2 = true ->
  readTime junk
    (w1 ++ z1 ++ decimal h
        ++ w2 ++ String ":"%char
                   (w3 ++ z2 ++ decimal m ++ w4 ++ String c rest))
  = (0, mkTime h m (lowerMeridiem c), rest, []).
Proof.
  intros Hh Hm Hc Hw1 Hw2 Hw3 Hw4 Hz1 Hz2.
  assert (Hcs : isspace c = false /\ isdigit c = false
                /\ (lowerMeridiem c = "a"%char \/ lowerMeridiem c = "p"%char)).
  { destruct Hc as [E|[E|[E|E]]]; subst c;
      (split; [reflexivity|split; [reflexivity|auto]]). }
  destruct Hcs as [Hcs [Hcd Hcl]].
  destruct (allSpace_first w2 ":"%char
              (w3 ++ z2 ++ decimal m ++ w4 ++ String c rest) Hw2
              eq_refl eq_refl) as [x2 [t2 [E2 Hx2]]].
  destruct (allSpace_first w4 c rest Hw4 Hcs Hcd) as [x4 [t4 [E4 Hx4]]].
  unfold readTime, scanf_time.
  rewrite E2, (scan_int_decimal h w1 z1 x2 t2) by (try lia; assumption).
  rewrite <- E2, (skip_space_allSpace w2 _ Hw2).
  cbn [skip_space]. change (isspace ":"%char) with false. cbv iota.
  rewrite E4, (scan_int_decimal m w3 z2 x4 t4) by (try lia; assumption).
  rewrite <- E4, (skip_space_allSpace w4 _ Hw4).
  cbn [skip_space]. rewrite Hcs. cbn [hour minute meridiem].
  assert (Hcheck : (h >? 0) && (h <? 13) && (m >? -1) && (m <? 60)
                   && ((lowerMeridiem c =? "a")%char
                       || (lowerMeridiem c =? "p")%char) = true).
  { apply readTime_check. unfold valid. simpl. auto. }
  rewrite Hcheck. reflexivity.
Qed.

Lemma readTime_accepts_witness :
  readTime zeroTime (" 9 : 05 Pm-5:00pm")%string
  = (0, mkTime 9 5 "p", "m-5:00pm"%string, []).
Proof.
  apply (readTime_accepts zeroTime 9 5 "P" " " "" " " " " "0" " " "m-5:00pm");
    try lia; try reflexivity.
  right; right; right; reflexivity.
Defined.

(** ** The earlier version, pass by pass *)

Lemma skipBufferJunk_leftOf (s : string) : leftOf (Legacy.skipBufferJunk s) s.
Proof.
  induction s as [|c rest IH]; simpl; [apply leftOf_refl|].
  destruct (negb (code c =? code "-"%char) && negb (code c =? EOF)).
  - apply leftOf_cons. exact IH.
  - exists (String c EmptyString). reflexivity.
Qed.

(** Dropping the rest of the line, from anywhere in the input. *)
Lemma cleanBuffer_step (x s : string) :
  leftOf x s ->
  atLineEnd (Legacy.cleanBuffer x) s
  /\ leftOf (Legacy.cleanBuffer x) s
  /\ (s <> EmptyString ->
      (String.length (Legacy.cleanBuffer x) < String.length s)%nat).
Proof.
  intros Hx. rewrite cleanBuffer_afterNewline.
  split; [eapply atLineEnd_leftOf; [apply afterNewline_atLineEnd|exact Hx]|].
  split.
  - eapply leftOf_trans; [|exact Hx].
    rewrite <- clearBufferJunk_newline. apply clearBufferJunk_leftOf.
  - intros Hs. rewrite <- clearBufferJunk_newline.
    apply clearBufferJunk_progress; assumption.
Qed.

Lemma legacy_pass_cases (junk : Time * Time) (s : string)
      (out : list Legacy.Out) :
  match Legacy.pass junk s out with
  | Legacy.Break s' out' =>
      leftOf s' s
      /\ exists t, valid t
                   /\ out' = out ++ [Legacy.Prompt; Legacy.Shared (Echo t t)]
  | Legacy.Again s' out' =>
      atLineEnd s' s /\ leftOf s' s
      /\ (s <> EmptyString -> (String.length s' < String.length s)%nat)
      /\ exists printed, out' = out ++ Legacy.Prompt :: printed
  end.
Proof.
  unfold Legacy.pass. cbv zeta.
  pose proof (readTime_cases (fst junk) s) as H1.
  pose proof (readTime_leftOf (fst junk) s) as L1.
  destruct (readTime (fst junk) s) as [[[r1 t1] s1] o1].
  cbv zeta in H1. cbn [fst snd] in L1.
  destruct H1 as [_ [_ [[R1 [V1 O1]]|[R1 _]]]]; subst r1.
  2:{ simpl Z.eqb. cbv iota.
      destruct (cleanBuffer_step s1 s L1) as [Ha [Hl Hp]].
      split; [exact Ha|]. split; [exact Hl|]. split; [exact Hp|].
      eexists. rewrite <- app_assoc. reflexivity. }
  simpl Z.eqb. cbv iota. subst o1.
  pose proof (readTime_cases (snd junk) (Legacy.skipBufferJunk s1)) as H2.
  pose proof (readTime_leftOf (snd junk) (Legacy.skipBufferJunk s1)) as L2.
  destruct (readTime (snd junk) (Legacy.skipBufferJunk s1))
    as [[[r2 t2] s3] o2].
  cbv zeta in H2. cbn [fst snd] in L2.
  assert (L3 : leftOf s3 s).
  { eapply leftOf_trans; [exact L2|].
    eapply leftOf_trans; [apply skipBufferJunk_leftOf|exact L1]. }
  destruct (cleanBuffer_step s3 s L3) as [Ha [Hl Hp]].
  destruct H2 as [_ [_ [[R2 [V2 O2]]|[R2 _]]]]; subst r2.
  2:{ simpl Z.eqb. cbv iota.
      split; [exact Ha|]. split; [exact Hl|]. split; [exact Hp|].
      eexists. rewrite <- app_assoc. reflexivity. }
  simpl Z.eqb. cbv iota. subst o2.
  destruct (sameTime t1 t2) eqn:Es.
  - apply sameTime_eq in Es. subst t2.
    split; [exact L3|]. exists t1. split; [exact V1|].
    simpl. rewrite <- app_assoc. reflexivity.
  - destruct (timeDifference t1 t2) as [hd md].
    destruct (roundTime hd md) as [rh rm].
    split; [exact Ha|]. split; [exact Hl|]. split; [exact Hp|].
    eexists. simpl. rewrite <- !app_assoc. reflexivity.
Qed.

(** X16.  The earlier version takes one pair from a line: a pass that
    does not stop the program leaves the input at the end of the input or
    right after a newline, having read at least one character if there was
    any, and the program stops, with status 0, only after it echoed a pair
    of identical valid times.  So within as many passes as the input has
    characters it has stopped or read all of its input. *)
Theorem legacy_one_pair_per_line (fuel : nat) (junk : Junk) (s : string)
        (out : list Legacy.Out) :
  (String.length s <= fuel)%nat ->
  match Legacy.pass (junk O) s out with
  | Legacy.Break s' out' =>
      leftOf s' s
      /\ exists t, valid t
                   /\ out' = out ++ [Legacy.Prompt; Legacy.Shared (Echo t t)]
  | Legacy.Again s' out' =>
      atLineEnd s' s /\ leftOf s' s
      /\ (s <> EmptyString -> (String.length s' < String.length s)%nat)
      /\ exists printed, out' = out ++ Legacy.Prompt :: printed
  end
  /\ (fst (fst (Legacy.mainLoop fuel junk s out)) = Some 0
      \/ (fst (fst (Legacy.mainLoop fuel junk s out)) = None
          /\ snd (fst (Legacy.mainLoop fuel junk s out)) = EmptyString)).
Proof.
  intros Hlen. split; [apply legacy_pass_cases|].
  revert junk s out Hlen.
  induction fuel as [|fuel IH]; intros junk s out Hlen.
  - right. destruct s; [split; reflexivity|simpl in Hlen; lia].
  - cbn [Legacy.mainLoop].
    pose proof (legacy_pass_cases (junk O) s out) as Hc.
    destruct (Legacy.pass (junk O) s out) as [s' out'|s' out'];
      [left; reflexivity|].
    destruct Hc as [_ [Hl [Hp _]]].
    apply IH.
    destruct s as [|c s].
    + apply leftOf_length in Hl. simpl in Hl. lia.
    + assert (Hne : String c s <> EmptyString) by discriminate.
      specialize (Hp Hne). simpl in *. lia.
Qed.

Lemma legacy_one_pair_per_line_witness :
  fst (fst (Legacy.main 3 (zeroJunk O) "1-2"%string)) = None
  /\ snd (fst (Legacy.main 3 (zeroJunk O) "1-2"%string)) = EmptyString.
Proof.
  destruct (legacy_one_pair_per_line 3 (zeroJunk O) "1-2"%string
              [Legacy.Welcome]) as [_ [H|H]].
  - simpl. lia.
  - discriminate H.
  - exact H.
Defined.
